(** * AUTOCEPNR (Latam Auto-Filler): rules engine, Sabre screen detection and
      the form-filling workflow, embedded from the Python sources.

    Source files embedded here (paths relative to SITE/AUTOCEPNR_Project):
    - src/core/rules_engine.py       (RulesEngine)
    - src/core/sabre_screen.py       (SabreScreen)
    - src/core/latam_form.py         (LatamForm)
    - src/automation/form_filler.py  (FormFiller)

    rules_engine.py holds an unresolved merge (conflict markers at lines 1,
    269 and 537): the two sides agree on every check and on the body of the
    name classifier and differ in three of its helpers.  Both are embedded,
    as [RulesEngine.Head] and [RulesEngine.Incoming].

    Python [str] values are modelled as [string]; the embedding covers ASCII
    text (code points below 128), where [str.upper], [str.isdigit],
    [str.split] and the [re] character classes act as defined in [Py] and
    [Re].  Message literals are kept as the UTF-8 text of the source. *)

From Stdlib Require Import Ascii String List Bool Arith Lia DecimalString.
From stdpp Require Import base option list gmap strings.

Local Open Scope string_scope.
Local Open Scope list_scope.

(** ** Python string primitives *)
Module Py.

Definition ord (c : ascii) : nat := nat_of_ascii c.

Definition between (lo hi : nat) (c : ascii) : bool :=
  (lo <=? ord c)%nat && (ord c <=? hi)%nat.

Definition is_upper (c : ascii) : bool := between 65 90 c.
Definition is_lower (c : ascii) : bool := between 97 122 c.
Definition is_digit (c : ascii) : bool := between 48 57 c.

(** [str.isspace] on one ASCII character: TAB, LF, VT, FF, CR, the four
    separators FS, GS, RS, US and the space. *)
Definition is_space (c : ascii) : bool := between 9 13 c || between 28 32 c.

Definition upper_char (c : ascii) : ascii :=
  if is_lower c then ascii_of_nat (ord c - 32) else c.

Definition lower_char (c : ascii) : ascii :=
  if is_upper c then ascii_of_nat (ord c + 32) else c.

(** [s.upper()] *)
Fixpoint upper (s : string) : string :=
  match s with
  | EmptyString => EmptyString
  | String c s' => String (upper_char c) (upper s')
  end.

(** [len(s)] *)
Definition len (s : string) : nat := String.length s.

Fixpoint forall_chars (p : ascii -> bool) (s : string) : bool :=
  match s with
  | EmptyString => true
  | String c s' => p c && forall_chars p s'
  end.

Fixpoint exists_char (p : ascii -> bool) (s : string) : bool :=
  match s with
  | EmptyString => false
  | String c s' => p c || exists_char p s'
  end.

(** [s.isdigit()]: false on the empty string. *)
Definition isdigit (s : string) : bool :=
  match s with
  | EmptyString => false
  | _ => forall_chars is_digit s
  end.

(** [s[:n]] and [s[n:]] for a non-negative [n]. *)
Fixpoint take (n : nat) (s : string) : string :=
  match n, s with
  | S k, String c s' => String c (take k s')
  | _, _ => EmptyString
  end.

Fixpoint drop (n : nat) (s : string) : string :=
  match n, s with
  | S k, String _ s' => drop k s'
  | _, _ => s
  end.

(** [sub in s] *)
Fixpoint contains (sub s : string) : bool :=
  String.prefix sub s ||
  match s with
  | EmptyString => false
  | String _ s' => contains sub s'
  end.

Definition snoc (s : string) (c : ascii) : string := s +:+ String c EmptyString.

(** [s.split()]: split on runs of whitespace, no empty pieces. *)
Fixpoint split_ws_from (cur : string) (s : string) : list string :=
  match s with
  | EmptyString => match cur with EmptyString => [] | _ => [cur] end
  | String c s' =>
      if is_space c
      then match cur with
           | EmptyString => split_ws_from EmptyString s'
           | _ => cur :: split_ws_from EmptyString s'
           end
      else split_ws_from (snoc cur c) s'
  end.

Definition split_ws (s : string) : list string := split_ws_from EmptyString s.

(** [s.split(sep)] for a one-character separator (the source only uses
    [' '] and ['/']): every occurrence cuts, empty pieces are kept. *)
Fixpoint split_on_from (sep : ascii) (cur : string) (s : string) : list string :=
  match s with
  | EmptyString => [cur]
  | String c s' =>
      if Ascii.eqb c sep
      then cur :: split_on_from sep EmptyString s'
      else split_on_from sep (snoc cur c) s'
  end.

Definition split_on (sep : ascii) (s : string) : list string :=
  split_on_from sep EmptyString s.

(** [sep.join(parts)] *)
Definition join (sep : string) (parts : list string) : string :=
  String.concat sep parts.

(** [s.replace(old, new)] for a non-empty [old]: the non-overlapping
    occurrences of [old] are replaced from left to right.  [skip] counts
    the characters of a matched occurrence still to be dropped. *)
Fixpoint replace_from (old new : string) (skip : nat) (s : string) : string :=
  match s with
  | EmptyString => EmptyString
  | String c s' =>
      match skip with
      | S k => replace_from old new k s'
      | O =>
          if String.prefix old s
          then new +:+ replace_from old new (len old - 1) s'
          else String c (replace_from old new 0 s')
      end
  end.

(** With an empty [old] Python inserts [new] before every character and at
    the end. *)
Fixpoint intersperse_all (new : string) (s : string) : string :=
  match s with
  | EmptyString => new
  | String c s' => new +:+ String c (intersperse_all new s')
  end.

Definition replace (old new s : string) : string :=
  match old with
  | EmptyString => intersperse_all new s
  | _ => replace_from old new 0 s
  end.

(** [s.ljust(width)]: pad with spaces on the right. *)
Definition ljust (width : nat) (s : string) : string :=
  s +:+ string_of_list_ascii (repeat " "%char (width - len s)).

(** [zip(s, t)] over two strings. *)
Fixpoint zip (s t : string) : list (ascii * ascii) :=
  match s, t with
  | String a s', String b t' => (a, b) :: zip s' t'
  | _, _ => []
  end.

(** [str(n)] / [f"{n}"] for a non-negative integer. *)
Definition str_of_nat (n : nat) : string :=
  NilZero.string_of_uint (Nat.to_uint n).

(** [x in xs] for a list of strings. *)
Definition in_list (x : string) (xs : list string) : bool :=
  bool_decide (x ∈ xs).

(** [list(dict.fromkeys(xs))]: drop repeated items, keep first occurrences
    in order. *)
Fixpoint fromkeys_from (seen : list string) (xs : list string) : list string :=
  match xs with
  | [] => []
  | x :: xs' =>
      if in_list x seen then fromkeys_from seen xs'
      else x :: fromkeys_from (x :: seen) xs'
  end.

Definition fromkeys (xs : list string) : list string := fromkeys_from [] xs.

(** [set(xs)] as a finite set of strings. *)
Definition set_of (xs : list string) : gset string := list_to_set xs.

(** [xs[::-1]] *)
Definition reversed (xs : list string) : list string := rev xs.

(** [s.lower()] *)
Fixpoint lower (s : string) : string :=
  match s with
  | EmptyString => EmptyString
  | String c s' => String (lower_char c) (lower s')
  end.

(** [s.lstrip()], [s.rstrip()] and [s.strip()]: whitespace removed at the
    ends. *)
Fixpoint lstrip (s : string) : string :=
  match s with
  | EmptyString => EmptyString
  | String c s' => if is_space c then lstrip s' else s
  end.

Fixpoint rstrip (s : string) : string :=
  match s with
  | EmptyString => EmptyString
  | String c s' =>
      match rstrip s' with
      | EmptyString => if is_space c then EmptyString else String c EmptyString
      | r => String c r
      end
  end.

Definition strip (s : string) : string := rstrip (lstrip s).

End Py.

(** ** The fragment of Python's [re] used by the sources *)
Module Re.

(** Character sets: a literal, a range [lo-hi], [\s], [\d], a union. *)
Inductive cset : Type :=
| Lit (c : ascii)
| Range (lo hi : ascii)
| Space
| Digit
| Or (x y : cset).

Fixpoint cset_has (cs : cset) (x : ascii) : bool :=
  match cs with
  | Lit c => Ascii.eqb x c
  | Range lo hi => Py.between (Py.ord lo) (Py.ord hi) x
  | Space => Py.is_space x
  | Digit => Py.is_digit x
  | Or l r => cset_has l x || cset_has r x
  end.

Definition swapcase (x : ascii) : ascii :=
  if Py.is_lower x then Py.upper_char x
  else if Py.is_upper x then Py.lower_char x
  else x.

(** Under [re.IGNORECASE] a character matches when it or its other-case
    form is in the set. *)
Definition cset_match (ignorecase : bool) (cs : cset) (x : ascii) : bool :=
  cset_has cs x || (ignorecase && cset_has cs (swapcase x)).

(** Pattern items: one character of a set, a starred set, [^] and [$]. *)
Inductive atom : Type :=
| One (cs : cset)
| Many (cs : cset)
| Bol
| Eol.

Definition pattern : Type := list atom.

(** [$] (no MULTILINE): at the end, or before a final newline. *)
Definition at_end (s : string) : bool :=
  match s with
  | EmptyString => true
  | String c EmptyString => Ascii.eqb c "010"%char
  | _ => false
  end.

(** Does [p] match a prefix of [s]?  [st] tells whether [s] starts at
    position 0 of the subject.  A starred set first tries to take one more
    character and falls back to the rest of the pattern. *)
Fixpoint match_here (ic : bool) (p : pattern) : bool -> string -> bool :=
  match p with
  | [] => fun _ _ => true
  | a :: p' =>
      let k := match_here ic p' in
      match a with
      | One cs => fun _ s =>
          match s with
          | String c s' => if cset_match ic cs c then k false s' else false
          | EmptyString => false
          end
      | Many cs =>
          fix many (st : bool) (s : string) {struct s} : bool :=
            match s with
            | String c s' =>
                if cset_match ic cs c
                then (if many false s' then true else k st s)
                else k st s
            | EmptyString => k st s
            end
      | Bol => fun st s => if st then k st s else false
      | Eol => fun st s => if at_end s then k st s else false
      end
  end.

(** The scan of [re.search] over the start positions, leftmost first. *)
Fixpoint search_from (ic : bool) (p : pattern) (st : bool) (s : string) : bool :=
  if match_here ic p st s then true
  else
    match s with
    | EmptyString => false
    | String _ s' => search_from ic p false s'
    end.

(** [re.search(p, s, flags)] is not None *)
Definition search (p : pattern) (s : string) (ignorecase : bool) : bool :=
  search_from ignorecase p true s.

(** [re.match(p, s)] is not None *)
Definition match_ (p : pattern) (s : string) : bool :=
  match_here false p true s.

(** Pattern builders: a literal word, [cs{n}], [\s*]. *)
Definition lit (w : string) : pattern :=
  map (fun c => One (Lit c)) (list_ascii_of_string w).

Definition times (n : nat) (cs : cset) : pattern := repeat (One cs) n.

Definition ws_star : pattern := [Many Space].

(** [[A-Z0-9]] *)
Definition A_Z0_9 : cset := Or (Range "A" "Z") (Range "0" "9").

End Re.

(** ** Capturing groups: the patterns of [parse_fields] *)
Module ReGroups.

(** One character of a set, or one character outside it ([[^...]]). *)
Inductive cclass : Type :=
| Inside (cs : Re.cset)
| Outside (cs : Re.cset).

(** The patterns are matched without flags. *)
Definition has (cl : cclass) (x : ascii) : bool :=
  match cl with
  | Inside cs => Re.cset_match false cs x
  | Outside cs => negb (Re.cset_match false cs x)
  end.

(** Pattern items: one character, a greedy star, a greedy optional
    character, and the two parentheses of a group. *)
Inductive item : Type :=
| One (cl : cclass)
| Star (cl : cclass)
| Opt (cl : cclass)
| Open
| Close.

(** The groups closed so far, and the text of the group being read. *)
Record captures : Type := mkCaptures {
  closed : list string;
  current : option string
}.

Definition start : captures := mkCaptures [] None.

(** Consuming a character inside an open group adds it to the group. *)
Definition push (c : ascii) (st : captures) : captures :=
  match current st with
  | Some text => mkCaptures (closed st) (Some (Py.snoc text c))
  | None => st
  end.

Definition open_group (st : captures) : captures :=
  mkCaptures (closed st) (Some EmptyString).

Definition close_group (st : captures) : captures :=
  match current st with
  | Some text => mkCaptures (closed st ++ [text]) None
  | None => st
  end.

(** One item in front of the continuation [k].  A greedy item first tries
    to take a character and, if the rest then fails, goes on without it:
    the order in which the backtracking matcher of [re] tries. *)
Definition step (a : item) (k : captures -> string -> option (list string))
    : captures -> string -> option (list string) :=
  match a with
  | One cl => fun st s =>
      match s with
      | String c s' => if has cl c then k (push c st) s' else None
      | EmptyString => None
      end
  | Star cl =>
      fix star (st : captures) (s : string) {struct s} : option (list string) :=
        match s with
        | String c s' =>
            if has cl c
            then match star (push c st) s' with
                 | Some groups => Some groups
                 | None => k st s
                 end
            else k st s
        | EmptyString => k st s
        end
  | Opt cl => fun st s =>
      match s with
      | String c s' =>
          if has cl c
          then match k (push c st) s' with
               | Some groups => Some groups
               | None => k st s
               end
          else k st s
      | EmptyString => k st s
      end
  | Open => fun st s => k (open_group st) s
  | Close => fun st s => k (close_group st) s
  end.

(** The groups of the first way the pattern matches a prefix of [s]. *)
Fixpoint match_here (p : list item) : captures -> string -> option (list string) :=
  match p with
  | [] => fun st _ => Some (closed st)
  | a :: p' => step a (match_here p')
  end.

(** [re.search(p, s).groups()], and [re.findall(p, s)[0]] for a pattern
    with groups: the leftmost match. *)
Fixpoint search (p : list item) (s : string) : option (list string) :=
  match match_here p start s with
  | Some groups => Some groups
  | None =>
      match s with
      | EmptyString => None
      | String _ s' => search p s'
      end
  end.

Definition lit (w : string) : list item :=
  map (fun c => One (Inside (Re.Lit c))) (list_ascii_of_string w).

Definition times (n : nat) (cs : Re.cset) : list item := repeat (One (Inside cs)) n.

(** [(...)] *)
Definition group (p : list item) : list item := [Open] ++ p ++ [Close].

(** [\s*] and [\s+] *)
Definition ws_star : list item := [Star (Inside Re.Space)].
Definition ws_plus : list item := [One (Inside Re.Space); Star (Inside Re.Space)].

Definition A_Z : Re.cset := Re.Range "A" "Z".

End ReGroups.

(** ** [difflib.SequenceMatcher(None, a, b)] of the Python standard
    library, as the HEAD side of rules_engine.py uses it (no junk
    predicate, [autojunk] on) *)
Module Difflib.

Section Matcher.
Variables a b : list ascii.

(** Positions of [x] in [b], ascending. *)
Definition positions (x : ascii) : list nat :=
  List.filter (fun j => bool_decide (b !! j = Some x)) (seq 0 (length b)).

(** The automatic junk heuristic: in a [b] of 200 items or more, an item
    that occurs more than [len(b) // 100 + 1] times is purged from
    [b2j]. *)
Definition popular (x : ascii) : bool :=
  (200 <=? length b)%nat && (length b / 100 + 1 <? length (positions x))%nat.

Definition b2j (x : ascii) : list nat :=
  if popular x then [] else positions x.

Definition same_item (i j : nat) : bool :=
  match a !! i, b !! j with
  | Some x, Some y => Ascii.eqb x y
  | _, _ => false
  end.

(** The inner loop of [find_longest_match] over the positions of
    [a[i]]; a position at or beyond [bhi] breaks out. *)
Fixpoint scan_row (j2len : gmap nat nat) (i blo bhi : nat) (js : list nat)
    (newj2len : gmap nat nat) (best : nat * nat * nat)
    : gmap nat nat * (nat * nat * nat) :=
  match js with
  | [] => (newj2len, best)
  | j :: js' =>
      if (j <? blo)%nat then scan_row j2len i blo bhi js' newj2len best
      else if (bhi <=? j)%nat then (newj2len, best)
      else
        let k := S (match j with
                    | O => 0
                    | S j' => default 0 (j2len !! j')
                    end) in
        let best' := if (snd best <? k)%nat then (i + 1 - k, j + 1 - k, k) else best in
        scan_row j2len i blo bhi js' (<[j := k]> newj2len) best'
  end.

(** The outer loop: [for i in range(alo, ahi)]. *)
Fixpoint scan_rows (rows : list nat) (blo bhi : nat)
    (j2len : gmap nat nat) (best : nat * nat * nat) : nat * nat * nat :=
  match rows with
  | [] => best
  | i :: rows' =>
      let js := match a !! i with Some x => b2j x | None => [] end in
      let '(newj2len, best') := scan_row j2len i blo bhi js ∅ best in
      scan_rows rows' blo bhi newj2len best'
  end.

(** First extension loop: grow the block to the left over equal items. *)
Fixpoint extend_left (alo blo : nat) (besti bestj bestsize : nat) : nat * nat * nat :=
  match besti with
  | O => (besti, bestj, bestsize)
  | S i' =>
      if (alo <? besti)%nat && (blo <? bestj)%nat && same_item i' (bestj - 1)
      then extend_left alo blo i' (bestj - 1) (bestsize + 1)
      else (besti, bestj, bestsize)
  end.

(** Second extension loop: grow the block to the right.  [room] is
    [ahi - (besti + bestsize)], the number of rounds the guard allows. *)
Fixpoint extend_right (room : nat) (ahi bhi : nat) (besti bestj bestsize : nat)
    : nat * nat * nat :=
  match room with
  | O => (besti, bestj, bestsize)
  | S room' =>
      if (besti + bestsize <? ahi)%nat && (bestj + bestsize <? bhi)%nat
         && same_item (besti + bestsize) (bestj + bestsize)
      then extend_right room' ahi bhi besti bestj (bestsize + 1)
      else (besti, bestj, bestsize)
  end.

(** [find_longest_match(alo, ahi, blo, bhi)]; the two junk-extension
    loops never run, the junk set being empty. *)
Definition find_longest_match (alo ahi blo bhi : nat) : nat * nat * nat :=
  let '(i0, j0, k0) := scan_rows (seq alo (ahi - alo)) blo bhi ∅ (alo, blo, 0) in
  let '(i1, j1, k1) := extend_left alo blo i0 j0 k0 in
  extend_right (ahi - (i1 + k1)) ahi bhi i1 j1 k1.

(** The total size of the blocks [get_matching_blocks] collects: its
    work queue is unfolded into the two recursive calls on the windows
    left and right of the longest match.  [fuel] bounds the depth. *)
Fixpoint matched (fuel : nat) (alo ahi blo bhi : nat) : nat :=
  match fuel with
  | O => 0
  | S fuel' =>
      let '(i, j, k) := find_longest_match alo ahi blo bhi in
      if (k =? 0)%nat then 0
      else
        k
        + (if (alo <? i)%nat && (blo <? j)%nat
           then matched fuel' alo i blo j else 0)
        + (if (i + k <? ahi)%nat && (j + k <? bhi)%nat
           then matched fuel' (i + k) ahi (j + k) bhi else 0)
  end.

Definition matches : nat :=
  matched (S (length a)) 0 (length a) 0 (length b).

(** [ratio() > threshold] with [threshold = num / den].  [ratio] is
    [2.0 * matches / length], and [1.0] for two empty sequences.  The
    comparison is made on the exact quotient; the floating-point
    comparison of the source gives the same answer as long as the exact
    quotient is not within one unit in the last place of the threshold
    without being equal to it, which lengths below 10^14 exclude for
    0.70. *)
Definition ratio_gt (num den : nat) : bool :=
  let total := (length a + length b)%nat in
  match total with
  | O => (num <? den)%nat
  | _ => (num * total <? 2 * matches * den)%nat
  end.
End Matcher.

End Difflib.

(** ** src/core/rules_engine.py *)
Module RulesEngine.

(** [@dataclass ValidationResult] *)
Record ValidationResult : Type := mkValidationResult {
  is_valid : bool;
  error_message : option string;
  suggested_action : option string
}.

(** [ValidationResult(is_valid=True)] *)
Definition ok : ValidationResult := mkValidationResult true None None.

(** [ValidationResult(False, msg, action)] *)
Definition failure (msg action : string) : ValidationResult :=
  mkValidationResult false (Some msg) (Some action).

Definition valid_codes : list string := ["PIC_S23"; "PIC_S24"; "PIC_S25"].

Definition _validate_pic_authorization (auth_code : string) : bool :=
  Py.in_list auth_code valid_codes.

Definition eligible_classes : list string := ["Q"; "S"; "Y"].

(** [extracted_data.get(key, '')] *)
Definition get_or_empty (extracted_data : gmap string string) (key : string) : string :=
  default "" (extracted_data !! key).

Definition validate_estouro_classe (extracted_data : gmap string string)
    : ValidationResult :=
  let class_original := Py.upper (get_or_empty extracted_data "classe") in
  let auth_code := Py.upper (get_or_empty extracted_data "auth_code") in
  if negb (Py.in_list class_original eligible_classes) then
    failure ("Classe " +:+ class_original +:+ " não é elegível para estouro de classe")
            "Verificar classe original da reserva"
  else if negb (_validate_pic_authorization auth_code) then
    failure ("Código de autorização " +:+ auth_code +:+ " não permite estouro de classe")
            "Verificar autorização PIC no Sabre"
  else ok.

(** [r'^[A-Z0-9]{6}$'] *)
Definition pnr_pattern : Re.pattern :=
  [Re.Bol] ++ Re.times 6 Re.A_Z0_9 ++ [Re.Eol].

Definition validate_pnr_format (pnr : string) : ValidationResult :=
  if (match pnr with EmptyString => true | _ => false end)
     || negb (Py.len pnr =? 6)%nat then
    failure ("PNR inválido: " +:+ pnr)
            "Verificar formato do PNR (6 caracteres alfanuméricos)"
  else if negb (Re.match_ pnr_pattern pnr) then
    failure ("PNR contém caracteres inválidos: " +:+ pnr)
            "PNR deve conter apenas letras maiúsculas e números"
  else ok.

Definition valid_statuses : list string := ["HK"; "SA"].

Definition validate_flight_status (status : string) : ValidationResult :=
  if negb (Py.in_list (Py.upper status) valid_statuses) then
    failure ("Status de voo " +:+ status +:+ " não permite estouro de classe")
            "Apenas status HK ou SA são permitidos"
  else ok.

Definition month_map : gmap string string :=
  list_to_map
    [("JAN", "01"); ("FEV", "02"); ("MAR", "03"); ("ABR", "04");
     ("MAI", "05"); ("JUN", "06"); ("JUL", "07"); ("AGO", "08");
     ("SET", "09"); ("OUT", "10"); ("NOV", "11"); ("DEZ", "12")].

(** [validate_date_format].  [now_year] is what [datetime.now().year] reads
    from the system clock when the call is made.  On a [str] argument no
    statement of the [try] body raises, so the [except] arm is not
    reached. *)
Definition validate_date_format (now_year : nat) (date_str : string)
    : bool * string :=
  if negb (Py.len date_str =? 5)%nat || negb (Py.isdigit (Py.take 2 date_str)) then
    (false, "Formato de data inválido")
  else
    let day := Py.take 2 date_str in
    let month_abbr := Py.upper (Py.drop 2 date_str) in
    match month_map !! month_abbr with
    | None => (false, "Mês inválido: " +:+ month_abbr)
    | Some month =>
        let year := now_year in
        let formatted_date := day +:+ "/" +:+ month +:+ "/" +:+ Py.str_of_nat year in
        (true, formatted_date)
    end.

Definition valid_carriers : list string := ["LA"; "LP"; "4C"; "JJ"].

Definition validate_carrier_code (carrier : string) : ValidationResult :=
  if negb (Py.in_list (Py.upper carrier) valid_carriers) then
    failure ("Carrier " +:+ carrier +:+ " não mapeado")
            ("Carrier deve ser um dos: " +:+ Py.join ", " valid_carriers)
  else ok.

Definition titles : list string := ["MS"; "MR"; "MSTR"; "JR"; "NETO"; "FILHO"].

(** [_normalize_name]: upper-case, delete every title as a substring in
    list order, then collapse whitespace. *)
Definition _normalize_name (name : string) : string :=
  let name_upper :=
    fold_left (fun acc title => Py.replace title "" acc) titles (Py.upper name) in
  Py.join " " (Py.split_ws name_upper).

Definition _is_duplication_correction (old_name new_name : string) : bool :=
  let old_parts := Py.split_ws old_name in
  let new_parts := Py.split_ws new_name in
  bool_decide (new_parts = Py.fromkeys old_parts).

Definition agnames : list string := ["JR"; "NETO"; "FILHO"; "SR"].

Definition _is_agname_correction (old_name new_name : string) : bool :=
  let old_has_agname := existsb (fun agname => Py.contains agname (Py.upper old_name)) agnames in
  let new_has_agname := existsb (fun agname => Py.contains agname (Py.upper new_name)) agnames in
  negb (Bool.eqb old_has_agname new_has_agname).

Definition rejected : ValidationResult :=
  failure "Correção de nome requer documentação comprobatória"
          "Anexar documentação para mudança legal (casamento, divórcio, etc.)".

(** The body of [validate_name_correction], which is the same text on both
    sides of the unresolved merge in rules_engine.py; the three helpers
    that differ between the sides are passed in. *)
Definition classify
    (_is_orthographic_correction _is_inverted_names _is_addition_correction
       : string -> string -> bool)
    (old_name new_name : string) : ValidationResult :=
  let old_clean := _normalize_name old_name in
  let new_clean := _normalize_name new_name in
  if String.eqb old_clean new_clean then ok
  else if _is_orthographic_correction old_clean new_clean then ok
  else if _is_inverted_names old_clean new_clean then ok
  else if _is_addition_correction old_clean new_clean then ok
  else if _is_duplication_correction old_clean new_clean then ok
  else if _is_agname_correction old_clean new_clean then ok
  else rejected.

(** *** The HEAD side of the merge (lines 2-268 of the file) *)
Module Head.

(** Similarity ratio above 0.70. *)
Definition _is_orthographic_correction (old_name new_name : string) : bool :=
  Difflib.ratio_gt (list_ascii_of_string old_name) (list_ascii_of_string new_name) 70 100.

(** One round of the loop over the separators [' '] and ['/']. *)
Definition inverted_on (separator : ascii) (old_name new_name : string) : bool :=
  let sep := String separator EmptyString in
  if Py.contains sep old_name || Py.contains sep new_name then
    let old_parts := if Py.contains sep old_name
                     then Py.split_on separator old_name else [old_name] in
    let new_parts := if Py.contains sep new_name
                     then Py.split_on separator new_name else [new_name] in
    (length old_parts =? length new_parts)%nat && (1 <? length old_parts)%nat
    && bool_decide (old_parts = Py.reversed new_parts)
  else false.

Definition _is_inverted_names (old_name new_name : string) : bool :=
  existsb (fun separator => inverted_on separator old_name new_name)
          [" "%char; "/"%char].

Definition _is_addition_correction (old_name new_name : string) : bool :=
  let old_parts := Py.set_of (Py.split_ws (Py.replace "/" " " old_name)) in
  let new_parts := Py.set_of (Py.split_ws (Py.replace "/" " " new_name)) in
  bool_decide (old_parts ⊆ new_parts) && (size old_parts <? size new_parts)%nat.

Definition validate_name_correction : string -> string -> ValidationResult :=
  classify _is_orthographic_correction _is_inverted_names _is_addition_correction.

End Head.

(** *** The incoming side of the merge, commit 7a10112 (lines 270-536) *)
Module Incoming.

Definition max_diffs : nat := 3.

(** The counting loop over [zip(old_padded, new_padded)]; [None] is the
    early [return False]. *)
Fixpoint count_diffs (pairs : list (ascii * ascii)) (diff_count : nat) : option nat :=
  match pairs with
  | [] => Some diff_count
  | (old_char, new_char) :: pairs' =>
      if negb (Ascii.eqb old_char new_char) then
        let diff_count' := diff_count + 1 in
        if (max_diffs <? diff_count')%nat then None
        else count_diffs pairs' diff_count'
      else count_diffs pairs' diff_count
  end.

Definition _is_orthographic_correction (old_name new_name : string) : bool :=
  let max_len := Nat.max (Py.len old_name) (Py.len new_name) in
  let old_padded := Py.ljust max_len old_name in
  let new_padded := Py.ljust max_len new_name in
  match count_diffs (Py.zip old_padded new_padded) 0 with
  | None => false
  | Some diff_count => (diff_count <=? max_diffs)%nat
  end.

Definition _is_inverted_names (old_name new_name : string) : bool :=
  let old_parts := Py.split_ws old_name in
  let new_parts := Py.split_ws new_name in
  if negb (length old_parts =? length new_parts)%nat then false
  else bool_decide (old_parts = Py.reversed new_parts).

Definition _is_addition_correction (old_name new_name : string) : bool :=
  let old_parts := Py.set_of (Py.split_ws old_name) in
  let new_parts := Py.set_of (Py.split_ws new_name) in
  bool_decide (old_parts ⊆ new_parts) && (size old_parts <? size new_parts)%nat.

Definition validate_name_correction : string -> string -> ValidationResult :=
  classify _is_orthographic_correction _is_inverted_names _is_addition_correction.

End Incoming.

End RulesEngine.

(** ** src/core/sabre_screen.py *)
Module SabreScreen.
Import RulesEngine.

(** [@dataclass SabreField]; [confidence] is kept in hundredths. *)
Record SabreField : Type := mkSabreField {
  name : string;
  value : string;
  confidence : nat;
  position : nat * nat * nat * nat
}.

(** The eight indicator patterns of [detect_sabre_pattern], in source
    order. *)
Definition sabre_indicators : list Re.pattern :=
  [ Re.lit "Reserva" ++ Re.ws_star ++ Re.lit "-" ++ Re.ws_star ++ Re.times 6 Re.A_Z0_9;
    Re.lit "Nomes";
    Re.lit "Voo" ++ Re.ws_star ++ Re.lit "(CIA)";
    Re.lit "Voo" ++ Re.ws_star ++ Re.lit "(Numero)";
    Re.lit "Cls";
    Re.lit "De-Para";
    Re.lit "Data";
    Re.lit "Stp" ++ Re.ws_star ++ Re.lit "Nbr" ].

(** The counting loop: one more for every pattern that [re.search] finds
    with [re.IGNORECASE]. *)
Definition count_indicators (extracted_text : string) : nat :=
  fold_left
    (fun found_indicators pattern =>
       if Re.search pattern extracted_text true
       then found_indicators + 1 else found_indicators)
    sabre_indicators 0.

(** The five patterns of [parse_fields], matched without flags. *)
Definition LF_char : ascii := "010"%char.

(** [Reserva\s*-\s*([A-Z0-9]{6})] *)
Definition pnr_regex : list ReGroups.item :=
  ReGroups.lit "Reserva" ++ ReGroups.ws_star ++ ReGroups.lit "-" ++ ReGroups.ws_star
  ++ ReGroups.group (ReGroups.times 6 Re.A_Z0_9).

(** [Nomes\s*\n\s*([^\n]+)] *)
Definition name_regex : list ReGroups.item :=
  ReGroups.lit "Nomes" ++ ReGroups.ws_star
  ++ [ReGroups.One (ReGroups.Inside (Re.Lit LF_char))] ++ ReGroups.ws_star
  ++ ReGroups.group [ReGroups.One (ReGroups.Outside (Re.Lit LF_char));
                     ReGroups.Star (ReGroups.Outside (Re.Lit LF_char))].

(** [([A-Z]{2})\s+(\d{3,4})\s+([A-Z])\s+([A-Z]{3}-[A-Z]{3})\s+(\d{2}[A-Z]{3})\s+([A-Z]{2,3})] *)
Definition flight_regex : list ReGroups.item :=
  ReGroups.group (ReGroups.times 2 ReGroups.A_Z) ++ ReGroups.ws_plus
  ++ ReGroups.group (ReGroups.times 3 Re.Digit ++ [ReGroups.Opt (ReGroups.Inside Re.Digit)])
  ++ ReGroups.ws_plus
  ++ ReGroups.group (ReGroups.times 1 ReGroups.A_Z) ++ ReGroups.ws_plus
  ++ ReGroups.group (ReGroups.times 3 ReGroups.A_Z ++ ReGroups.lit "-"
                     ++ ReGroups.times 3 ReGroups.A_Z)
  ++ ReGroups.ws_plus
  ++ ReGroups.group (ReGroups.times 2 Re.Digit ++ ReGroups.times 3 ReGroups.A_Z)
  ++ ReGroups.ws_plus
  ++ ReGroups.group (ReGroups.times 2 ReGroups.A_Z
                     ++ [ReGroups.Opt (ReGroups.Inside ReGroups.A_Z)]).

(** [TE\s+(\d{3}-\d{10})] *)
Definition tkt_regex : list ReGroups.item :=
  ReGroups.lit "TE" ++ ReGroups.ws_plus
  ++ ReGroups.group (ReGroups.times 3 Re.Digit ++ ReGroups.lit "-"
                     ++ ReGroups.times 10 Re.Digit).

(** [Auth\s*Code\s*:\s*([A-Z0-9_]+)] *)
Definition auth_class : Re.cset := Re.Or Re.A_Z0_9 (Re.Lit "_").

Definition auth_regex : list ReGroups.item :=
  ReGroups.lit "Auth" ++ ReGroups.ws_star ++ ReGroups.lit "Code" ++ ReGroups.ws_star
  ++ ReGroups.lit ":" ++ ReGroups.ws_star
  ++ ReGroups.group [ReGroups.One (ReGroups.Inside auth_class);
                     ReGroups.Star (ReGroups.Inside auth_class)].

Definition no_position : nat * nat * nat * nat := (0, 0, 0, 0).

(** [fields[key] = SabreField(key, value, confidence, (0, 0, 0, 0))] *)
Definition put (key value : string) (confidence : nat)
    (fields : gmap string SabreField) : gmap string SabreField :=
  <[key := mkSabreField key value confidence no_position]> fields.

(** The one group of a match, if the pattern was found. *)
Definition group1 (p : list ReGroups.item) (text : string) : option string :=
  match ReGroups.search p text with
  | Some (g :: _) => Some g
  | _ => None
  end.

(** The [try] body of [parse_fields]: the dictionary it builds from the
    text.  [None] stands for an exception, which only the unpacking of a
    flight line into six names could raise. *)
Definition extract (text : string) : option (gmap string SabreField) :=
  let fields : gmap string SabreField := ∅ in
  let fields :=
    match group1 pnr_regex text with
    | Some g => put "pnr" (Py.upper g) 95 fields
    | None => fields
    end in
  let fields :=
    match group1 name_regex text with
    | Some g => put "passenger_name" (Py.strip g) 90 fields
    | None => fields
    end in
  match
    match ReGroups.search flight_regex text with
    | None => Some fields
    | Some [carrier; flight_num; classe; trecho; data_voo; status] =>
        Some (put "status" status 95
                (put "data_voo" data_voo 95
                   (put "trecho" trecho 95
                      (put "classe" classe 95
                         (put "flight_num" flight_num 95
                            (put "carrier" carrier 95 fields))))))
    | Some _ => None
    end
  with
  | None => None
  | Some fields =>
      let fields :=
        match group1 tkt_regex text with
        | Some g => put "ticket_number" g 90 fields
        | None => fields
        end in
      let fields :=
        match group1 auth_regex text with
        | Some g => put "auth_code" g 85 fields
        | None => fields
        end in
      Some fields
  end.

Section Screen.
(** The captured image ([np.ndarray]) and the two library calls the
    class makes on its behalf: [cv2.cvtColor], which raises on an array
    it cannot convert, and the regular-expression extraction of
    [parse_fields] ([None] when it raises). *)
Variable Image : Type.
Variable cvtColor_raises : Image -> bool.
Variable extract_fields : string -> option (gmap string SabreField).

(** The attributes of a [SabreScreen] object. *)
Record t : Type := mk {
  raw_image : option Image;
  extracted_text : string;
  extracted_fields : gmap string SabreField;
  is_valid_screen : bool
}.

(** [SabreScreen(rules_engine)] *)
Definition init : t := mk None "" ∅ false.

(** [_extract_text_with_ocr]: the placeholder returns the stored text. *)
Definition _extract_text_with_ocr (self : t) : string := extracted_text self.

(** [detect_sabre_pattern]: the returned flag and the object after the
    call. *)
Definition detect_sabre_pattern (self : t) : bool * t :=
  match raw_image self with
  | None => (false, self)
  | Some image =>
      if cvtColor_raises image then (false, self)
      else
        let text := _extract_text_with_ocr self in
        let found_indicators := count_indicators text in
        let valid := (5 <=? found_indicators)%nat in
        (valid, mk (raw_image self) text (extracted_fields self) valid)
  end.

(** [parse_fields] *)
Definition parse_fields (self : t) : gmap string SabreField * t :=
  if negb (is_valid_screen self) then (∅, self)
  else
    match extract_fields (extracted_text self) with
    | Some fields =>
        (fields, mk (raw_image self) (extracted_text self) fields (is_valid_screen self))
    | None => (∅, self)
    end.

(** [validate_integrity] *)
Definition validate_integrity (self : t) : list ValidationResult :=
  let fields := extracted_fields self in
  let results := [] in
  let results :=
    match fields !! "pnr" with
    | Some f => results ++ [validate_pnr_format (value f)]
    | None => results
    end in
  let results :=
    match fields !! "status" with
    | Some f => results ++ [validate_flight_status (value f)]
    | None => results
    end in
  let results :=
    match fields !! "carrier" with
    | Some f => results ++ [validate_carrier_code (value f)]
    | None => results
    end in
  let results :=
    match fields !! "classe", fields !! "auth_code" with
    | Some c, Some a =>
        results ++ [validate_estouro_classe
                      (<["auth_code" := value a]> (<["classe" := value c]> ∅))]
    | _, _ => results
    end in
  results.
End Screen.

Arguments mk {Image}.
Arguments raw_image {Image}.
Arguments extracted_text {Image}.
Arguments extracted_fields {Image}.
Arguments is_valid_screen {Image}.
Arguments init {Image}.
Arguments detect_sabre_pattern {Image}.
Arguments parse_fields {Image}.
Arguments validate_integrity {Image}.

Section Accessors.
Variable Image : Type.

(** [get_field_value] *)
Definition get_field_value (self : t Image) (field_name : string) : option string :=
  value <$> extracted_fields self !! field_name.

(** [get_all_fields] *)
Definition get_all_fields (self : t Image) : gmap string string :=
  value <$> extracted_fields self.

(** [get_field_confidence], in hundredths; 0.0 for a missing field. *)
Definition get_field_confidence (self : t Image) (field_name : string) : nat :=
  match extracted_fields self !! field_name with
  | Some f => confidence f
  | None => 0
  end.

Definition required_fields : list string :=
  ["pnr"; "carrier"; "flight_num"; "classe"; "data_voo"; "trecho"; "status"].

(** [is_complete] *)
Definition is_complete (self : t Image) : bool :=
  forallb (fun field => bool_decide (is_Some (extracted_fields self !! field)))
          required_fields.
End Accessors.

Arguments get_field_value {Image}.
Arguments get_all_fields {Image}.
Arguments get_field_confidence {Image}.
Arguments is_complete {Image}.

End SabreScreen.

(** ** src/ocr/sabre_ocr.py: the text-only format check *)
Module SabreOCR.

Definition sabre_patterns : list Re.pattern :=
  [ Re.lit "Reserva" ++ Re.ws_star ++ Re.lit "-" ++ Re.ws_star ++ Re.times 6 Re.A_Z0_9;
    Re.lit "Nomes";
    Re.lit "Voo" ++ Re.ws_star ++ Re.lit "(CIA)";
    Re.lit "Voo" ++ Re.ws_star ++ Re.lit "(Numero)";
    Re.lit "Cls";
    Re.lit "De-Para";
    Re.lit "Data";
    Re.lit "Stp" ++ Re.ws_star ++ Re.lit "Nbr" ].

(** [validate_sabre_format] *)
Definition validate_sabre_format (extracted_text : string) : bool :=
  let found_patterns :=
    fold_left
      (fun found_patterns pattern =>
         if Re.search pattern extracted_text true
         then found_patterns + 1 else found_patterns)
      sabre_patterns 0 in
  (5 <=? found_patterns)%nat.

End SabreOCR.

(** ** src/core/latam_form.py *)
Module LatamForm.
Import RulesEngine.

(** The result of a call that may raise: a value, or the text of the
    exception. *)
Inductive outcome (A : Type) : Type :=
| Returned (x : A)
| Raised (msg : string).
Arguments Returned {A}.
Arguments Raised {A}.

(** One entry of [self.field_mappings]. *)
Record field_config : Type := mkConfig {
  selector : string;
  transform : option (string -> outcome string);
  type_ : option string;
  read_only : bool
}.

(** The calls made on the Playwright page. *)
Inductive action : Type :=
| Click (selector : string)
| WaitForTimeout (ms : nat)
| KeyboardType (text : string)
| KeyboardPress (key : string)
| Fill (selector value : string)
| Type_ (selector value : string) (delay : nat).

(** What [query_selector] followed by reading the element gives: no
    element, or an element and the text read from it ([get_attribute('value')
    or inner_text()], empty when both are empty). *)
Inductive element : Type :=
| Absent
| Present (text : string).

Section Form.
(** The remote page: its state, the effect of an action on it and what a
    query sees.  Either may raise. *)
Variable Page : Type.
Variable perform : action -> Page -> Page * outcome unit.
Variable query : string -> Page -> Page * outcome element.

(** [datetime.now().year] during the run. *)
Variable now_year : nat.

(** [_format_date_brazilian] *)
Definition _format_date_brazilian (date_str : string) : string :=
  let '(is_valid, formatted_date) := validate_date_format now_year date_str in
  if is_valid then formatted_date else date_str.

(** The double-quote character of the selector literals. *)
Definition dq : string := String (ascii_of_nat 34) EmptyString.

(** [tag[id="ident"]] *)
Definition by_id (tag ident : string) : string :=
  tag +:+ "[id=" +:+ dq +:+ ident +:+ dq +:+ "]".

Definition input (sel : string) (f : string -> outcome string) : field_config :=
  mkConfig sel (Some f) None false.

Definition select (sel : string) : field_config :=
  mkConfig sel None (Some "select") false.

(** [self.field_mappings], in insertion order.  The transform of
    ['vuelo'] calls [re.sub], and latam_form.py does not import [re]:
    calling it raises [NameError]. *)
Definition field_mappings : list (string * field_config) :=
  [ ("pnr", input (by_id "input" "form:txt_pnrCdg") (fun x => Returned (Py.upper x)));
    ("cidade", input (by_id "input" "form:ciudadPrioridadNombreCiudad_input")
                 (fun x => Returned x));
    ("pais", mkConfig (by_id "input" "form:ciudadPrioridadNombrePais") None None true);
    ("departamento", select (by_id "label" "form:departamentos_label"));
    ("razao", select (by_id "label" "form:razonEnabled_label"));
    ("autorizador", select (by_id "label" "form:authorizerEnabled_label"));
    ("num_segmento", input (by_id "input" "form:txt_segmentNum") (fun x => Returned x));
    ("carrier", select (by_id "label" "form:carrierEnabled_label"));
    ("vuelo", input (by_id "input" "form:txt_vuelotNum")
                (fun _ => Raised "name 're' is not defined"));
    ("classe", select (by_id "label" "form:classEnabled_label"));
    ("data_voo", input (by_id "input" "form:dateFlight_input")
                   (fun x => Returned (_format_date_brazilian x)));
    ("segmento", input (by_id "input" "form:txt_segment")
                   (fun x => Returned (Py.replace "-" "/" x)));
    ("pax", select (by_id "label" "form:pax_paxID_label"));
    ("cto_des", input (by_id "input" "form:txt_ctoDes") (fun x => Returned x)) ].

(** The state threaded through a run: the page, and the log of the
    [_fill_field] calls made so far (field name and value passed), oldest
    first. *)
Record world : Type := mkWorld {
  page : Page;
  fill_calls : list (string * string)
}.

(** Run the page actions in order; the first that raises stops the
    sequence. *)
Fixpoint perform_all (acts : list action) (p : Page) : Page * outcome unit :=
  match acts with
  | [] => (p, Returned tt)
  | act :: acts' =>
      match perform act p with
      | (p', Returned _) => perform_all acts' p'
      | (p', Raised msg) => (p', Raised msg)
      end
  end.

Definition fill_error (field_name msg : string) : ValidationResult :=
  failure ("Erro ao preencher campo " +:+ field_name +:+ ": " +:+ msg)
          "Verificar se o campo está visível".

(** The body of [_fill_field] on the page. *)
Definition fill_on_page (field_name value : string) (cfg : field_config) (p : Page)
    : Page * ValidationResult :=
  let sel := selector cfg in
  let transformed :=
    match transform cfg with
    | Some f => f value
    | None => Returned value
    end in
  match transformed with
  | Raised msg => (p, fill_error field_name msg)
  | Returned value =>
      if bool_decide (type_ cfg = Some "select") || Py.contains "label" sel then
        match perform_all [Click sel; WaitForTimeout 100;
                           KeyboardType value; KeyboardPress "Enter"] p with
        | (p', Returned _) => (p', ok)
        | (p', Raised msg) => (p', fill_error field_name msg)
        end
      else if read_only cfg then
        match query sel p with
        | (p', Returned Absent) => (p', ok)
        | (p', Returned (Present current_value)) =>
            if Py.forall_chars Py.is_space current_value
            then (p', failure ("Campo " +:+ field_name +:+ " não preenchido")
                              "Verificar preenchimento automático")
            else (p', ok)
        | (p', Raised msg) => (p', fill_error field_name msg)
        end
      else
        match perform_all [Fill sel ""; Type_ sel value 50] p with
        | (p', Returned _) => (p', ok)
        | (p', Raised msg) => (p', fill_error field_name msg)
        end
  end.

(** [_fill_field]: every exception is turned into a failed result. *)
Definition _fill_field (field_name value : string) (cfg : field_config) (w : world)
    : world * ValidationResult :=
  let '(p', result) := fill_on_page field_name value cfg (page w) in
  (mkWorld p' (fill_calls w ++ [(field_name, value)]), result).

(** The loop of [fill_all] over [self.field_mappings.items()]. *)
Fixpoint fill_loop (items : list (string * field_config))
    (extracted_data : gmap string string) (w : world)
    (results : list ValidationResult) : world * list ValidationResult :=
  match items with
  | [] => (w, results)
  | (field_name, cfg) :: items' =>
      match extracted_data !! field_name with
      | Some v =>
          let '(w', result) := _fill_field field_name v cfg w in
          fill_loop items' extracted_data w' (results ++ [result])
      | None => fill_loop items' extracted_data w results
      end
  end.

Definition not_loaded : ValidationResult :=
  failure "Formulário não carregado" "Focar no formulário Latam".

(** [fill_all] *)
Definition fill_all (is_form_loaded : bool) (extracted_data : gmap string string)
    (w : world) : world * list ValidationResult :=
  if negb is_form_loaded then (w, [not_loaded])
  else fill_loop field_mappings extracted_data w [].

Definition submit_selectors : list string :=
  [ "button[type=" +:+ dq +:+ "submit" +:+ dq +:+ "]";
    "input[type=" +:+ dq +:+ "submit" +:+ dq +:+ "]";
    "button:has-text(" +:+ dq +:+ "Enviar" +:+ dq +:+ ")";
    "button:has-text(" +:+ dq +:+ "Submit" +:+ dq +:+ ")";
    "#submit"; ".submit" ].

Definition success_indicators : list string :=
  [ "text=" +:+ dq +:+ "Sucesso" +:+ dq;
    "text=" +:+ dq +:+ "Success" +:+ dq;
    "text=" +:+ dq +:+ "Formulário enviado" +:+ dq;
    ".success"; ".confirmation" ].

(** The first selector whose query finds an element; a query that raises
    is skipped. *)
Fixpoint find_first (selectors : list string) (p : Page) : Page * option string :=
  match selectors with
  | [] => (p, None)
  | sel :: selectors' =>
      match query sel p with
      | (p', Returned (Present _)) => (p', Some sel)
      | (p', _) => find_first selectors' p'
      end
  end.

(** [submit_form] *)
Definition submit_form (is_form_loaded : bool) (w : world)
    : world * ValidationResult :=
  if negb is_form_loaded then (w, not_loaded)
  else
    let submit_error msg :=
      failure ("Erro ao submeter formulário: " +:+ msg)
              "Verificar conexão e formulário" in
    match find_first submit_selectors (page w) with
    | (p1, Some submit_button) =>
        match perform_all [Click submit_button; WaitForTimeout 1000] p1 with
        | (p2, Returned _) =>
            match find_first success_indicators p2 with
            | (p3, Some _) => (mkWorld p3 (fill_calls w), ok)
            | (p3, None) =>
                (mkWorld p3 (fill_calls w),
                 mkValidationResult true
                   (Some "Formulário submetido (verificar confirmação manualmente)")
                   None)
            end
        | (p2, Raised msg) => (mkWorld p2 (fill_calls w), submit_error msg)
        end
    | (p1, None) =>
        (mkWorld p1 (fill_calls w),
         failure "Botão de envio não encontrado"
                 "Verificar se o formulário está completo")
    end.
End Form.

Arguments mkWorld {Page}.
Arguments page {Page}.
Arguments fill_calls {Page}.

End LatamForm.

(** ** src/automation/form_filler.py *)
Module FormFiller.
Import RulesEngine.

(** [@dataclass FillResult]; [processing_time], a difference of two clock
    readings, is not modelled. *)
Record FillResult : Type := mkFillResult {
  success : bool;
  field_results : list ValidationResult;
  submission_result : option ValidationResult;
  error_message : option string
}.

(** The renaming table of [_map_sabre_to_latam], in insertion order. *)
Definition sabre_to_latam : list (string * string) :=
  [ ("pnr", "pnr"); ("carrier", "carrier"); ("flight_num", "vuelo");
    ("classe", "classe"); ("data_voo", "data_voo"); ("trecho", "segmento");
    ("status", "num_segmento"); ("passenger_name", "pax") ].

(** The fixed values written after the renaming. *)
Definition static_values : list (string * string) :=
  [ ("cidade", "SCL"); ("departamento", "Departamento Técnico");
    ("razao", "PIC - Upgrade"); ("autorizador", "Supervisor Autorizado");
    ("cto_des", "UPGRADE") ].

(** [_map_sabre_to_latam] *)
Definition _map_sabre_to_latam (sabre_fields : gmap string SabreScreen.SabreField)
    : gmap string string :=
  let mapped_fields :=
    fold_left
      (fun mapped '(sabre_field, latam_field) =>
         match sabre_fields !! sabre_field with
         | Some f => <[latam_field := SabreScreen.value f]> mapped
         | None => mapped
         end)
      sabre_to_latam ∅ in
  fold_left (fun mapped '(k, v) => <[k := v]> mapped) static_values mapped_fields.

Section Workflow.
Variable Image : Type.
Variable cvtColor_raises : Image -> bool.
Variable extract_fields : string -> option (gmap string SabreScreen.SabreField).
Variable Page : Type.
Variable perform : LatamForm.action -> Page -> Page * LatamForm.outcome unit.
Variable query : string -> Page -> Page * LatamForm.outcome LatamForm.element.
Variable now_year : nat.

(** [ImageProcessor.process_image_input]: the image, if any, and the
    recognised text, or an exception. *)
Variable Source : Type.
Variable process_image_input : Source -> LatamForm.outcome (option Image * string).

(** The objects a [FormFiller] holds once [initialize_components] has
    run: the screen, whether [self.latam_form] is set, and its
    [is_form_loaded] flag. *)
Record t : Type := mk {
  sabre_screen : SabreScreen.t Image;
  latam_form : option bool
}.

Definition form_loaded (self : t) : bool :=
  match latam_form self with
  | Some is_form_loaded => is_form_loaded
  | None => false
  end.

(** [process_complete_workflow]: the result, the filler after the run and
    the world after the run. *)
Definition process_complete_workflow (self : t) (image_source : Source)
    (w : LatamForm.world Page) : FillResult * t * LatamForm.world Page :=
  match process_image_input image_source with
  | LatamForm.Raised msg =>
      (mkFillResult false [] None (Some ("Workflow error: " +:+ msg)), self, w)
  | LatamForm.Returned (image, extracted_text) =>
      if (Py.len extracted_text =? 0)%nat then
        (mkFillResult false [] None (Some "No text extracted from image"), self, w)
      else
        let screen0 :=
          SabreScreen.mk image extracted_text
            (SabreScreen.extracted_fields (sabre_screen self))
            (SabreScreen.is_valid_screen (sabre_screen self)) in
        let '(detected, screen1) :=
          SabreScreen.detect_sabre_pattern cvtColor_raises screen0 in
        let screen2 :=
          SabreScreen.mk (SabreScreen.raw_image screen1)
            (SabreScreen.extracted_text screen1)
            (SabreScreen.extracted_fields screen1) detected in
        if negb (SabreScreen.is_valid_screen screen2) then
          (mkFillResult false [] None (Some "Invalid Sabre screen format detected"),
           mk screen2 (latam_form self), w)
        else
          let '(extracted_fields, screen3) :=
            SabreScreen.parse_fields extract_fields screen2 in
          let self' := mk screen3 (latam_form self) in
          let validation_results := SabreScreen.validate_integrity screen3 in
          let critical_failures :=
            List.filter (fun r => negb (is_valid r)) validation_results in
          match critical_failures with
          | _ :: _ =>
              (mkFillResult false validation_results None
                 (Some ("Critical validation failures: "
                        +:+ Py.str_of_nat (length critical_failures))),
               self', w)
          | [] =>
              if negb (form_loaded self') then
                (mkFillResult false validation_results None
                   (Some "Latam form not available or not loaded"), self', w)
              else
                let field_mapping := _map_sabre_to_latam extracted_fields in
                let '(w1, fill_results) :=
                  LatamForm.fill_all Page perform query now_year
                    (form_loaded self') field_mapping w in
                let '(w2, submission_result) :=
                  LatamForm.submit_form Page perform query (form_loaded self') w1 in
                let total_success :=
                  forallb is_valid fill_results && is_valid submission_result in
                (mkFillResult total_success fill_results (Some submission_result) None,
                 self', w2)
          end
  end.
End Workflow.

Section Retry.
Variable Page : Type.
Variable perform : LatamForm.action -> Page -> Page * LatamForm.outcome unit.
Variable query : string -> Page -> Page * LatamForm.outcome LatamForm.element.
Variable now_year : nat.

(** [self.latam_form.field_mappings.get(field_name)] *)
Fixpoint config_of (items : list (string * LatamForm.field_config)) (field_name : string)
    : option LatamForm.field_config :=
  match items with
  | [] => None
  | (k, cfg) :: items' =>
      if String.eqb k field_name then Some cfg else config_of items' field_name
  end.

(** [fill_single_field]; [latam_form] is [None] when no form is set, else
    its [is_form_loaded] flag. *)
Definition fill_single_field (latam_form : option bool) (field_name value : string)
    (w : LatamForm.world Page) : LatamForm.world Page * ValidationResult :=
  if negb (match latam_form with Some loaded => loaded | None => false end) then
    (w, failure "Formulário não carregado" "Focar no formulário Latam")
  else
    match config_of (LatamForm.field_mappings now_year) field_name with
    | None =>
        (w, failure ("Campo " +:+ field_name +:+ " não mapeado")
                    "Verificar mapeamento de campos")
    | Some field_config =>
        LatamForm._fill_field Page perform query field_name value field_config w
    end.

(** The loop of [_extract_field_name_from_result] over the words of the
    message: the word after the first "campo" that has a successor. *)
Fixpoint word_after_campo (parts : list string) : option string :=
  match parts with
  | part :: ((next :: _) as rest) =>
      if String.eqb (Py.lower part) "campo"
      then Some (Py.replace "." "" (Py.replace ":" "" next))
      else word_after_campo rest
  | _ => None
  end.

(** [_extract_field_name_from_result] *)
Definition _extract_field_name_from_result (result : ValidationResult) : option string :=
  match RulesEngine.error_message result with
  | None | Some EmptyString => None
  | Some message =>
      if Py.contains "campo" (Py.lower message)
      then word_after_campo (Py.split_ws message)
      else None
  end.

(** [retry_failed_fields]: the loop over the earlier results. *)
Fixpoint retry_failed_fields (latam_form : option bool)
    (fill_results : list ValidationResult) (extracted_data : gmap string string)
    (w : LatamForm.world Page) : LatamForm.world Page * list ValidationResult :=
  match fill_results with
  | [] => (w, [])
  | result :: rest =>
      let '(w1, retried) :=
        if negb (is_valid result) then
          match _extract_field_name_from_result result with
          | Some (String c name' as field_name) =>
              match extracted_data !! field_name with
              | Some v => fill_single_field latam_form field_name v w
              | None => (w, result)
              end
          | _ => (w, result)
          end
        else (w, result) in
      let '(w2, retry_results) :=
        retry_failed_fields latam_form rest extracted_data w1 in
      (w2, retried :: retry_results)
  end.
End Retry.

End FormFiller.

(** * Properties *)

(** ** Characters and strings *)
Section PyFacts.
Import Py.



Lemma in_list_true (x : string) (xs : list string) :
  in_list x xs = true <-> x ∈ xs.
Proof. unfold in_list. apply bool_decide_eq_true. Qed.

Lemma in_list_false (x : string) (xs : list string) :
  in_list x xs = false <-> x ∉ xs.
Proof. unfold in_list. apply bool_decide_eq_false. Qed.

End PyFacts.

(** ** The regular expression of [validate_pnr_format] *)

Definition upper_or_digit (c : ascii) : bool := Py.is_upper c || Py.is_digit c.

Lemma cset_match_A_Z0_9 (c : ascii) :
  Re.cset_match false Re.A_Z0_9 c = upper_or_digit c.
Proof.
  unfold Re.cset_match. rewrite orb_false_r. reflexivity.
Qed.

(** On a six-character subject the pattern tests each character. *)
Lemma pnr_pattern_six (c1 c2 c3 c4 c5 c6 : ascii) :
  Re.match_ RulesEngine.pnr_pattern
    (String c1 (String c2 (String c3 (String c4 (String c5 (String c6 EmptyString))))))
  = upper_or_digit c1 && (upper_or_digit c2 && (upper_or_digit c3 &&
      (upper_or_digit c4 && (upper_or_digit c5 && upper_or_digit c6)))).
Proof.
  unfold Re.match_, RulesEngine.pnr_pattern. cbn [app Re.times repeat Re.match_here].
  rewrite !cset_match_A_Z0_9. cbn [Re.at_end].
  destruct (upper_or_digit c1), (upper_or_digit c2), (upper_or_digit c3),
    (upper_or_digit c4), (upper_or_digit c5), (upper_or_digit c6); reflexivity.
Qed.

(** The verdict of [validate_pnr_format] as a formula. *)
Lemma validate_pnr_format_spec (pnr : string) :
  RulesEngine.is_valid (RulesEngine.validate_pnr_format pnr)
  = (Py.len pnr =? 6)%nat && Py.forall_chars upper_or_digit pnr.
Proof.
  destruct pnr as [|c1 [|c2 [|c3 [|c4 [|c5 [|c6 [|c7 s]]]]]]]; try reflexivity.
  unfold RulesEngine.validate_pnr_format.
  cbn [Py.len String.length Nat.eqb negb orb].
  rewrite pnr_pattern_six. cbn [Py.forall_chars andb].
  rewrite !andb_true_r.
  destruct (upper_or_digit c1 && _); reflexivity.
Qed.

Lemma forall_chars_exists_char (p : ascii -> bool) (s : string) :
  Py.forall_chars p s = negb (Py.exists_char (fun c => negb (p c)) s).
Proof.
  induction s as [|c s IH]; [reflexivity|].
  cbn [Py.forall_chars Py.exists_char]. rewrite IH.
  destruct (p c); reflexivity.
Qed.

(** C4.  [validate_pnr_format] passes exactly the strings of six
    characters that are all upper-case letters A-Z or digits 0-9, and it
    fails exactly the others: every string of another length and every
    string holding a character that is neither (a lower-case letter, a
    symbol). *)
Theorem pnr_format_six_upper_alnum (pnr : string) :
  (RulesEngine.is_valid (RulesEngine.validate_pnr_format pnr) = true
   <-> Py.len pnr = 6 /\ Py.forall_chars upper_or_digit pnr = true)
  /\ (RulesEngine.is_valid (RulesEngine.validate_pnr_format pnr) = false
      <-> Py.len pnr <> 6
          \/ Py.exists_char (fun c => negb (upper_or_digit c)) pnr = true).
Proof.
  rewrite validate_pnr_format_spec, forall_chars_exists_char.
  rewrite andb_true_iff, andb_false_iff, Nat.eqb_eq, Nat.eqb_neq.
  rewrite negb_true_iff, negb_false_iff. split; reflexivity.
Qed.

(** ** Class and authorization eligibility *)

Definition class_ineligible (class_original : string) : RulesEngine.ValidationResult :=
  RulesEngine.failure
    ("Classe " +:+ class_original +:+ " não é elegível para estouro de classe")
    "Verificar classe original da reserva".

Definition auth_ineligible (auth_code : string) : RulesEngine.ValidationResult :=
  RulesEngine.failure
    ("Código de autorização " +:+ auth_code +:+ " não permite estouro de classe")
    "Verificar autorização PIC no Sabre".

Lemma ineligible_messages_differ (class_original auth_code : string) :
  RulesEngine.error_message (class_ineligible class_original)
  <> RulesEngine.error_message (auth_ineligible auth_code).
Proof. cbn. intros H. inversion H. Qed.

(** C5.  [validate_estouro_classe] passes exactly when the (upper-cased)
    class is one of Q, S, Y and the (upper-cased) authorization code is one
    of PIC_S23, PIC_S24, PIC_S25.  A class outside its list gives the
    class-ineligible message and remediation; an eligible class with a code
    outside its list gives the authorization-ineligible message and
    remediation, and the two differ. *)
Theorem estouro_classe_needs_class_and_authorization
    (extracted_data : gmap string string) :
  let class_original := Py.upper (RulesEngine.get_or_empty extracted_data "classe") in
  let auth_code := Py.upper (RulesEngine.get_or_empty extracted_data "auth_code") in
  let result := RulesEngine.validate_estouro_classe extracted_data in
  (RulesEngine.is_valid result = true
     <-> class_original ∈ ["Q"; "S"; "Y"]
         /\ auth_code ∈ ["PIC_S23"; "PIC_S24"; "PIC_S25"])
  /\ (class_original ∉ ["Q"; "S"; "Y"] -> result = class_ineligible class_original)
  /\ (class_original ∈ ["Q"; "S"; "Y"] ->
      auth_code ∉ ["PIC_S23"; "PIC_S24"; "PIC_S25"] ->
      result = auth_ineligible auth_code)
  /\ RulesEngine.suggested_action (class_ineligible class_original)
     <> RulesEngine.suggested_action (auth_ineligible auth_code)
  /\ RulesEngine.error_message (class_ineligible class_original)
     <> RulesEngine.error_message (auth_ineligible auth_code).
Proof.
  intros class_original auth_code result.
  subst result. unfold RulesEngine.validate_estouro_classe.
  fold class_original auth_code.
  unfold RulesEngine._validate_pic_authorization,
    RulesEngine.eligible_classes, RulesEngine.valid_codes.
  destruct (Py.in_list class_original ["Q"; "S"; "Y"]) eqn:Hc;
    [apply in_list_true in Hc | apply in_list_false in Hc];
    (destruct (Py.in_list auth_code ["PIC_S23"; "PIC_S24"; "PIC_S25"]) eqn:Ha;
     [apply in_list_true in Ha | apply in_list_false in Ha]);
    cbn [negb];
    (split; [split; [intros H; try discriminate H; auto | intros [H1 H2]; try reflexivity; contradiction]|]);
    (split; [intros H; try contradiction; reflexivity|]);
    (split; [intros H1 H2; try contradiction; reflexivity|]);
    (split; [cbn; intros H; inversion H | apply ineligible_messages_differ]).
Qed.

(** The three cases of the specification's examples. *)
Lemma estouro_classe_examples :
  RulesEngine.is_valid
    (RulesEngine.validate_estouro_classe
       (<["auth_code" := "PIC_S23"]> (<["classe" := "Y"]> ∅))) = true
  /\ RulesEngine.validate_estouro_classe
       (<["auth_code" := "PIC_S23"]> (<["classe" := "F"]> ∅)) = class_ineligible "F"
  /\ RulesEngine.validate_estouro_classe
       (<["auth_code" := "BAD"]> (<["classe" := "Y"]> ∅)) = auth_ineligible "BAD".
Proof.
  split; [|split].
  - apply (proj1 (estouro_classe_needs_class_and_authorization
                    (<["auth_code" := "PIC_S23"]> (<["classe" := "Y"]> ∅)))).
    split; apply (bool_decide_unpack _); vm_compute; exact I.
  - refine (proj1 (proj2 (estouro_classe_needs_class_and_authorization
                    (<["auth_code" := "PIC_S23"]> (<["classe" := "F"]> ∅)))) _).
    apply (bool_decide_eq_false_1 _). vm_compute. reflexivity.
  - refine (proj1 (proj2 (proj2 (estouro_classe_needs_class_and_authorization
                    (<["auth_code" := "BAD"]> (<["classe" := "Y"]> ∅))))) _ _).
    + apply (bool_decide_unpack _). vm_compute. exact I.
    + apply (bool_decide_eq_false_1 _). vm_compute. reflexivity.
Defined.

(** ** The date transform *)

Lemma date_13MAR (now_year : nat) :
  RulesEngine.validate_date_format now_year "13MAR"
  = (true, "13/03/" +:+ Py.str_of_nat now_year).
Proof. vm_compute. reflexivity. Qed.

(** The verdict does not depend on the clock. *)
Lemma date_verdict (now_year : nat) (date_str : string) :
  fst (RulesEngine.validate_date_format now_year date_str)
  = (Py.len date_str =? 5)%nat && Py.isdigit (Py.take 2 date_str)
    && bool_decide (is_Some (RulesEngine.month_map !! Py.upper (Py.drop 2 date_str))).
Proof.
  unfold RulesEngine.validate_date_format.
  destruct (Py.len date_str =? 5)%nat; [|reflexivity].
  destruct (Py.isdigit (Py.take 2 date_str)); [|reflexivity].
  cbn [negb orb andb].
  destruct (RulesEngine.month_map !! Py.upper (Py.drop 2 date_str)); reflexivity.
Qed.

(** C6.  [validate_date_format] maps "13MAR" to (true, "13/03/<year>") with
    the current year; on every input whose length is not 5, whose first two
    characters are not both digits, or whose month abbreviation (the rest,
    upper-cased as the code does) is not a key of the 12-entry table, it
    returns (false, message).  The function is total: no input raises. *)
Theorem date_format_converts_or_fails (now_year : nat) :
  RulesEngine.validate_date_format now_year "13MAR"
    = (true, "13/03/" +:+ Py.str_of_nat now_year)
  /\ size RulesEngine.month_map = 12
  /\ forall date_str : string,
       Py.len date_str <> 5
       \/ Py.isdigit (Py.take 2 date_str) = false
       \/ RulesEngine.month_map !! Py.upper (Py.drop 2 date_str) = None ->
       exists message : string,
         RulesEngine.validate_date_format now_year date_str = (false, message).
Proof.
  split; [apply date_13MAR|]. split; [vm_compute; reflexivity|].
  intros date_str H.
  pose proof (date_verdict now_year date_str) as Hv.
  destruct (RulesEngine.validate_date_format now_year date_str) as [b message].
  exists message. f_equal. cbn [fst] in Hv. rewrite Hv.
  destruct H as [H|[H|H]].
  - apply Nat.eqb_neq in H. rewrite H. reflexivity.
  - rewrite H. apply andb_false_iff. left. apply andb_false_r.
  - rewrite H. apply andb_false_r.
Qed.

(** "13FOO", "1MAR" and "AAMAR" are refused with a message. *)
Lemma date_format_refusals :
  (exists message, RulesEngine.validate_date_format 2026 "13FOO" = (false, message))
  /\ (exists message, RulesEngine.validate_date_format 2026 "1MAR" = (false, message))
  /\ (exists message, RulesEngine.validate_date_format 2026 "AAMAR" = (false, message)).
Proof.
  split; [|split].
  - apply (proj2 (proj2 (date_format_converts_or_fails 2026)) "13FOO").
    right. right. vm_compute. reflexivity.
  - apply (proj2 (proj2 (date_format_converts_or_fails 2026)) "1MAR").
    left. vm_compute. lia.
  - apply (proj2 (proj2 (date_format_converts_or_fails 2026)) "AAMAR").
    right. left. vm_compute. reflexivity.
Defined.

(** ** Case normalisation in the membership checks *)



(** ** Screen detection *)

Lemma count_indicators_filter (extracted_text : string) :
  SabreScreen.count_indicators extracted_text
  = length (List.filter (fun pattern => Re.search pattern extracted_text true)
              SabreScreen.sabre_indicators).
Proof.
  unfold SabreScreen.count_indicators.
  assert (G : forall (ps : list Re.pattern) (n : nat),
             fold_left (fun found pattern =>
                          if Re.search pattern extracted_text true
                          then found + 1 else found) ps n
             = n + length (List.filter
                             (fun pattern => Re.search pattern extracted_text true) ps)).
  { induction ps as [|p ps IH]; intros n; cbn [fold_left List.filter length].
    - lia.
    - rewrite IH. destruct (Re.search p extracted_text true); cbn [length]; lia. }
  apply G.
Qed.

Lemma count_indicators_at_most_8 (extracted_text : string) :
  SabreScreen.count_indicators extracted_text <= 8.
Proof.
  rewrite count_indicators_filter.
  etransitivity; [apply List.filter_length_le|]. reflexivity.
Qed.

(** With an image that [cv2.cvtColor] accepts, detection is the vote of
    the eight indicators: true exactly from five matches on. *)
Lemma detect_with_image (Image : Type) (cvtColor_raises : Image -> bool)
    (image : Image) (self : SabreScreen.t Image) :
  SabreScreen.raw_image self = Some image ->
  cvtColor_raises image = false ->
  fst (SabreScreen.detect_sabre_pattern cvtColor_raises self)
  = (5 <=? SabreScreen.count_indicators (SabreScreen.extracted_text self))%nat.
Proof.
  intros Hi Hc. unfold SabreScreen.detect_sabre_pattern.
  rewrite Hi, Hc. reflexivity.
Qed.

(** Without an image the guard answers before any text is looked at. *)
Lemma detect_without_image (Image : Type) (cvtColor_raises : Image -> bool)
    (self : SabreScreen.t Image) :
  SabreScreen.raw_image self = None ->
  SabreScreen.detect_sabre_pattern cvtColor_raises self = (false, self).
Proof.
  intros Hi. unfold SabreScreen.detect_sabre_pattern. rewrite Hi. reflexivity.
Qed.

(** The half of the vote that holds for every screen: a true answer needs
    five matching indicators, so a text with four or fewer is never
    detected. *)
Lemma detect_true_needs_five (Image : Type) (cvtColor_raises : Image -> bool)
    (self : SabreScreen.t Image) :
  fst (SabreScreen.detect_sabre_pattern cvtColor_raises self) = true ->
  5 <= SabreScreen.count_indicators (SabreScreen.extracted_text self).
Proof.
  unfold SabreScreen.detect_sabre_pattern.
  destruct (SabreScreen.raw_image self) as [image|]; [|discriminate].
  destruct (cvtColor_raises image); [discriminate|].
  cbn [fst]. unfold SabreScreen._extract_text_with_ocr. apply Nat.leb_le.
Qed.

Definition LF : string := String "010"%char EmptyString.

(** The recognised text that test_comprehensive.py feeds to a fresh
    [SabreScreen] before asserting that the format is detected. *)
Definition mock_sabre_text : string :=
  Py.join LF
    [ "";
      "            Reserva - ABC123";
      "            Nomes";
      "            SILVA/ALBERTO";
      "            ";
      "            Voo (CIA) Voo (Numero) Cls De-Para Data Stp Nbr";
      "            LA         6375        Y     GRU-SCL  13MAR  HK";
      "            " ].

(** C3.  On the text of the repository's own detection test all eight
    indicators match, yet a screen that holds this text and no image is
    reported as not detected: [detect_sabre_pattern] returns false although
    at least 5 of the 8 indicators match. *)
Theorem detect_needs_image_despite_eight_matches
    (Image : Type) (cvtColor_raises : Image -> bool) :
  SabreScreen.count_indicators mock_sabre_text = 8
  /\ fst (SabreScreen.detect_sabre_pattern cvtColor_raises
            (SabreScreen.mk None mock_sabre_text ∅ false)) = false.
Proof.
  split.
  - vm_compute. reflexivity.
  - reflexivity.
Qed.

(** ** The matching blocks of [difflib]: the recursion is well founded *)

Section DifflibFacts.
Variables a b : list ascii.

(** What every candidate block satisfies inside the window [alo, ahi): an
    empty block sits at [alo]; a non-empty one starts before [ahi] and ends
    after [alo]. *)
Definition in_window (alo ahi : nat) (blk : nat * nat * nat) : Prop :=
  let '(i, _, k) := blk in
  (k = 0 /\ i = alo) \/ (0 < k /\ i < ahi /\ alo < i + k).

Lemma scan_row_in_window (alo ahi : nat) (j2len : gmap nat nat) (i blo bhi : nat)
    (js : list nat) (newj2len : gmap nat nat) (best : nat * nat * nat) :
  alo <= i -> i < ahi ->
  in_window alo ahi best ->
  in_window alo ahi (snd (Difflib.scan_row j2len i blo bhi js newj2len best)).
Proof.
  intros Hlo Hhi. revert newj2len best.
  induction js as [|j js IH]; intros newj2len best Hbest; [exact Hbest|].
  cbn [Difflib.scan_row].
  destruct (j <? blo)%nat; [apply IH, Hbest|].
  destruct (bhi <=? j)%nat; [exact Hbest|].
  apply IH.
  destruct (snd best <? _)%nat; [|exact Hbest].
  right. lia.
Qed.

Lemma scan_rows_in_window (alo ahi : nat) (rows : list nat) (blo bhi : nat)
    (j2len : gmap nat nat) (best : nat * nat * nat) :
  Forall (fun i => alo <= i /\ i < ahi) rows ->
  in_window alo ahi best ->
  in_window alo ahi (Difflib.scan_rows a b rows blo bhi j2len best).
Proof.
  intros Hrows. revert j2len best.
  induction Hrows as [|i rows [Hlo Hhi] _ IH]; intros j2len best Hbest; [exact Hbest|].
  cbn [Difflib.scan_rows].
  pose proof (scan_row_in_window alo ahi j2len i blo bhi
                (match a !! i with Some x => Difflib.b2j b x | None => [] end)
                ∅ best Hlo Hhi Hbest) as H.
  destruct (Difflib.scan_row j2len i blo bhi _ ∅ best) as [newj2len best'].
  apply IH, H.
Qed.

Lemma extend_left_in_window (alo ahi blo : nat) (besti bestj bestsize : nat) :
  in_window alo ahi (besti, bestj, bestsize) ->
  in_window alo ahi (Difflib.extend_left a b alo blo besti bestj bestsize).
Proof.
  revert bestj bestsize. induction besti as [|i' IH]; intros bestj bestsize H;
    [exact H|].
  cbn [Difflib.extend_left].
  destruct ((alo <? S i')%nat && (blo <? bestj)%nat && _) eqn:G; [|exact H].
  apply andb_true_iff in G as [G _]. apply andb_true_iff in G as [G _].
  apply Nat.ltb_lt in G.
  apply IH. cbn in H |- *. right. lia.
Qed.

Lemma extend_right_in_window (alo ahi bhi : nat) (room besti bestj bestsize : nat) :
  in_window alo ahi (besti, bestj, bestsize) ->
  in_window alo ahi (Difflib.extend_right a b room ahi bhi besti bestj bestsize).
Proof.
  revert bestsize. induction room as [|room IH]; intros bestsize H; [exact H|].
  cbn [Difflib.extend_right].
  destruct ((besti + bestsize <? ahi)%nat && _ && _) eqn:G; [|exact H].
  apply andb_true_iff in G as [G _]. apply andb_true_iff in G as [G _].
  apply Nat.ltb_lt in G.
  apply IH. cbn in H |- *. right. lia.
Qed.

Lemma find_longest_match_in_window (alo ahi blo bhi : nat) :
  in_window alo ahi (Difflib.find_longest_match a b alo ahi blo bhi).
Proof.
  unfold Difflib.find_longest_match.
  assert (H0 : in_window alo ahi
                 (Difflib.scan_rows a b (seq alo (ahi - alo)) blo bhi ∅ (alo, blo, 0))).
  { apply scan_rows_in_window.
    - apply Forall_forall. intros i Hi. apply elem_of_seq in Hi. lia.
    - left. auto. }
  destruct (Difflib.scan_rows a b _ blo bhi ∅ (alo, blo, 0)) as [[i0 j0] k0].
  pose proof (extend_left_in_window alo ahi blo i0 j0 k0 H0) as H1.
  destruct (Difflib.extend_left a b alo blo i0 j0 k0) as [[i1 j1] k1].
  apply extend_right_in_window, H1.
Qed.

(** The block that [find_longest_match] returns lies inside both windows;
    in particular the subtractions [i + 1 - k] and [j + 1 - k] of the scan
    are exact. *)
Definition block_ok (alo ahi blo bhi : nat) (blk : nat * nat * nat) : Prop :=
  let '(i, j, k) := blk in
  alo <= i /\ i + k <= ahi /\ blo <= j /\ j + k <= bhi.

(** The run lengths kept for the rows before row [i]. *)
Definition lens_ok (alo blo i : nat) (j2len : gmap nat nat) : Prop :=
  forall j k, j2len !! j = Some k -> 0 < k /\ k + alo <= i /\ k + blo <= j + 1.

Lemma scan_row_ok (alo ahi blo bhi i : nat) (j2len : gmap nat nat) (js : list nat)
    (newj2len : gmap nat nat) (best : nat * nat * nat) :
  alo <= i -> i < ahi ->
  lens_ok alo blo i j2len ->
  lens_ok alo blo (S i) newj2len ->
  block_ok alo ahi blo bhi best ->
  lens_ok alo blo (S i) (fst (Difflib.scan_row j2len i blo bhi js newj2len best))
  /\ block_ok alo ahi blo bhi (snd (Difflib.scan_row j2len i blo bhi js newj2len best)).
Proof.
  intros Hlo Hhi Hprev. revert newj2len best.
  induction js as [|j js IH]; intros newj2len best Hnew Hbest; [split; assumption|].
  cbn [Difflib.scan_row].
  destruct (j <? blo)%nat eqn:Hj; [apply IH; assumption|].
  destruct (bhi <=? j)%nat eqn:Hj'; [split; assumption|].
  apply Nat.ltb_ge in Hj. apply Nat.leb_gt in Hj'.
  set (k := S (match j with O => 0 | S j' => default 0 (j2len !! j') end)).
  assert (Hk : 0 < k /\ k + alo <= S i /\ k + blo <= j + 1).
  { subst k. destruct j as [|j']; [lia|].
    destruct (j2len !! j') as [k0|] eqn:E; cbn; [|lia].
    destruct (Hprev j' k0 E) as (? & ? & ?). lia. }
  apply IH.
  - intros j0 k0 H0. rewrite lookup_insert in H0. case_decide.
    + injection H0 as <-. subst j0. exact Hk.
    + exact (Hnew j0 k0 H0).
  - destruct (snd best <? k)%nat; [|exact Hbest]. cbn. lia.
Qed.

Lemma scan_rows_ok (alo ahi blo bhi : nat) (n i : nat) (j2len : gmap nat nat)
    (best : nat * nat * nat) :
  alo <= i -> i + n <= ahi ->
  lens_ok alo blo i j2len ->
  block_ok alo ahi blo bhi best ->
  block_ok alo ahi blo bhi (Difflib.scan_rows a b (seq i n) blo bhi j2len best).
Proof.
  revert i j2len best. induction n as [|n IH]; intros i j2len best Hlo Hhi Hlens Hbest;
    [exact Hbest|].
  cbn [seq Difflib.scan_rows].
  assert (Hempty : lens_ok alo blo (S i) ∅)
    by (intros j k H; rewrite lookup_empty in H; discriminate H).
  pose proof (scan_row_ok alo ahi blo bhi i j2len
                (match a !! i with Some x => Difflib.b2j b x | None => [] end)
                ∅ best Hlo ltac:(lia) Hlens Hempty Hbest) as [H1 H2].
  destruct (Difflib.scan_row j2len i blo bhi _ ∅ best) as [newj2len best'].
  apply IH; [lia|lia|exact H1|exact H2].
Qed.

Lemma extend_left_ok (alo ahi blo bhi : nat) (besti bestj bestsize : nat) :
  block_ok alo ahi blo bhi (besti, bestj, bestsize) ->
  block_ok alo ahi blo bhi (Difflib.extend_left a b alo blo besti bestj bestsize).
Proof.
  revert bestj bestsize. induction besti as [|i' IH]; intros bestj bestsize H;
    [exact H|].
  cbn [Difflib.extend_left].
  destruct ((alo <? S i')%nat && (blo <? bestj)%nat && _) eqn:G; [|exact H].
  apply andb_true_iff in G as [G _]. apply andb_true_iff in G as [G1 G2].
  apply Nat.ltb_lt in G1, G2.
  apply IH. cbn in H |- *. lia.
Qed.

Lemma extend_right_ok (alo ahi blo bhi : nat) (room besti bestj bestsize : nat) :
  block_ok alo ahi blo bhi (besti, bestj, bestsize) ->
  block_ok alo ahi blo bhi (Difflib.extend_right a b room ahi bhi besti bestj bestsize).
Proof.
  revert bestsize. induction room as [|room IH]; intros bestsize H; [exact H|].
  cbn [Difflib.extend_right].
  destruct ((besti + bestsize <? ahi)%nat && (bestj + bestsize <? bhi)%nat && _) eqn:G;
    [|exact H].
  apply andb_true_iff in G as [G _]. apply andb_true_iff in G as [G1 G2].
  apply Nat.ltb_lt in G1, G2.
  apply IH. cbn in H |- *. lia.
Qed.

Lemma find_longest_match_ok (alo ahi blo bhi : nat) :
  alo <= ahi -> blo <= bhi ->
  block_ok alo ahi blo bhi (Difflib.find_longest_match a b alo ahi blo bhi).
Proof.
  intros Ha Hb. unfold Difflib.find_longest_match.
  assert (H0 : block_ok alo ahi blo bhi
                 (Difflib.scan_rows a b (seq alo (ahi - alo)) blo bhi ∅ (alo, blo, 0))).
  { apply scan_rows_ok; [lia|lia| |cbn; lia].
    intros j k H. rewrite lookup_empty in H. discriminate H. }
  destruct (Difflib.scan_rows a b _ blo bhi ∅ (alo, blo, 0)) as [[i0 j0] k0].
  pose proof (extend_left_ok alo ahi blo bhi i0 j0 k0 H0) as H1.
  destruct (Difflib.extend_left a b alo blo i0 j0 k0) as [[i1 j1] k1].
  apply extend_right_ok, H1.
Qed.

(** Any fuel above the width of the window gives the same total. *)
Lemma matched_fuel (fuel fuel' alo ahi blo bhi : nat) :
  ahi - alo < fuel -> ahi - alo < fuel' ->
  Difflib.matched a b fuel alo ahi blo bhi = Difflib.matched a b fuel' alo ahi blo bhi.
Proof.
  revert fuel' alo ahi blo bhi.
  induction fuel as [|fuel IH]; intros fuel' alo ahi blo bhi H H'; [lia|].
  destruct fuel' as [|fuel']; [lia|].
  cbn [Difflib.matched].
  pose proof (find_longest_match_in_window alo ahi blo bhi) as W.
  destruct (Difflib.find_longest_match a b alo ahi blo bhi) as [[i j] k].
  destruct (k =? 0)%nat eqn:K; [reflexivity|].
  apply Nat.eqb_neq in K. cbn in W. destruct W as [[W _]|(_ & W1 & W2)]; [lia|].
  f_equal; [f_equal|].
  - destruct ((alo <? i)%nat && _) eqn:G; [|reflexivity].
    apply andb_true_iff in G as [G _]. apply Nat.ltb_lt in G.
    apply IH; lia.
  - destruct ((i + k <? ahi)%nat && _) eqn:G; [|reflexivity].
    apply andb_true_iff in G as [G _]. apply Nat.ltb_lt in G.
    apply IH; lia.
Qed.

(** The fuel that [matches] passes is enough: more fuel finds no more. *)
Lemma matches_fuel (extra : nat) :
  Difflib.matched a b (S (length a) + extra) 0 (length a) 0 (length b)
  = Difflib.matches a b.
Proof. unfold Difflib.matches. apply matched_fuel; lia. Qed.

End DifflibFacts.

(** ** The name-correction classifier *)

Section Classifier.
Import RulesEngine.


(** An approval is always the bare [ValidationResult(is_valid=True)]. *)
Lemma classify_cases
    (orthographic inverted addition : string -> string -> bool)
    (old_name new_name : string) :
  classify orthographic inverted addition old_name new_name = ok
  \/ classify orthographic inverted addition old_name new_name = rejected.
Proof.
  unfold classify.
  repeat match goal with
         | |- context [if ?c then _ else _] => destruct c; [left; reflexivity|]
         end.
  right. reflexivity.
Qed.

End Classifier.


(** ** Purity of the checks *)

(** One invocation of a check, with its argument values. *)
Inductive call : Type :=
| CallPnr (pnr : string)
| CallCarrier (carrier : string)
| CallStatus (status : string)
| CallEstouro (extracted_data : gmap string string)
| CallDate (date_str : string)
| CallNameHead (old_name new_name : string)
| CallNameIncoming (old_name new_name : string).

Inductive answer : Type :=
| Outcome (result : RulesEngine.ValidationResult)
| DateOutcome (result : bool * string).

(** What the invocation returns when the clock of the machine shows the
    year [now_year] at that moment. *)
Definition invoke (now_year : nat) (c : call) : answer :=
  match c with
  | CallPnr pnr => Outcome (RulesEngine.validate_pnr_format pnr)
  | CallCarrier carrier => Outcome (RulesEngine.validate_carrier_code carrier)
  | CallStatus status => Outcome (RulesEngine.validate_flight_status status)
  | CallEstouro d => Outcome (RulesEngine.validate_estouro_classe d)
  | CallDate date_str => DateOutcome (RulesEngine.validate_date_format now_year date_str)
  | CallNameHead o n => Outcome (RulesEngine.Head.validate_name_correction o n)
  | CallNameIncoming o n => Outcome (RulesEngine.Incoming.validate_name_correction o n)
  end.

Definition is_date_call (c : call) : bool :=
  match c with
  | CallDate _ => true
  | _ => false
  end.

(** Counterexample to C8 as stated: two invocations of the date transform
    with the same argument, one in 2026 and one in 2027, return different
    results. *)
Lemma date_transform_reads_the_clock :
  invoke 2026 (CallDate "13MAR") = DateOutcome (true, "13/03/2026")
  /\ invoke 2027 (CallDate "13MAR") = DateOutcome (true, "13/03/2027")
  /\ ~ (forall (now_year now_year' : nat) (c : call),
          invoke now_year c = invoke now_year' c).
Proof.
  split; [vm_compute; reflexivity|].
  split; [vm_compute; reflexivity|].
  intros H. specialize (H 2026 2027 (CallDate "13MAR")).
  vm_compute in H. discriminate H.
Qed.

(** C8 (amended).  The PNR, carrier, status and class/authorization checks
    and the name-correction classifier return the same result for the same
    arguments whenever they are invoked; the date transform does so for
    invocations within one calendar year, and its verdict and its failure
    messages do not depend on the year at all. *)
Theorem checks_depend_on_arguments_and_year (now_year now_year' : nat) (c : call) :
  (is_date_call c = false \/ now_year = now_year' -> invoke now_year c = invoke now_year' c)
  /\ (forall date_str : string,
        fst (RulesEngine.validate_date_format now_year date_str)
        = fst (RulesEngine.validate_date_format now_year' date_str))
  /\ (forall date_str : string,
        fst (RulesEngine.validate_date_format now_year date_str) = false ->
        RulesEngine.validate_date_format now_year date_str
        = RulesEngine.validate_date_format now_year' date_str).
Proof.
  split; [|split].
  - intros [H|H].
    + destruct c; try reflexivity. discriminate H.
    + subst. reflexivity.
  - intros date_str. rewrite !date_verdict. reflexivity.
  - intros date_str. unfold RulesEngine.validate_date_format.
    destruct (negb (Py.len date_str =? 5)%nat || negb (Py.isdigit (Py.take 2 date_str)));
      [reflexivity|].
    destruct (RulesEngine.month_map !! Py.upper (Py.drop 2 date_str));
      [discriminate|reflexivity].
Qed.

(** A carrier check in two different years, and a refused date. *)
Lemma checks_across_years :
  invoke 2026 (CallCarrier "la") = invoke 2027 (CallCarrier "la")
  /\ RulesEngine.validate_date_format 2026 "13FOO"
     = RulesEngine.validate_date_format 2027 "13FOO".
Proof.
  split.
  - apply (proj1 (checks_depend_on_arguments_and_year 2026 2027 (CallCarrier "la"))).
    left. reflexivity.
  - apply (proj2 (proj2 (checks_depend_on_arguments_and_year 2026 2027 (CallCarrier "la")))).
    vm_compute. reflexivity.
Defined.

(** ** Splitting a normalised name *)

Section SplitFacts.
Import Py.

Lemma append_cons (c : ascii) (s t : string) :
  String c s +:+ t = String c (s +:+ t).
Proof. reflexivity. Qed.

Lemma append_empty_r (s : string) : s +:+ "" = s.
Proof.
  induction s as [|c s IH]; [reflexivity|].
  rewrite append_cons, IH. reflexivity.
Qed.

Lemma append_assoc (s t u : string) : (s +:+ t) +:+ u = s +:+ (t +:+ u).
Proof.
  induction s as [|c s IH]; [reflexivity|].
  rewrite !append_cons, IH. reflexivity.
Qed.

Definition no_space (c : ascii) : bool := negb (is_space c).

(** A piece that [str.split()] returns: not empty, no whitespace in it. *)
Definition token (t : string) : Prop :=
  t <> "" /\ forall_chars no_space t = true.

Lemma forall_chars_append (p : ascii -> bool) (s t : string) :
  forall_chars p (s +:+ t) = forall_chars p s && forall_chars p t.
Proof.
  induction s as [|c s IH]; [reflexivity|].
  rewrite append_cons. cbn [forall_chars]. rewrite IH. apply andb_assoc.
Qed.

Lemma split_ws_from_tokens (s cur : string) :
  forall_chars no_space cur = true ->
  Forall token (split_ws_from cur s).
Proof.
  revert cur. induction s as [|c s IH]; intros cur Hcur; cbn [split_ws_from].
  - destruct cur; [constructor|]. constructor; [|constructor]. split; [discriminate|exact Hcur].
  - destruct (is_space c) eqn:Hc.
    + destruct cur; [apply IH; reflexivity|].
      constructor; [split; [discriminate|exact Hcur]|apply IH; reflexivity].
    + apply IH. unfold snoc. rewrite forall_chars_append, Hcur. cbn.
      unfold no_space. rewrite Hc. reflexivity.
Qed.

Lemma split_ws_from_append (t cur s : string) :
  forall_chars no_space t = true ->
  split_ws_from cur (t +:+ s) = split_ws_from (cur +:+ t) s.
Proof.
  revert cur. induction t as [|c t IH]; intros cur Ht.
  - rewrite append_empty_r. reflexivity.
  - cbn in Ht. apply andb_true_iff in Ht as [Hc Ht].
    unfold no_space in Hc. apply negb_true_iff in Hc.
    rewrite append_cons. cbn [split_ws_from]. rewrite Hc, (IH _ Ht).
    unfold snoc. rewrite append_assoc. reflexivity.
Qed.

Lemma split_on_from_append (t cur s : string) :
  forall_chars no_space t = true ->
  split_on_from " " cur (t +:+ s) = split_on_from " " (cur +:+ t) s.
Proof.
  revert cur. induction t as [|c t IH]; intros cur Ht.
  - rewrite append_empty_r. reflexivity.
  - cbn in Ht. apply andb_true_iff in Ht as [Hc Ht].
    assert (Hsp : Ascii.eqb c " " = false).
    { destruct (Ascii.eqb c " ") eqn:E; [|reflexivity].
      apply Ascii.eqb_eq in E. subst c. discriminate Hc. }
    rewrite append_cons. cbn [split_on_from]. rewrite Hsp, (IH _ Ht).
    unfold snoc. rewrite append_assoc. reflexivity.
Qed.

Lemma split_ws_join (ts : list string) :
  Forall token ts -> split_ws (join " " ts) = ts.
Proof.
  unfold split_ws, join.
  induction 1 as [|t ts [Hne Ht] Hts IH]; [reflexivity|].
  destruct ts as [|t' ts].
  - cbn [String.concat]. rewrite <- (append_empty_r t) at 1.
    rewrite (split_ws_from_append t "" "" Ht). cbn. destruct t; [contradiction|reflexivity].
  - cbn [String.concat] in IH |- *.
    rewrite (split_ws_from_append t "" _ Ht), append_cons.
    change ("" +:+ t) with t. cbn [split_ws_from].
    change (is_space " ") with true. cbn match.
    change ("" +:+ ?x) with x. rewrite IH. destruct t; [contradiction|reflexivity].
Qed.

Lemma split_on_join (ts : list string) :
  ts <> [] -> Forall token ts -> split_on " " (join " " ts) = ts.
Proof.
  unfold split_on, join. intros Hne Hts.
  induction Hts as [|t ts [_ Ht] Hts IH]; [contradiction|].
  destruct ts as [|t' ts].
  - cbn [String.concat]. rewrite <- (append_empty_r t) at 1.
    rewrite (split_on_from_append t "" "" Ht). reflexivity.
  - cbn [String.concat] in IH |- *.
    rewrite (split_on_from_append t "" _ Ht), append_cons.
    change ("" +:+ t) with t. cbn [split_on_from].
    change (Ascii.eqb " " " ") with true. cbn match.
    change ("" +:+ ?x) with x. rewrite IH; [reflexivity|discriminate].
Qed.

(** On a normalised name that holds a space, splitting on the space and
    splitting on whitespace give the same parts. *)
Lemma normalized_split (name : string) :
  2 <= length (split_on " " (RulesEngine._normalize_name name)) ->
  split_ws (RulesEngine._normalize_name name)
  = split_on " " (RulesEngine._normalize_name name).
Proof.
  unfold RulesEngine._normalize_name.
  set (name_upper := fold_left _ _ _).
  pose proof (split_ws_from_tokens name_upper "" eq_refl) as Hts.
  fold (split_ws name_upper) in Hts.
  intros Hlen. rewrite (split_ws_join _ Hts).
  destruct (split_ws name_upper) as [|t ts] eqn:E.
  - cbn in Hlen. lia.
  - rewrite split_on_join; [reflexivity|discriminate|exact Hts].
Qed.

End SplitFacts.

(** ** Token inversion *)

Section Inversion.
Import RulesEngine.

Lemma split_on_from_contains (sep : ascii) (s cur : string) :
  2 <= length (Py.split_on_from sep cur s) ->
  Py.contains (String sep EmptyString) s = true.
Proof.
  revert cur. induction s as [|c s IH]; intros cur H.
  - cbn in H. lia.
  - cbn [Py.split_on_from] in H. cbn [Py.contains String.prefix].
    destruct (Ascii.eqb c sep) eqn:E.
    + apply Ascii.eqb_eq in E. subst c.
      destruct (ascii_dec sep sep) as [_|N]; [|contradiction].
      destruct s; reflexivity.
    + rewrite (IH _ H). apply orb_true_r.
Qed.

Lemma split_on_contains (sep : ascii) (s : string) :
  2 <= length (Py.split_on sep s) ->
  Py.contains (String sep EmptyString) s = true.
Proof. apply split_on_from_contains. Qed.

(** One separator on which the two names split into reversed sequences of
    two or more parts makes the HEAD inversion test succeed. *)
Lemma head_inverted_on (separator : ascii) (old_name new_name : string) :
  2 <= length (Py.split_on separator old_name) ->
  Py.split_on separator new_name = rev (Py.split_on separator old_name) ->
  Head.inverted_on separator old_name new_name = true.
Proof.
  intros Hlen Hrev.
  assert (Hlen' : 2 <= length (Py.split_on separator new_name))
    by (rewrite Hrev, length_rev; exact Hlen).
  unfold Head.inverted_on.
  rewrite (split_on_contains _ _ Hlen), (split_on_contains _ _ Hlen').
  cbn [orb]. rewrite Hrev. unfold Py.reversed.
  rewrite length_rev, rev_involutive, Nat.eqb_refl.
  cbn [andb]. apply andb_true_iff. split.
  - apply Nat.ltb_lt. lia.
  - apply bool_decide_eq_true. reflexivity.
Qed.

End Inversion.

(** The tokens of a name when both the space and the slash separate, as
    the HEAD side itself tokenises in [_is_addition_correction]. *)
Definition tokens_space_or_slash (name : string) : list string :=
  Py.split_ws (Py.replace "/" " " name).

(** Counterexample to C7 as stated: "ANA MARIA/SILVA" and
    "SILVA/MARIA ANA" split on space or slash into three tokens each, the
    second sequence the exact reverse of the first, and the classifier
    rejects the pair on both sides of the merge. *)
Lemma inversion_over_both_separators_rejected :
  let old_name := "ANA MARIA/SILVA" in
  let new_name := "SILVA/MARIA ANA" in
  let old_tokens := tokens_space_or_slash (RulesEngine._normalize_name old_name) in
  let new_tokens := tokens_space_or_slash (RulesEngine._normalize_name new_name) in
  old_tokens = ["ANA"; "MARIA"; "SILVA"]
  /\ new_tokens = rev old_tokens
  /\ length old_tokens = length new_tokens
  /\ 2 <= length old_tokens
  /\ RulesEngine.Head.validate_name_correction old_name new_name = RulesEngine.rejected
  /\ RulesEngine.Incoming.validate_name_correction old_name new_name = RulesEngine.rejected
  /\ RulesEngine.is_valid RulesEngine.rejected = false.
Proof.
  cbv zeta. repeat split; try (vm_compute; reflexivity).
  vm_compute. lia.
Qed.

(** The incoming side splits on whitespace only: it rejects the slash
    inversion that test_system.py asserts to be valid. *)
Lemma incoming_rejects_slash_inversion :
  RulesEngine.Incoming._is_inverted_names "LUISA/GALVEZ" "GALVEZ/LUISA" = false
  /\ RulesEngine.Incoming.validate_name_correction "LUISA/GALVEZ" "GALVEZ/LUISA"
     = RulesEngine.rejected.
Proof. split; vm_compute; reflexivity. Qed.

(** On the incoming side a reversal of space-separated parts passes the
    inversion test as well. *)
Lemma incoming_inverted_on_space (old_name new_name : string) :
  let old_clean := RulesEngine._normalize_name old_name in
  let new_clean := RulesEngine._normalize_name new_name in
  2 <= length (Py.split_on " " old_clean) ->
  Py.split_on " " new_clean = rev (Py.split_on " " old_clean) ->
  RulesEngine.Incoming._is_inverted_names old_clean new_clean = true.
Proof.
  intros old_clean new_clean Hlen Hrev.
  assert (Hlen' : 2 <= length (Py.split_on " " new_clean))
    by (rewrite Hrev, length_rev; exact Hlen).
  unfold RulesEngine.Incoming._is_inverted_names. subst old_clean new_clean.
  rewrite (normalized_split _ Hlen), (normalized_split _ Hlen'), Hrev.
  unfold Py.reversed. rewrite length_rev, rev_involutive, Nat.eqb_refl.
  cbn [negb]. apply bool_decide_eq_true. reflexivity.
Qed.

(** C7 (amended).  When the two normalised names, split on one separator
    - the space, or the slash - give two or more parts each and the new
    sequence is the exact reverse of the old, the classifier of the HEAD
    side approves, and for the space so does the classifier of the incoming
    side.  In particular the HEAD side approves ("LUISA/GALVEZ",
    "GALVEZ/LUISA") by the inversion test: the normal forms differ and the
    orthographic test fails. *)
Theorem inversion_on_one_separator
    (separator : ascii) (old_name new_name : string) :
  (separator = " "%char \/ separator = "/"%char ->
   let old_parts := Py.split_on separator (RulesEngine._normalize_name old_name) in
   let new_parts := Py.split_on separator (RulesEngine._normalize_name new_name) in
   length old_parts = length new_parts ->
   2 <= length old_parts ->
   new_parts = rev old_parts ->
   RulesEngine.Head.validate_name_correction old_name new_name = RulesEngine.ok
   /\ (separator = " "%char ->
       RulesEngine.Incoming.validate_name_correction old_name new_name = RulesEngine.ok))
  /\ (let old_clean := RulesEngine._normalize_name "LUISA/GALVEZ" in
      let new_clean := RulesEngine._normalize_name "GALVEZ/LUISA" in
      old_clean <> new_clean
      /\ RulesEngine.Head._is_orthographic_correction old_clean new_clean = false
      /\ RulesEngine.Head._is_inverted_names old_clean new_clean = true
      /\ RulesEngine.Head.validate_name_correction "LUISA/GALVEZ" "GALVEZ/LUISA"
         = RulesEngine.ok).
Proof.
  split.
  - intros Hsep old_parts new_parts _ Hlen Hrev. split.
    + unfold RulesEngine.Head.validate_name_correction, RulesEngine.classify.
      destruct (String.eqb _ _); [reflexivity|].
      destruct (RulesEngine.Head._is_orthographic_correction _ _); [reflexivity|].
      assert (Hinv : RulesEngine.Head._is_inverted_names
                       (RulesEngine._normalize_name old_name)
                       (RulesEngine._normalize_name new_name) = true).
      { unfold RulesEngine.Head._is_inverted_names. cbn [existsb].
        pose proof (head_inverted_on separator _ _ Hlen Hrev) as H.
        destruct Hsep; subst separator; rewrite H; [reflexivity|apply orb_true_r]. }
      rewrite Hinv. reflexivity.
    + intros ->.
      unfold RulesEngine.Incoming.validate_name_correction, RulesEngine.classify.
      destruct (String.eqb _ _); [reflexivity|].
      destruct (RulesEngine.Incoming._is_orthographic_correction _ _); [reflexivity|].
      rewrite (incoming_inverted_on_space old_name new_name Hlen Hrev). reflexivity.
  - cbv zeta. split; [vm_compute; discriminate|].
    repeat split; vm_compute; reflexivity.
Qed.

(** The theorem applied to ("LUISA/GALVEZ", "GALVEZ/LUISA") with the slash
    and to ("ANA MARIA", "MARIA ANA") with the space. *)
Lemma inversion_examples :
  RulesEngine.Head.validate_name_correction "LUISA/GALVEZ" "GALVEZ/LUISA"
    = RulesEngine.ok
  /\ RulesEngine.Head.validate_name_correction "ANA MARIA" "MARIA ANA"
     = RulesEngine.ok
  /\ RulesEngine.Incoming.validate_name_correction "ANA MARIA" "MARIA ANA"
     = RulesEngine.ok.
Proof.
  split.
  - apply (proj1 (inversion_on_one_separator "/"%char "LUISA/GALVEZ" "GALVEZ/LUISA")).
    + right. reflexivity.
    + vm_compute. reflexivity.
    + vm_compute. lia.
    + vm_compute. reflexivity.
  - assert (H : RulesEngine.Head.validate_name_correction "ANA MARIA" "MARIA ANA"
                = RulesEngine.ok
                /\ (" "%char = " "%char ->
                    RulesEngine.Incoming.validate_name_correction "ANA MARIA" "MARIA ANA"
                    = RulesEngine.ok)).
    { apply (proj1 (inversion_on_one_separator " "%char "ANA MARIA" "MARIA ANA")).
      - left. reflexivity.
      - vm_compute. reflexivity.
      - vm_compute. lia.
      - vm_compute. reflexivity. }
    destruct H as [H1 H2]. split; [exact H1|exact (H2 eq_refl)].
Defined.

(** ** The workflow *)

Section WorkflowFacts.
Import RulesEngine.

Variable Image : Type.
Variable cvtColor_raises : Image -> bool.
Variable extract_fields : string -> option (gmap string SabreScreen.SabreField).
Variable Page : Type.
Variable perform : LatamForm.action -> Page -> Page * LatamForm.outcome unit.
Variable query : string -> Page -> Page * LatamForm.outcome LatamForm.element.
Variable now_year : nat.
Variable Source : Type.
Variable process_image_input : Source -> LatamForm.outcome (option Image * string).

Abbreviation filler := (FormFiller.t Image).
Abbreviation workflow :=
  (FormFiller.process_complete_workflow Image cvtColor_raises extract_fields
     Page perform query now_year Source process_image_input).

(** Steps 1 to 3 of [process_complete_workflow]: what a run holds when it
    reaches the test for critical failures - the parsed fields, the filler
    and the validation outcomes - and [None] for a run that returned
    before. *)
Definition run_to_validation (self : filler) (image_source : Source)
    : option (gmap string SabreScreen.SabreField * filler * list ValidationResult) :=
  match process_image_input image_source with
  | LatamForm.Raised _ => None
  | LatamForm.Returned (image, extracted_text) =>
      if (Py.len extracted_text =? 0)%nat then None
      else
        let screen0 :=
          SabreScreen.mk image extracted_text
            (SabreScreen.extracted_fields (FormFiller.sabre_screen Image self))
            (SabreScreen.is_valid_screen (FormFiller.sabre_screen Image self)) in
        let '(detected, screen1) :=
          SabreScreen.detect_sabre_pattern cvtColor_raises screen0 in
        let screen2 :=
          SabreScreen.mk (SabreScreen.raw_image screen1)
            (SabreScreen.extracted_text screen1)
            (SabreScreen.extracted_fields screen1) detected in
        if negb (SabreScreen.is_valid_screen screen2) then None
        else
          let '(extracted_fields, screen3) :=
            SabreScreen.parse_fields extract_fields screen2 in
          Some (extracted_fields,
                FormFiller.mk Image screen3 (FormFiller.latam_form Image self),
                SabreScreen.validate_integrity screen3)
  end.

Definition failed (r : ValidationResult) : bool := negb (is_valid r).

Lemma filter_failed_nonempty (results : list ValidationResult) :
  (exists r, r ∈ results /\ is_valid r = false) ->
  1 <= length (List.filter failed results).
Proof.
  intros (r & Hin & Hr). induction Hin as [r results|r r' results Hin IH].
  - cbn [List.filter]. unfold failed at 1. rewrite Hr. cbn. lia.
  - cbn [List.filter]. destruct (failed r'); cbn [length]; [|exact (IH Hr)].
    pose proof (IH Hr). lia.
Qed.

Lemma filter_failed_empty (results : list ValidationResult) :
  Forall (fun r => is_valid r = true) results ->
  List.filter failed results = [].
Proof.
  induction 1 as [|r results Hr _ IH]; [reflexivity|].
  cbn [List.filter]. unfold failed at 1. rewrite Hr. exact IH.
Qed.

(** C1.  In every run that reaches validation with at least one failed
    outcome, the workflow returns the failed-validation result - no
    success, the full list of validation outcomes, the count of failures in
    the message, no submission - and the world is left as it was: no
    [_fill_field] call is logged and the page is not touched. *)
Theorem failed_validation_never_fills
    (self self' : filler) (image_source : Source) (w : LatamForm.world Page)
    (extracted_fields : gmap string SabreScreen.SabreField)
    (validation_results : list ValidationResult) :
  run_to_validation self image_source
    = Some (extracted_fields, self', validation_results) ->
  (exists r, r ∈ validation_results /\ is_valid r = false) ->
  exists n : nat,
    1 <= n
    /\ n = length (List.filter failed validation_results)
    /\ workflow self image_source w
       = (FormFiller.mkFillResult false validation_results None
            (Some ("Critical validation failures: " +:+ Py.str_of_nat n)),
          self', w).
Proof.
  intros Hrun Hfail.
  exists (length (List.filter failed validation_results)).
  split; [apply filter_failed_nonempty, Hfail|]. split; [reflexivity|].
  apply filter_failed_nonempty in Hfail.
  unfold run_to_validation in Hrun. unfold FormFiller.process_complete_workflow.
  destruct (process_image_input image_source) as [[image extracted_text]|msg];
    [|discriminate Hrun].
  destruct (Py.len extracted_text =? 0)%nat; [discriminate Hrun|].
  destruct (SabreScreen.detect_sabre_pattern cvtColor_raises _) as [detected screen1].
  destruct (negb (SabreScreen.is_valid_screen _)); [discriminate Hrun|].
  destruct (SabreScreen.parse_fields extract_fields _) as [fields screen3].
  injection Hrun as <- <- <-.
  fold failed.
  destruct (List.filter failed (SabreScreen.validate_integrity screen3)) as [|r rs] eqn:E.
  - cbn in Hfail. lia.
  - reflexivity.
Qed.

(** The [_fill_field] calls that [fill_all]'s loop makes, in order: one for
    every entry of the form's table whose name is a key of the data. *)
Definition attempted (items : list (string * LatamForm.field_config))
    (extracted_data : gmap string string) : list (string * string) :=
  omap (fun item => (fun v => (fst item, v)) <$> extracted_data !! fst item) items.

Lemma attempted_cons_Some (k v : string) (cfg : LatamForm.field_config)
    (items : list (string * LatamForm.field_config))
    (extracted_data : gmap string string) :
  extracted_data !! k = Some v ->
  attempted ((k, cfg) :: items) extracted_data = (k, v) :: attempted items extracted_data.
Proof. intros H. unfold attempted. cbn [omap list_omap fst]. rewrite H. reflexivity. Qed.

Lemma attempted_cons_None (k : string) (cfg : LatamForm.field_config)
    (items : list (string * LatamForm.field_config))
    (extracted_data : gmap string string) :
  extracted_data !! k = None ->
  attempted ((k, cfg) :: items) extracted_data = attempted items extracted_data.
Proof. intros H. unfold attempted. cbn [omap list_omap fst]. rewrite H. reflexivity. Qed.

Lemma fill_loop_log (items : list (string * LatamForm.field_config))
    (extracted_data : gmap string string) (w : LatamForm.world Page)
    (results : list ValidationResult) :
  let out := LatamForm.fill_loop Page perform query items extracted_data w results in
  LatamForm.fill_calls (fst out) = LatamForm.fill_calls w ++ attempted items extracted_data
  /\ exists new_results,
       snd out = results ++ new_results
       /\ length new_results = length (attempted items extracted_data).
Proof.
  cbv zeta.
  revert w results. induction items as [|[field_name cfg] items IH]; intros w results.
  - cbn. rewrite !app_nil_r. split; [reflexivity|]. exists []. rewrite app_nil_r. auto.
  - cbn [LatamForm.fill_loop].
    destruct (extracted_data !! field_name) as [v|] eqn:E.
    + rewrite (attempted_cons_Some _ _ _ _ _ E).
      unfold LatamForm._fill_field.
      destruct (LatamForm.fill_on_page Page perform query field_name v cfg
                  (LatamForm.page w)) as [p' result].
      specialize (IH (LatamForm.mkWorld p' (LatamForm.fill_calls w ++ [(field_name, v)]))
                     (results ++ [result])).
      destruct IH as [IH1 (rs & IH2 & IH3)].
      split.
      * rewrite IH1. cbn [LatamForm.fill_calls]. rewrite <- app_assoc. reflexivity.
      * exists (result :: rs). rewrite IH2, <- app_assoc. split; [reflexivity|].
        cbn [length]. rewrite IH3. reflexivity.
    + rewrite (attempted_cons_None _ _ _ _ E). apply IH.
Qed.

Lemma elem_of_attempted (items : list (string * LatamForm.field_config))
    (extracted_data : gmap string string) (k v : string) :
  (k, v) ∈ attempted items extracted_data
  <-> k ∈ items.*1 /\ extracted_data !! k = Some v.
Proof.
  induction items as [|[k' cfg] items IH].
  - cbn. split; [intros H; inversion H|intros [H _]; inversion H].
  - cbn [fmap list_fmap fst].
    destruct (extracted_data !! k') as [v'|] eqn:E.
    + rewrite (attempted_cons_Some _ _ _ _ _ E), !elem_of_cons, IH. split.
      * intros [H|[H1 H2]]; [injection H as -> ->; auto|auto].
      * intros [[->|H1] H2]; [left; congruence|right; auto].
    + rewrite (attempted_cons_None _ _ _ _ E), elem_of_cons, IH. split.
      * intros [H1 H2]; auto.
      * intros [[->|H1] H2]; [congruence|auto].
Qed.

Lemma NoDup_attempted (items : list (string * LatamForm.field_config))
    (extracted_data : gmap string string) :
  NoDup items.*1 -> NoDup (attempted items extracted_data).
Proof.
  induction items as [|[k cfg] items IH]; intros Hnd; [constructor|].
  cbn [fmap list_fmap fst] in Hnd. apply NoDup_cons in Hnd as [Hk Hnd].
  destruct (extracted_data !! k) as [v|] eqn:E.
  - rewrite (attempted_cons_Some _ _ _ _ _ E).
    apply NoDup_cons. split; [|exact (IH Hnd)].
    intros Hin. apply elem_of_attempted in Hin as [Hin _]. exact (Hk Hin).
  - rewrite (attempted_cons_None _ _ _ _ E). exact (IH Hnd).
Qed.

(** With distinct names in the table and every key of the data among them,
    the calls are the entries of the data, each once. *)
Lemma attempted_all (items : list (string * LatamForm.field_config))
    (extracted_data : gmap string string) :
  NoDup items.*1 ->
  (forall k, is_Some (extracted_data !! k) -> k ∈ items.*1) ->
  attempted items extracted_data ≡ₚ map_to_list extracted_data.
Proof.
  intros Hnd Hdom. apply NoDup_Permutation.
  - apply NoDup_attempted, Hnd.
  - apply NoDup_map_to_list.
  - intros [k v]. rewrite elem_of_attempted, elem_of_map_to_list. split.
    + intros [_ H]. exact H.
    + intros H. split; [apply Hdom; eauto|exact H].
Qed.

(** The names under which [_map_sabre_to_latam] can write. *)
Definition latam_names : list string :=
  FormFiller.sabre_to_latam.*2 ++ FormFiller.static_values.*1.

Lemma mapped_keys (sabre_fields : gmap string SabreScreen.SabreField) (k : string) :
  is_Some (FormFiller._map_sabre_to_latam sabre_fields !! k) -> k ∈ latam_names.
Proof.
  unfold FormFiller._map_sabre_to_latam, latam_names.
  set (step1 := fun (mapped : gmap string string) '(sabre_field, latam_field) =>
                  match sabre_fields !! sabre_field with
                  | Some f => <[latam_field := SabreScreen.value f]> mapped
                  | None => mapped
                  end).
  set (step2 := fun (mapped : gmap string string) '(k, v) => <[k := v]> mapped).
  assert (G1 : forall (l : list (string * string)) (m : gmap string string) (S : list string),
             (forall k, is_Some (m !! k) -> k ∈ S) ->
             forall k, is_Some (fold_left step1 l m !! k) -> k ∈ S ++ l.*2).
  { induction l as [|[sf lf] l IH]; intros m S Hm k' Hk'.
    - cbn in *. rewrite app_nil_r. auto.
    - cbn [fold_left] in Hk'. cbn [fmap list_fmap snd].
      apply (IH _ (S ++ [lf])) in Hk'.
      + rewrite <- app_assoc in Hk'. exact Hk'.
      + intros k'' Hk''. unfold step1 in Hk''.
        destruct (sabre_fields !! sf).
        * rewrite lookup_insert in Hk''. case_decide; subst; set_solver.
        * set_solver. }
  assert (G2 : forall (l : list (string * string)) (m : gmap string string) (S : list string),
             (forall k, is_Some (m !! k) -> k ∈ S) ->
             forall k, is_Some (fold_left step2 l m !! k) -> k ∈ S ++ l.*1).
  { induction l as [|[k0 v0] l IH]; intros m S Hm k' Hk'.
    - cbn in *. rewrite app_nil_r. auto.
    - cbn [fold_left] in Hk'. cbn [fmap list_fmap fst].
      apply (IH _ (S ++ [k0])) in Hk'.
      + rewrite <- app_assoc in Hk'. exact Hk'.
      + intros k'' Hk''. unfold step2 in Hk''.
        rewrite lookup_insert in Hk''. case_decide; subst; set_solver. }
  intros Hk. apply (G2 _ _ _ (G1 _ ∅ [] ltac:(intros ? [? H]; rewrite lookup_empty in H; discriminate H))) in Hk.
  exact Hk.
Qed.

Lemma field_mappings_names :
  (LatamForm.field_mappings now_year).*1
  = ["pnr"; "cidade"; "pais"; "departamento"; "razao"; "autorizador";
     "num_segmento"; "carrier"; "vuelo"; "classe"; "data_voo"; "segmento";
     "pax"; "cto_des"].
Proof. reflexivity. Qed.

Lemma field_mappings_NoDup : NoDup (LatamForm.field_mappings now_year).*1.
Proof.
  rewrite field_mappings_names. apply (bool_decide_unpack _). vm_compute. exact I.
Qed.

Lemma latam_names_mapped (k : string) :
  k ∈ latam_names -> k ∈ (LatamForm.field_mappings now_year).*1.
Proof.
  rewrite field_mappings_names. unfold latam_names.
  cbn [FormFiller.sabre_to_latam FormFiller.static_values fmap list_fmap fst snd app].
  intros H. apply (bool_decide_unpack _).
  repeat (apply elem_of_cons in H as [->|H]; [vm_compute; exact I|]).
  inversion H.
Qed.

Lemma submit_form_log (is_form_loaded : bool) (w : LatamForm.world Page) :
  LatamForm.fill_calls (fst (LatamForm.submit_form Page perform query is_form_loaded w))
  = LatamForm.fill_calls w.
Proof.
  unfold LatamForm.submit_form.
  destruct (negb is_form_loaded); [reflexivity|].
  destruct (LatamForm.find_first Page query _ _) as [p1 [button|]]; [|reflexivity].
  destruct (LatamForm.perform_all Page perform _ _) as [p2 [[]|msg]]; [|reflexivity].
  destruct (LatamForm.find_first Page query _ _) as [p3 [found|]]; reflexivity.
Qed.

Lemma forallb_false_of_failed (results : list ValidationResult) :
  1 <= length (List.filter failed results) -> forallb is_valid results = false.
Proof.
  induction results as [|r results IH]; cbn [List.filter forallb length]; [lia|].
  unfold failed at 1. destruct (is_valid r); cbn [negb andb length]; [exact IH|reflexivity].
Qed.

(** C2.  In every run whose validations all pass and whose form is loaded,
    with N the number of mapped fields: [_fill_field] is called exactly N
    times, once for every mapped field with its mapped value, whatever any
    of those calls returns, and N results are collected; and if exactly one
    of these results is a failure, the result of the workflow has
    [success = False]. *)
Theorem fill_attempts_every_mapped_field
    (self self' : filler) (image_source : Source) (w : LatamForm.world Page)
    (extracted_fields : gmap string SabreScreen.SabreField)
    (validation_results : list ValidationResult) :
  run_to_validation self image_source
    = Some (extracted_fields, self', validation_results) ->
  Forall (fun r => is_valid r = true) validation_results ->
  FormFiller.form_loaded Image self' = true ->
  let mapped := FormFiller._map_sabre_to_latam extracted_fields in
  let N := size mapped in
  let out := workflow self image_source w in
  let result := fst (fst out) in
  exists calls : list (string * string),
    LatamForm.fill_calls (snd out) = LatamForm.fill_calls w ++ calls
    /\ length calls = N
    /\ calls ≡ₚ map_to_list mapped
    /\ length (FormFiller.field_results result) = N
    /\ (length (List.filter failed (FormFiller.field_results result)) = 1 ->
        FormFiller.success result = false).
Proof.
  intros Hrun Hvalid Hloaded mapped N out result.
  subst out result. unfold run_to_validation in Hrun.
  unfold FormFiller.process_complete_workflow.
  destruct (process_image_input image_source) as [[image extracted_text]|msg];
    [|discriminate Hrun].
  destruct (Py.len extracted_text =? 0)%nat; [discriminate Hrun|].
  destruct (SabreScreen.detect_sabre_pattern cvtColor_raises _) as [detected screen1].
  destruct (negb (SabreScreen.is_valid_screen _)); [discriminate Hrun|].
  destruct (SabreScreen.parse_fields extract_fields _) as [fields screen3].
  injection Hrun as <- <- <-.
  fold failed. rewrite (filter_failed_empty _ Hvalid).
  rewrite Hloaded. cbn [negb]. fold mapped.
  unfold LatamForm.fill_all. cbn [negb].
  pose proof (fill_loop_log (LatamForm.field_mappings now_year) mapped w []) as Hlog.
  cbv zeta in Hlog.
  destruct (LatamForm.fill_loop Page perform query _ mapped w []) as [w1 fill_results].
  cbn [fst snd] in Hlog. destruct Hlog as [Hcalls (rs & Hrs & Hlen)].
  cbn [app] in Hrs. subst rs.
  pose proof (submit_form_log true w1) as Hsub.
  destruct (LatamForm.submit_form Page perform query true w1) as [w2 submission_result].
  cbn [fst snd] in Hsub |- *.
  assert (Hperm : attempted (LatamForm.field_mappings now_year) mapped
                  ≡ₚ map_to_list mapped).
  { apply attempted_all; [apply field_mappings_NoDup|].
    intros k Hk. apply latam_names_mapped, (mapped_keys fields), Hk. }
  assert (HN : length (attempted (LatamForm.field_mappings now_year) mapped) = N).
  { rewrite Hperm. apply length_map_to_list. }
  exists (attempted (LatamForm.field_mappings now_year) mapped).
  cbn [FormFiller.field_results FormFiller.success].
  split; [rewrite Hsub; exact Hcalls|].
  split; [exact HN|]. split; [exact Hperm|].
  split; [rewrite Hlen; exact HN|].
  intros Hone. rewrite forallb_false_of_failed; [reflexivity|]. rewrite Hone. lia.
Qed.

End WorkflowFacts.

(** ** Two concrete runs *)

(** A recogniser that returns an image and the text of the detection
    test, a page on which every action succeeds and every query finds a
    filled element, and a filler whose form is loaded. *)
Definition ocr (_ : unit) : LatamForm.outcome (option unit * string) :=
  LatamForm.Returned (Some tt, mock_sabre_text).

Definition quiet_perform (_ : LatamForm.action) (p : unit)
    : unit * LatamForm.outcome unit :=
  (p, LatamForm.Returned tt).

Definition quiet_query (_ : string) (p : unit)
    : unit * LatamForm.outcome LatamForm.element :=
  (p, LatamForm.Returned (LatamForm.Present "x")).

Definition field (name value : string) : string * SabreScreen.SabreField :=
  (name, SabreScreen.mkSabreField name value 95 (0, 0, 0, 0)).

(** The fields of the test's reservation, with the class left open. *)
Definition reservation (classe : string) : gmap string SabreScreen.SabreField :=
  list_to_map
    [ field "pnr" "ABC123"; field "passenger_name" "SILVA/ALBERTO";
      field "carrier" "LA"; field "flight_num" "6375"; field "classe" classe;
      field "trecho" "GRU-SCL"; field "data_voo" "13MAR"; field "status" "HK";
      field "auth_code" "PIC_S23" ].

Definition ready_filler : FormFiller.t unit :=
  FormFiller.mk unit SabreScreen.init (Some true).

Definition fresh_world : LatamForm.world unit := LatamForm.mkWorld tt [].

Definition screen_after (classe : string) : SabreScreen.t unit :=
  SabreScreen.mk (Some tt) mock_sabre_text (reservation classe) true.

Definition run (classe : string)
    : FormFiller.FillResult * FormFiller.t unit * LatamForm.world unit :=
  FormFiller.process_complete_workflow unit (fun _ => false)
    (fun _ => Some (reservation classe)) unit quiet_perform quiet_query 2026
    unit ocr ready_filler tt fresh_world.

(** A reservation in class F: validation fails once and nothing is sent
    to the form. *)
Lemma ineligible_class_run :
  exists n : nat,
    1 <= n
    /\ n = length (List.filter failed
                     [RulesEngine.ok; RulesEngine.ok; RulesEngine.ok; class_ineligible "F"])
    /\ run "F"
       = (FormFiller.mkFillResult false
            [RulesEngine.ok; RulesEngine.ok; RulesEngine.ok; class_ineligible "F"]
            None
            (Some ("Critical validation failures: " +:+ Py.str_of_nat n)),
          FormFiller.mk unit (screen_after "F") (Some true), fresh_world).
Proof.
  apply (failed_validation_never_fills unit (fun _ => false)
           (fun _ => Some (reservation "F")) unit quiet_perform quiet_query 2026
           unit ocr ready_filler (FormFiller.mk unit (screen_after "F") (Some true))
           tt fresh_world (reservation "F")).
  - reflexivity.
  - exists (class_ineligible "F"). split; [|reflexivity].
    do 3 apply list_elem_of_further. apply list_elem_of_here.
Defined.

(** The same reservation in class Y: all validations pass, the thirteen
    mapped fields are all attempted, the flight-number field alone fails,
    and the run is not a success. *)
Lemma one_failed_field_run :
  length (LatamForm.fill_calls (snd (run "Y"))) = 13
  /\ size (FormFiller._map_sabre_to_latam (reservation "Y")) = 13
  /\ length (List.filter failed (FormFiller.field_results (fst (fst (run "Y"))))) = 1
  /\ FormFiller.success (fst (fst (run "Y"))) = false.
Proof.
  destruct (fill_attempts_every_mapped_field unit (fun _ => false)
              (fun _ => Some (reservation "Y")) unit quiet_perform quiet_query 2026
              unit ocr ready_filler (FormFiller.mk unit (screen_after "Y") (Some true))
              tt fresh_world (reservation "Y")
              [RulesEngine.ok; RulesEngine.ok; RulesEngine.ok; RulesEngine.ok])
    as (calls & Hcalls & Hlen & _ & _ & Hone).
  - reflexivity.
  - repeat constructor.
  - reflexivity.
  - fold (run "Y") in Hcalls, Hone.
    assert (Hfailed : length (List.filter failed
                                (FormFiller.field_results (fst (fst (run "Y"))))) = 1)
      by (vm_compute; reflexivity).
    split; [|split; [|split]].
    + rewrite Hcalls, length_app, Hlen. vm_compute. reflexivity.
    + vm_compute. reflexivity.
    + exact Hfailed.
    + exact (Hone Hfailed).
Defined.

(** * Further properties of the embedded code *)

(** ** Normal forms of names *)

Section NormalForms.
Import Py.

Definition not_lower (c : ascii) : bool := negb (is_lower c).

Lemma upper_char_not_lower (c : ascii) : not_lower (upper_char c) = true.
Proof. destruct c as [[] [] [] [] [] [] [] []]; reflexivity. Qed.

Lemma upper_not_lower (s : string) : forall_chars not_lower (upper s) = true.
Proof.
  induction s as [|c s IH]; [reflexivity|].
  cbn [upper forall_chars]. rewrite upper_char_not_lower, IH. reflexivity.
Qed.

(** Deleting occurrences keeps any property that all characters have. *)
Lemma delete_from_forall (p : ascii -> bool) (old : string) (skip : nat) (s : string) :
  forall_chars p s = true ->
  forall_chars p (replace_from old "" skip s) = true.
Proof.
  revert skip. induction s as [|c s IH]; intros skip H; [reflexivity|].
  cbn [forall_chars] in H. apply andb_true_iff in H as [Hc Hs].
  cbn [replace_from]. destruct skip as [|k]; [|apply IH, Hs].
  destruct (String.prefix old (String c s)).
  - change ("" +:+ ?x) with x. apply IH, Hs.
  - cbn [forall_chars]. rewrite Hc. apply IH, Hs.
Qed.

Lemma delete_forall (p : ascii -> bool) (old s : string) :
  old <> "" ->
  forall_chars p s = true -> forall_chars p (replace old "" s) = true.
Proof.
  intros Hold H. unfold replace. destruct old; [contradiction|].
  apply delete_from_forall, H.
Qed.

Lemma split_ws_from_forall (p : ascii -> bool) (s cur : string) :
  forall_chars p cur = true -> forall_chars p s = true ->
  Forall (fun t => forall_chars p t = true) (split_ws_from cur s).
Proof.
  revert cur. induction s as [|c s IH]; intros cur Hcur Hs; cbn [split_ws_from].
  - destruct cur; [constructor|]. constructor; [exact Hcur|constructor].
  - cbn [forall_chars] in Hs. apply andb_true_iff in Hs as [Hc Hs].
    destruct (is_space c).
    + destruct cur; [apply IH; [reflexivity|exact Hs]|].
      constructor; [exact Hcur|apply IH; [reflexivity|exact Hs]].
    + apply IH; [|exact Hs]. unfold snoc.
      rewrite forall_chars_append, Hcur. cbn. rewrite Hc. reflexivity.
Qed.

Lemma join_forall (p : ascii -> bool) (sep : string) (ts : list string) :
  forall_chars p sep = true ->
  Forall (fun t => forall_chars p t = true) ts ->
  forall_chars p (join sep ts) = true.
Proof.
  intros Hsep. unfold join. induction 1 as [|t ts Ht Hts IH]; [reflexivity|].
  destruct ts as [|t' ts]; [exact Ht|].
  cbn [String.concat] in IH |- *.
  rewrite !forall_chars_append, Ht, Hsep, IH. reflexivity.
Qed.

Lemma titles_deleted_forall (p : ascii -> bool) (ts : list string) (s : string) :
  Forall (fun t => t <> "") ts ->
  forall_chars p s = true ->
  forall_chars p (fold_left (fun acc title => replace title "" acc) ts s) = true.
Proof.
  intros Hts. revert s. induction Hts as [|t ts Ht _ IH]; intros s H; [exact H|].
  cbn [fold_left]. apply IH, delete_forall; assumption.
Qed.

Lemma exists_lower_forall (s : string) :
  exists_char is_lower s = negb (forall_chars not_lower s).
Proof.
  induction s as [|c s IH]; [reflexivity|].
  cbn [exists_char forall_chars]. rewrite IH. unfold not_lower.
  destruct (is_lower c); reflexivity.
Qed.

(** X1.  A normalised name holds no lower-case letter. *)
Theorem normalized_has_no_lower_case (name : string) :
  exists_char is_lower (RulesEngine._normalize_name name) = false.
Proof.
  rewrite exists_lower_forall. apply negb_false_iff.
  unfold RulesEngine._normalize_name. apply join_forall; [reflexivity|].
  apply split_ws_from_forall; [reflexivity|].
  apply titles_deleted_forall; [|apply upper_not_lower].
  unfold RulesEngine.titles. repeat constructor; discriminate.
Qed.

(** X2.  A normalised name is a list of words - each not empty, without
    whitespace - joined by single spaces: collapsing its whitespace again
    changes nothing. *)
Theorem normalized_is_single_spaced (name : string) :
  Forall token (split_ws (RulesEngine._normalize_name name))
  /\ join " " (split_ws (RulesEngine._normalize_name name))
     = RulesEngine._normalize_name name.
Proof.
  unfold RulesEngine._normalize_name.
  set (name_upper := fold_left _ _ _).
  pose proof (split_ws_from_tokens name_upper "" eq_refl) as Hts.
  fold (split_ws name_upper) in Hts.
  rewrite (split_ws_join _ Hts). split; [exact Hts|reflexivity].
Qed.

End NormalForms.

Section NormalForms2.
Import Py.

Lemma replace_from_absent (old new s : string) :
  contains old s = false -> replace_from old new 0 s = s.
Proof.
  induction s as [|c s IH]; intros H; [reflexivity|].
  cbn [contains] in H. apply orb_false_iff in H as [Hp Hs].
  cbn [replace_from]. rewrite Hp, (IH Hs). reflexivity.
Qed.

Lemma replace_absent (old new s : string) :
  old <> "" -> contains old s = false -> replace old new s = s.
Proof.
  intros Hold H. unfold replace. destruct old; [contradiction|].
  apply replace_from_absent, H.
Qed.

(** X3.  On a name in which (upper-cased) no title occurs, normalisation
    only upper-cases and collapses the whitespace. *)
Theorem title_free_name_is_only_collapsed (name : string) :
  Forall (fun title => contains title (upper name) = false) RulesEngine.titles ->
  RulesEngine._normalize_name name = join " " (split_ws (upper name)).
Proof.
  intros H. unfold RulesEngine._normalize_name. do 2 f_equal.
  assert (Hne : Forall (fun t : string => t <> "") RulesEngine.titles)
    by (unfold RulesEngine.titles; repeat constructor; discriminate).
  revert H Hne. generalize RulesEngine.titles as ts.
  induction ts as [|t ts IH]; intros H Hne; [reflexivity|].
  inversion H as [|? ? Ht Hts]; subst. inversion Hne as [|? ? Hn Hns]; subst.
  cbn [fold_left]. rewrite (replace_absent t "" _ Hn Ht). apply IH; assumption.
Qed.

Lemma title_free_example :
  RulesEngine._normalize_name "  silva   ana " = "SILVA ANA".
Proof.
  rewrite (title_free_name_is_only_collapsed "  silva   ana ").
  - vm_compute. reflexivity.
  - unfold RulesEngine.titles. repeat constructor; vm_compute; reflexivity.
Defined.

(** Normalisation is a single pass and not idempotent: deleting one
    title can bring the two halves of another together, so a normal form
    may still hold a title and change when normalised again. *)
Remark normalization_is_not_idempotent :
  exists name : string,
    contains "MS" (RulesEngine._normalize_name name) = true
    /\ RulesEngine._normalize_name (RulesEngine._normalize_name name)
       <> RulesEngine._normalize_name name.
Proof.
  exists "AMMSS/ANA". split; [vm_compute; reflexivity|vm_compute; discriminate].
Qed.

End NormalForms2.

(** ** The orthographic test of the incoming side *)

Section Orthographic.
Import Py.

Definition differ (pair : ascii * ascii) : bool := negb (Ascii.eqb (fst pair) (snd pair)).

(** The number of positions at which the two names, padded with spaces to
    the same length, differ. *)
Definition mismatches (old_name new_name : string) : nat :=
  let max_len := Nat.max (len old_name) (len new_name) in
  length (List.filter differ (zip (ljust max_len old_name) (ljust max_len new_name))).

Lemma count_diffs_spec (pairs : list (ascii * ascii)) (n : nat) :
  n <= 3 ->
  RulesEngine.Incoming.count_diffs pairs n
  = if (n + length (List.filter differ pairs) <=? 3)%nat
    then Some (n + length (List.filter differ pairs)) else None.
Proof.
  revert n. induction pairs as [|[a b] pairs IH]; intros n Hn.
  - cbn. rewrite Nat.add_0_r. destruct (Nat.leb_spec n 3); [reflexivity|lia].
  - cbn [RulesEngine.Incoming.count_diffs List.filter].
    change (differ (a, b)) with (negb (Ascii.eqb a b)).
    destruct (Ascii.eqb a b); cbn [negb length]; [apply IH, Hn|].
    unfold RulesEngine.Incoming.max_diffs.
    destruct (Nat.ltb_spec 3 (n + 1)) as [Hgt|Hle].
    + destruct (Nat.leb_spec (n + S (length (List.filter differ pairs))) 3); [lia|reflexivity].
    + rewrite (IH (n + 1)) by lia. rewrite <- !Nat.add_assoc. reflexivity.
Qed.

Lemma orthographic_threshold (old_name new_name : string) :
  RulesEngine.Incoming._is_orthographic_correction old_name new_name
  = (mismatches old_name new_name <=? 3)%nat.
Proof.
  unfold RulesEngine.Incoming._is_orthographic_correction, mismatches.
  rewrite count_diffs_spec by lia. cbn [Nat.add].
  destruct (_ <=? 3)%nat eqn:E; [exact E|reflexivity].
Qed.

(** X4.  The counting loop with its early exit computes a threshold on the
    number of differing positions: the test accepts exactly the pairs
    that differ at three positions or fewer. *)
Theorem incoming_orthographic_is_a_threshold (old_name new_name : string) :
  RulesEngine.Incoming._is_orthographic_correction old_name new_name
  = (mismatches old_name new_name <=? 3)%nat.
Proof.
  unfold RulesEngine.Incoming._is_orthographic_correction, mismatches.
  rewrite count_diffs_spec by lia. cbn [Nat.add].
  destruct (_ <=? 3)%nat eqn:E; [exact E|reflexivity].
Qed.

Lemma filter_differ_zip_sym (s t : string) :
  length (List.filter differ (zip s t)) = length (List.filter differ (zip t s)).
Proof.
  revert t. induction s as [|a s IH]; intros [|b t]; try reflexivity.
  cbn [zip List.filter].
  change (differ (a, b)) with (negb (Ascii.eqb a b)).
  change (differ (b, a)) with (negb (Ascii.eqb b a)).
  rewrite (Ascii.eqb_sym a b).
  destruct (Ascii.eqb b a); cbn [negb length]; rewrite IH; reflexivity.
Qed.

Lemma mismatches_sym (old_name new_name : string) :
  mismatches old_name new_name = mismatches new_name old_name.
Proof.
  unfold mismatches. rewrite (Nat.max_comm (len new_name)). apply filter_differ_zip_sym.
Qed.

(** X5.  The orthographic test of the incoming side does not depend on
    the order of the two names; the similarity ratio of the HEAD side
    does: it accepts "PEREIRA/HERNANDO" against "MARIO/HERNANDO" and
    refuses the same two names the other way round. *)
Theorem orthographic_order :
  (forall old_name new_name : string,
     RulesEngine.Incoming._is_orthographic_correction old_name new_name
     = RulesEngine.Incoming._is_orthographic_correction new_name old_name)
  /\ (exists old_name new_name : string,
        RulesEngine.Head._is_orthographic_correction old_name new_name = true
        /\ RulesEngine.Head._is_orthographic_correction new_name old_name = false).
Proof.
  split.
  - intros old_name new_name.
    rewrite !orthographic_threshold, mismatches_sym. reflexivity.
  - exists "PEREIRA/HERNANDO", "MARIO/HERNANDO". split; vm_compute; reflexivity.
Qed.

Lemma len_append (s t : string) : len (s +:+ t) = len s + len t.
Proof.
  unfold len. induction s as [|c s IH]; [reflexivity|].
  rewrite append_cons. cbn [String.length]. rewrite IH. reflexivity.
Qed.

Lemma len_spaces (n : nat) : len (string_of_list_ascii (repeat " "%char n)) = n.
Proof. unfold len. induction n as [|n IH]; [reflexivity|]. cbn. rewrite IH. reflexivity. Qed.

Lemma len_ljust (width : nat) (s : string) : len (ljust width s) = Nat.max (len s) width.
Proof. unfold ljust. rewrite len_append, len_spaces. lia. Qed.

Lemma length_zip_le (s t : string) : length (zip s t) <= len s.
Proof.
  unfold len. revert t. induction s as [|a s IH]; intros [|b t]; cbn; try lia.
  specialize (IH t). lia.
Qed.

Lemma mismatches_le (old_name new_name : string) :
  mismatches old_name new_name <= Nat.max (len old_name) (len new_name).
Proof.
  unfold mismatches.
  etransitivity; [apply List.filter_length_le|].
  etransitivity; [apply length_zip_le|].
  rewrite len_ljust. lia.
Qed.

(** X6.  On the incoming side every change between two names whose normal
    forms have three characters or fewer is approved: no three-letter
    name can differ from another at more than three positions. *)
Theorem incoming_approves_all_short_names (old_name new_name : string) :
  len (RulesEngine._normalize_name old_name) <= 3 ->
  len (RulesEngine._normalize_name new_name) <= 3 ->
  RulesEngine.Incoming.validate_name_correction old_name new_name = RulesEngine.ok.
Proof.
  intros Ho Hn.
  unfold RulesEngine.Incoming.validate_name_correction, RulesEngine.classify.
  destruct (String.eqb _ _); [reflexivity|].
  rewrite orthographic_threshold.
  pose proof (mismatches_le (RulesEngine._normalize_name old_name)
                (RulesEngine._normalize_name new_name)) as H.
  destruct (Nat.leb_spec (mismatches (RulesEngine._normalize_name old_name)
                            (RulesEngine._normalize_name new_name)) 3);
    [reflexivity|lia].
Qed.

Lemma ana_becomes_bob :
  RulesEngine.Incoming.validate_name_correction "ANA" "BOB" = RulesEngine.ok.
Proof.
  apply incoming_approves_all_short_names; vm_compute; lia.
Defined.

End Orthographic.

(** ** A title put into a name *)

Section PlantedTitle.
Import Py.










End PlantedTitle.






Section PlantedTitles.
Import Py.









(** ASCII text (code points below 128), on which [str.upper], [len],
    [str.isdigit], [str.split] and the character classes of [re] act as
    embedded. *)
Definition is_ascii (c : ascii) : bool := (ord c <? 128)%nat.




End PlantedTitles.

(** ** Duplicate removal and addition *)

Section TokenTests.
Import Py.

Lemma fromkeys_from_spec (seen xs : list string) :
  NoDup (fromkeys_from seen xs)
  /\ forall x, x ∈ fromkeys_from seen xs <-> x ∈ xs /\ x ∉ seen.
Proof.
  revert seen. induction xs as [|x xs IH]; intros seen; cbn [fromkeys_from].
  - split; [constructor|]. intros y. split; [intros H; inversion H|intros [H _]; inversion H].
  - destruct (in_list x seen) eqn:E.
    + apply in_list_true in E. destruct (IH seen) as [Hnd Hin]. split; [exact Hnd|].
      intros y. rewrite Hin, elem_of_cons. split; [tauto|].
      intros [[->|Hy] Hs]; [contradiction|tauto].
    + apply in_list_false in E. destruct (IH (x :: seen)) as [Hnd Hin]. split.
      * apply NoDup_cons. split; [|exact Hnd].
        intros H. apply Hin in H as [_ H]. apply H. left.
      * intros y. rewrite !elem_of_cons, Hin, elem_of_cons. split.
        -- intros [->|[Hy Hs]]; [tauto|tauto].
        -- intros [[->|Hy] Hs]; [tauto|].
           destruct (decide (y = x)) as [->|Hne]; [tauto|]. right. tauto.
Qed.

(** X7.  When the duplicate-removal test accepts, the new name has no
    repeated word and has exactly the words of the old name. *)
Theorem duplication_keeps_the_words (old_name new_name : string) :
  RulesEngine._is_duplication_correction old_name new_name = true ->
  NoDup (split_ws new_name)
  /\ forall word : string, word ∈ split_ws new_name <-> word ∈ split_ws old_name.
Proof.
  unfold RulesEngine._is_duplication_correction. intros H.
  apply bool_decide_eq_true in H. rewrite H. unfold fromkeys.
  destruct (fromkeys_from_spec [] (split_ws old_name)) as [Hnd Hin].
  split; [exact Hnd|]. intros word. rewrite Hin. split; [tauto|].
  intros Hw. split; [exact Hw|]. intros Hn. inversion Hn.
Qed.

Lemma duplication_example :
  NoDup (split_ws "ANA SILVA")
  /\ forall word : string, word ∈ split_ws "ANA SILVA" <-> word ∈ split_ws "ANA ANA SILVA".
Proof.
  apply duplication_keeps_the_words. vm_compute. reflexivity.
Defined.

Lemma strict_subset_one_way (old_parts new_parts : gset string) :
  bool_decide (old_parts ⊆ new_parts) && (size old_parts <? size new_parts)%nat = true ->
  bool_decide (new_parts ⊆ old_parts) && (size new_parts <? size old_parts)%nat = false.
Proof.
  intros H. apply andb_true_iff in H as [_ H]. apply Nat.ltb_lt in H.
  apply andb_false_iff. right. apply Nat.ltb_ge. lia.
Qed.

(** X8.  The addition test works in one direction only: if it accepts the
    change from one name to another, it refuses the change back (on
    either side of the merge). *)
Theorem addition_is_one_way (old_name new_name : string) :
  (RulesEngine.Head._is_addition_correction old_name new_name = true ->
   RulesEngine.Head._is_addition_correction new_name old_name = false)
  /\ (RulesEngine.Incoming._is_addition_correction old_name new_name = true ->
      RulesEngine.Incoming._is_addition_correction new_name old_name = false).
Proof.
  split; apply strict_subset_one_way.
Qed.

Lemma addition_example :
  RulesEngine.Head._is_addition_correction "SILVA/LUIS ALBERTO" "SILVA/ALBERTO" = false
  /\ RulesEngine.Incoming._is_addition_correction "SILVA LUIS ALBERTO" "SILVA ALBERTO" = false.
Proof.
  split.
  - apply (proj1 (addition_is_one_way "SILVA/ALBERTO" "SILVA/LUIS ALBERTO")).
    vm_compute. reflexivity.
  - apply (proj2 (addition_is_one_way "SILVA ALBERTO" "SILVA LUIS ALBERTO")).
    vm_compute. reflexivity.
Defined.

End TokenTests.

(** ** The date transform *)

Section Dates.
Import Py.

(** Facts about [upper] as embedded, character by character: they are
    facts about [str.upper] on ASCII text only (outside ASCII it can change
    the length of a string), so the theorems that rest on them are stated
    for ASCII text. *)
Lemma upper_char_idem (c : ascii) : upper_char (upper_char c) = upper_char c.
Proof. destruct c as [[] [] [] [] [] [] [] []]; reflexivity. Qed.

Lemma is_digit_upper_char (c : ascii) : is_digit (upper_char c) = is_digit c.
Proof. destruct c as [[] [] [] [] [] [] [] []]; reflexivity. Qed.

Lemma upper_char_digit (c : ascii) : is_digit c = true -> upper_char c = c.
Proof. destruct c as [[] [] [] [] [] [] [] []]; intros H; try reflexivity; discriminate H. Qed.

Lemma upper_idem (s : string) : upper (upper s) = upper s.
Proof.
  induction s as [|c s IH]; [reflexivity|].
  cbn [upper]. rewrite upper_char_idem, IH. reflexivity.
Qed.

Lemma len_upper (s : string) : len (upper s) = len s.
Proof. unfold len. induction s as [|c s IH]; [reflexivity|]. cbn. rewrite IH. reflexivity. Qed.

Lemma take_upper (n : nat) (s : string) : take n (upper s) = upper (take n s).
Proof.
  revert s. induction n as [|n IH]; intros [|c s]; try reflexivity.
  cbn [upper take]. rewrite IH. reflexivity.
Qed.

Lemma drop_upper (n : nat) (s : string) : drop n (upper s) = upper (drop n s).
Proof.
  revert s. induction n as [|n IH]; intros [|c s]; try reflexivity.
  cbn [upper drop]. apply IH.
Qed.

Lemma forall_digits_upper (s : string) :
  forall_chars is_digit (upper s) = forall_chars is_digit s.
Proof.
  induction s as [|c s IH]; [reflexivity|].
  cbn [upper forall_chars]. rewrite is_digit_upper_char, IH. reflexivity.
Qed.

Lemma isdigit_upper (s : string) : isdigit (upper s) = isdigit s.
Proof.
  destruct s as [|c s]; [reflexivity|].
  exact (forall_digits_upper (String c s)).
Qed.

Lemma upper_digits (s : string) : forall_chars is_digit s = true -> upper s = s.
Proof.
  induction s as [|c s IH]; intros H; [reflexivity|].
  cbn [forall_chars] in H. apply andb_true_iff in H as [Hc Hs].
  cbn [upper]. rewrite (upper_char_digit c Hc), (IH Hs). reflexivity.
Qed.

Lemma isdigit_forall (s : string) : isdigit s = true -> forall_chars is_digit s = true.
Proof. destruct s; [discriminate|]. intros H. exact H. Qed.

(** X9.  On ASCII text the date transform does not look at the case of
    the month: a date and its upper-cased spelling give the same result. *)
Theorem date_format_ignores_case (now_year : nat) (date_str : string) :
  forall_chars is_ascii date_str = true ->
  RulesEngine.validate_date_format now_year (upper date_str)
  = RulesEngine.validate_date_format now_year date_str.
Proof.
  intros _. unfold RulesEngine.validate_date_format.
  rewrite len_upper, drop_upper, upper_idem, !take_upper, isdigit_upper.
  destruct (negb (len date_str =? 5)%nat); [reflexivity|]. cbn [orb].
  destruct (isdigit (take 2 date_str)) eqn:D; [|reflexivity]. cbn [negb].
  rewrite (upper_digits _ (isdigit_forall _ D)). reflexivity.
Qed.

Lemma date_in_lower_case :
  RulesEngine.validate_date_format 2026 "13MAR"
  = RulesEngine.validate_date_format 2026 "13mar".
Proof. apply (date_format_ignores_case 2026 "13mar"). reflexivity. Defined.

(** X10.  The date transform never checks the day: any two digits in
    front of a known month abbreviation are converted, day 00 or 99
    included. *)
Theorem date_format_accepts_any_day
    (now_year : nat) (d1 d2 : ascii) (month_abbr month : string) :
  is_digit d1 = true -> is_digit d2 = true ->
  len month_abbr = 3 ->
  RulesEngine.month_map !! upper month_abbr = Some month ->
  RulesEngine.validate_date_format now_year (String d1 (String d2 month_abbr))
  = (true, String d1 (String d2 ("/" +:+ month +:+ "/" +:+ str_of_nat now_year))).
Proof.
  intros H1 H2 Hlen Hm. unfold RulesEngine.validate_date_format.
  cbn [len String.length take drop] in *. unfold len in Hlen. rewrite Hlen.
  cbn [Nat.eqb negb orb isdigit forall_chars]. rewrite H1, H2. cbn [andb negb].
  destruct month_abbr as [|c1 m]; [discriminate Hlen|].
  cbn [take]. rewrite Hm. reflexivity.
Qed.

Lemma day_99_and_day_00 :
  RulesEngine.validate_date_format 2026 "99FEV" = (true, "99/02/2026")
  /\ RulesEngine.validate_date_format 2026 "00dez" = (true, "00/12/2026").
Proof.
  split.
  - apply (date_format_accepts_any_day 2026 "9" "9" "FEV" "02"); reflexivity.
  - apply (date_format_accepts_any_day 2026 "0" "0" "dez" "12"); reflexivity.
Defined.

End Dates.

(** ** What a match of the extraction patterns looks like *)

Section GroupFacts.
Import ReGroups.

Lemma match_cons (a : item) (p : list item) :
  match_here (a :: p) = step a (match_here p).
Proof. reflexivity. Qed.

Lemma match_nil (st : captures) (s : string) (groups : list string) :
  match_here [] st s = Some groups -> groups = closed st.
Proof. cbn. intros H. injection H as <-. reflexivity. Qed.

Lemma step_one (cl : cclass) (k : captures -> string -> option (list string))
    (st : captures) (s : string) (groups : list string) :
  step (One cl) k st s = Some groups ->
  exists c s', s = String c s' /\ has cl c = true /\ k (push c st) s' = Some groups.
Proof.
  cbn. destruct s as [|c s']; [discriminate|].
  destruct (has cl c) eqn:E; [|discriminate]. eauto.
Qed.

Lemma step_opt (cl : cclass) (k : captures -> string -> option (list string))
    (st : captures) (s : string) (groups : list string) :
  step (Opt cl) k st s = Some groups ->
  (exists c s', s = String c s' /\ has cl c = true /\ k (push c st) s' = Some groups)
  \/ k st s = Some groups.
Proof.
  cbn. destruct s as [|c s']; [auto|].
  destruct (has cl c) eqn:E; [|auto].
  destruct (k (push c st) s') eqn:K; [|auto].
  intros H. injection H as <-. left. eauto.
Qed.

Lemma step_star_cons (cl : cclass) (k : captures -> string -> option (list string))
    (st : captures) (c : ascii) (s : string) :
  step (Star cl) k st (String c s)
  = if has cl c
    then match step (Star cl) k (push c st) s with
         | Some groups => Some groups
         | None => k st (String c s)
         end
    else k st (String c s).
Proof. reflexivity. Qed.

Lemma step_star_empty (cl : cclass) (k : captures -> string -> option (list string))
    (st : captures) :
  step (Star cl) k st "" = k st "".
Proof. reflexivity. Qed.

(** A star outside every group leaves the captures as they are. *)
Lemma step_star_outside (cl : cclass) (k : captures -> string -> option (list string))
    (st : captures) (s : string) (groups : list string) :
  current st = None ->
  step (Star cl) k st s = Some groups ->
  exists s', k st s' = Some groups.
Proof.
  intros Hst. induction s as [|c s IH].
  - rewrite step_star_empty. eauto.
  - rewrite step_star_cons.
    assert (Hp : push c st = st) by (unfold push; rewrite Hst; reflexivity).
    rewrite Hp. destruct (has cl c); [|eauto].
    destruct (step (Star cl) k st s) as [g|] eqn:K; [|eauto].
    intros H. injection H as <-. apply IH. reflexivity.
Qed.

(** A star inside a group adds characters of its class to the group. *)
Lemma step_star_inside (cl : cclass) (k : captures -> string -> option (list string))
    (done : list string) (text : string) (s : string) (groups : list string) :
  step (Star cl) k (mkCaptures done (Some text)) s = Some groups ->
  exists more s',
    Py.forall_chars (has cl) more = true
    /\ k (mkCaptures done (Some (text +:+ more))) s' = Some groups.
Proof.
  revert text. induction s as [|c s IH]; intros text.
  - rewrite step_star_empty. intros H. exists "", "". rewrite append_empty_r. auto.
  - rewrite step_star_cons.
    change (push c (mkCaptures done (Some text)))
      with (mkCaptures done (Some (Py.snoc text c))).
    destruct (has cl c) eqn:E.
    + destruct (step (Star cl) k (mkCaptures done (Some (Py.snoc text c))) s)
        as [g|] eqn:K.
      * intros H. injection H as <-.
        apply IH in K as (more & s' & Hm & K).
        exists (String c more), s'. split; [cbn; rewrite E; exact Hm|].
        unfold Py.snoc in K. rewrite append_assoc in K. exact K.
      * intros H. exists "", (String c s). rewrite append_empty_r. auto.
    + intros H. exists "", (String c s). rewrite append_empty_r. auto.
Qed.

Lemma search_some (p : list item) (s : string) (groups : list string) :
  search p s = Some groups -> exists s', match_here p start s' = Some groups.
Proof.
  induction s as [|c s IH]; cbn [search].
  - destruct (match_here p start "") eqn:E; [|discriminate].
    intros H. injection H as <-. eauto.
  - destruct (match_here p start (String c s)) eqn:E; [|exact IH].
    intros H. injection H as <-. eauto.
Qed.

Lemma push_outside (c : ascii) (done : list string) :
  push c (mkCaptures done None) = mkCaptures done None.
Proof. reflexivity. Qed.

Lemma push_inside (c : ascii) (done : list string) (text : string) :
  push c (mkCaptures done (Some text)) = mkCaptures done (Some (Py.snoc text c)).
Proof. reflexivity. Qed.

Lemma snoc_empty (c : ascii) : Py.snoc "" c = String c "".
Proof. reflexivity. Qed.

Lemma snoc_cons (c d : ascii) (s : string) : Py.snoc (String c s) d = String c (Py.snoc s d).
Proof. reflexivity. Qed.

End GroupFacts.

(** Walk through a hypothesis [match_here items start s = Some groups] whose
    items are single characters, stars outside groups and parentheses,
    one item at a time. *)
Ltac walk_simpl H :=
  unfold ReGroups.open_group, ReGroups.close_group in H;
  cbn beta iota in H;
  cbn [ReGroups.closed ReGroups.current app] in H;
  rewrite ?push_outside, ?push_inside, ?snoc_cons, ?snoc_empty in H.

Ltac walk_step H :=
  first
    [ apply step_one in H as (? & ? & -> & ? & H)
    | apply step_opt in H as [(? & ? & -> & ? & H)|H]
    | apply step_star_outside in H as (? & H); [|reflexivity]
    | change (ReGroups.step ReGroups.Open ?k ?st ?s)
        with (k (ReGroups.open_group st) s) in H
    | change (ReGroups.step ReGroups.Close ?k ?st ?s)
        with (k (ReGroups.close_group st) s) in H ];
  walk_simpl H.

Ltac walk H :=
  unfold ReGroups.start in H; rewrite ?match_cons in H;
  repeat walk_step H.

Section ExtractionShapes.
Import ReGroups.

Lemma has_A_Z0_9 (c : ascii) : has (Inside Re.A_Z0_9) c = upper_or_digit c.
Proof. apply cset_match_A_Z0_9. Qed.

Lemma has_digit (c : ascii) : has (Inside Re.Digit) c = Py.is_digit c.
Proof. cbn. unfold Re.cset_match. rewrite orb_false_r. reflexivity. Qed.

Lemma has_A_Z (c : ascii) : has (Inside A_Z) c = Py.is_upper c.
Proof. cbn. unfold Re.cset_match. rewrite orb_false_r. reflexivity. Qed.

(** The group of the reservation pattern is six characters, each an
    upper-case letter or a digit. *)
Lemma pnr_regex_groups (text : string) (groups : list string) :
  search SabreScreen.pnr_regex text = Some groups ->
  exists g, groups = [g] /\ Py.len g = 6 /\ Py.forall_chars upper_or_digit g = true.
Proof.
  intros H. apply search_some in H as (s & H).
  unfold SabreScreen.pnr_regex, lit, ws_star, group, times in H.
  cbn [app map list_ascii_of_string repeat] in H.
  walk H. injection H as <-.
  rewrite has_A_Z0_9 in *.
  eexists. split; [reflexivity|]. split; [reflexivity|].
  cbn [Py.forall_chars].
  repeat match goal with Hc : upper_or_digit _ = true |- _ => rewrite Hc; clear Hc end.
  reflexivity.
Qed.

Ltac use_chars :=
  repeat match goal with
         | Hc : _ = true |- _ => rewrite Hc; clear Hc
         end.

(** The six groups of a flight line: two upper-case letters; three or four
    digits; the class; the route; two digits and three upper-case letters;
    two or three upper-case letters. *)
Definition flight_line (groups : list string) : Prop :=
  exists carrier flight_num classe trecho data_voo status : string,
    groups = [carrier; flight_num; classe; trecho; data_voo; status]
    /\ (Py.len carrier = 2 /\ Py.forall_chars Py.is_upper carrier = true)
    /\ (3 <= Py.len flight_num <= 4 /\ Py.forall_chars Py.is_digit flight_num = true)
    /\ (Py.len classe = 1 /\ Py.forall_chars Py.is_upper classe = true)
    /\ Py.len trecho = 7
    /\ (Py.len data_voo = 5 /\ Py.isdigit (Py.take 2 data_voo) = true
        /\ Py.forall_chars Py.is_upper (Py.drop 2 data_voo) = true)
    /\ (2 <= Py.len status <= 3 /\ Py.forall_chars Py.is_upper status = true).

Lemma flight_regex_groups (text : string) (groups : list string) :
  search SabreScreen.flight_regex text = Some groups -> flight_line groups.
Proof.
  intros H. apply search_some in H as (s & H).
  unfold SabreScreen.flight_regex, lit, ws_plus, group, times in H.
  cbn [app map list_ascii_of_string repeat] in H.
  walk H; injection H as <-; rewrite ?has_digit, ?has_A_Z in *;
    unfold flight_line; do 6 eexists; (split; [reflexivity|]);
    cbn [Py.len String.length Py.forall_chars Py.isdigit Py.take Py.drop];
    use_chars; repeat split; lia.
Qed.

End ExtractionShapes.

(** ** The dictionary that [parse_fields] builds *)

Section Extraction.
Import SabreScreen.

Definition made (key : string) (confidence : nat) (v : string) : SabreField :=
  mkSabreField key v confidence no_position.

(** The i-th group of the first flight line. *)
Definition flight_group (text : string) (i : nat) : option string :=
  match ReGroups.search flight_regex text with
  | Some groups => groups !! i
  | None => None
  end.

Definition field_names : list string :=
  ["pnr"; "passenger_name"; "carrier"; "flight_num"; "classe"; "trecho";
   "data_voo"; "status"; "ticket_number"; "auth_code"].

(** Every entry of the dictionary, read off the five searches. *)
Lemma extract_lookups (text : string) (fields : gmap string SabreField) :
  extract text = Some fields ->
  fields !! "pnr" = made "pnr" 95 <$> (Py.upper <$> group1 pnr_regex text)
  /\ fields !! "passenger_name"
     = made "passenger_name" 90 <$> (Py.strip <$> group1 name_regex text)
  /\ fields !! "carrier" = made "carrier" 95 <$> flight_group text 0
  /\ fields !! "flight_num" = made "flight_num" 95 <$> flight_group text 1
  /\ fields !! "classe" = made "classe" 95 <$> flight_group text 2
  /\ fields !! "trecho" = made "trecho" 95 <$> flight_group text 3
  /\ fields !! "data_voo" = made "data_voo" 95 <$> flight_group text 4
  /\ fields !! "status" = made "status" 95 <$> flight_group text 5
  /\ fields !! "ticket_number" = made "ticket_number" 90 <$> group1 tkt_regex text
  /\ fields !! "auth_code" = made "auth_code" 85 <$> group1 auth_regex text
  /\ forall k : string, k ∉ field_names -> fields !! k = None.
Proof.
  unfold extract, flight_group.
  destruct (ReGroups.search flight_regex text) as [groups|] eqn:F;
    [apply flight_regex_groups in F as (g1 & g2 & g3 & g4 & g5 & g6 & -> & _)|];
    destruct (group1 pnr_regex text), (group1 name_regex text),
      (group1 tkt_regex text), (group1 auth_regex text);
    intros [= <-]; unfold put, made;
    do 10 (split;
           [rewrite ?lookup_insert_ne by discriminate;
            first [rewrite lookup_insert_eq|rewrite lookup_empty]; reflexivity|]);
    intros k Hk;
    assert (Hne : forall key : string, key ∈ field_names -> key <> k)
      by (intros key Hin ->; exact (Hk Hin));
    rewrite ?lookup_insert_ne
      by (apply Hne; apply (bool_decide_unpack _); vm_compute; exact I);
    apply lookup_empty.
Qed.

End Extraction.

Section ExtractionTheorems.
Import SabreScreen.

(** The fields of the flight line [LA 6375 Y GRU-SCL <date> HK]. *)
Definition flight_fields (data_voo : string) : gmap string SabreField :=
  put "status" "HK" 95
    (put "data_voo" data_voo 95
       (put "trecho" "GRU-SCL" 95
          (put "classe" "Y" 95
             (put "flight_num" "6375" 95
                (put "carrier" "LA" 95 ∅))))).

Lemma upper_char_fixed (c : ascii) : upper_or_digit c = true -> Py.upper_char c = c.
Proof. destruct c as [[] [] [] [] [] [] [] []]; intros H; try reflexivity; discriminate H. Qed.

Lemma upper_fixed (s : string) :
  Py.forall_chars upper_or_digit s = true -> Py.upper s = s.
Proof.
  induction s as [|c s IH]; intros H; [reflexivity|].
  cbn [Py.forall_chars] in H. apply andb_true_iff in H as [Hc Hs].
  cbn [Py.upper]. rewrite (upper_char_fixed c Hc), (IH Hs). reflexivity.
Qed.

Lemma forall_chars_impl (p q : ascii -> bool) (s : string) :
  (forall c, p c = true -> q c = true) ->
  Py.forall_chars p s = true -> Py.forall_chars q s = true.
Proof.
  intros Hpq. induction s as [|c s IH]; [reflexivity|].
  cbn [Py.forall_chars]. intros H. apply andb_true_iff in H as [Hc Hs].
  rewrite (Hpq c Hc), (IH Hs). reflexivity.
Qed.

Lemma is_upper_upper_or_digit (c : ascii) : Py.is_upper c = true -> upper_or_digit c = true.
Proof. unfold upper_or_digit. intros ->. reflexivity. Qed.

Lemma pnr_ok_of_valid (pnr : string) :
  RulesEngine.is_valid (RulesEngine.validate_pnr_format pnr) = true ->
  RulesEngine.validate_pnr_format pnr = RulesEngine.ok.
Proof.
  unfold RulesEngine.validate_pnr_format.
  destruct (_ || _); [discriminate|].
  destruct (negb _); [discriminate|reflexivity].
Qed.

(** X11.  A reservation code that [parse_fields] extracts always passes
    [validate_pnr_format]: the pattern only captures six upper-case letters
    or digits. *)
Theorem extracted_pnr_is_valid (text : string) (fields : gmap string SabreField)
    (f : SabreField) :
  extract text = Some fields ->
  fields !! "pnr" = Some f ->
  RulesEngine.validate_pnr_format (value f) = RulesEngine.ok.
Proof.
  intros He Hf. apply extract_lookups in He as (Hp & _). rewrite Hp in Hf.
  unfold group1 in Hf.
  destruct (ReGroups.search pnr_regex text) as [groups|] eqn:S; [|discriminate Hf].
  apply pnr_regex_groups in S as (g & -> & Hlen & Hchars).
  cbn in Hf. injection Hf as <-. cbn [value made].
  rewrite (upper_fixed g Hchars). apply pnr_ok_of_valid.
  rewrite validate_pnr_format_spec, Hlen, Hchars. reflexivity.
Qed.

Lemma extracted_pnr_example :
  RulesEngine.validate_pnr_format "ABC123" = RulesEngine.ok.
Proof.
  apply (extracted_pnr_is_valid "Reserva - ABC123"
           (<["pnr" := made "pnr" 95 "ABC123"]> ∅) (made "pnr" 95 "ABC123")).
  - reflexivity.
  - reflexivity.
Defined.

(** X12.  A flight date that [parse_fields] extracts never fails the
    format test of the date transform: it is converted when its month is
    one of the table's keys and refused as an unknown month otherwise. *)
Theorem extracted_date_fails_only_on_month (text : string)
    (fields : gmap string SabreField) (f : SabreField) (now_year : nat) :
  extract text = Some fields ->
  fields !! "data_voo" = Some f ->
  RulesEngine.validate_date_format now_year (value f)
  = match RulesEngine.month_map !! Py.drop 2 (value f) with
    | Some month =>
        (true, Py.take 2 (value f) +:+ "/" +:+ month +:+ "/" +:+ Py.str_of_nat now_year)
    | None => (false, "Mês inválido: " +:+ Py.drop 2 (value f))
    end.
Proof.
  intros He Hf. apply extract_lookups in He as (_ & _ & _ & _ & _ & _ & Hd & _).
  rewrite Hd in Hf. unfold flight_group in Hf.
  destruct (ReGroups.search flight_regex text) as [groups|] eqn:S; [|discriminate Hf].
  apply flight_regex_groups in S
    as (g1 & g2 & g3 & g4 & g5 & g6 & -> & _ & _ & _ & _ & (Hlen & Hdig & Hup) & _).
  cbn in Hf. injection Hf as <-. cbn [value made].
  unfold RulesEngine.validate_date_format.
  rewrite Hlen, Hdig. cbn [Nat.eqb negb orb].
  rewrite (upper_fixed (Py.drop 2 g5)
             (forall_chars_impl _ _ _ is_upper_upper_or_digit Hup)).
  reflexivity.
Qed.

Lemma extracted_date_example :
  RulesEngine.validate_date_format 2026 "13MAR" = (true, "13/03/2026")
  /\ RulesEngine.validate_date_format 2026 "13XYZ" = (false, "Mês inválido: XYZ").
Proof.
  split.
  - apply (extracted_date_fails_only_on_month "LA 6375 Y GRU-SCL 13MAR HK"
             (flight_fields "13MAR") (made "data_voo" 95 "13MAR") 2026).
    + reflexivity.
    + reflexivity.
  - apply (extracted_date_fails_only_on_month "LA 6375 Y GRU-SCL 13XYZ HK"
             (flight_fields "13XYZ") (made "data_voo" 95 "13XYZ") 2026).
    + reflexivity.
    + reflexivity.
Defined.

(** X13.  The [try] body of [parse_fields] never raises: a flight line
    always unpacks into its six names, so every text gives a dictionary. *)
Theorem extract_never_raises (text : string) : is_Some (extract text).
Proof.
  unfold extract.
  destruct (ReGroups.search flight_regex text) as [groups|] eqn:S; [|eauto].
  apply flight_regex_groups in S as (g1 & g2 & g3 & g4 & g5 & g6 & -> & _). eauto.
Qed.

(** X14.  Every field of the dictionary is stored under its own name, is one
    of the ten known fields, has a confidence between 0.85 and 0.95 and the
    placeholder position. *)
Theorem extracted_fields_are_well_formed (text : string)
    (fields : gmap string SabreField) (k : string) (f : SabreField) :
  extract text = Some fields ->
  fields !! k = Some f ->
  k ∈ field_names /\ name f = k /\ 85 <= confidence f <= 95
  /\ position f = (0, 0, 0, 0).
Proof.
  intros He Hf.
  apply extract_lookups
    in He as (H1 & H2 & H3 & H4 & H5 & H6 & H7 & H8 & H9 & H10 & Hout).
  destruct (decide (k ∈ field_names)) as [Hin|Hnin];
    [|rewrite (Hout k Hnin) in Hf; discriminate Hf].
  split; [exact Hin|].
  unfold field_names in Hin.
  repeat (apply elem_of_cons in Hin as [->|Hin];
          [match goal with
           | H : fields !! _ = _ <$> ?o |- _ =>
               rewrite H in Hf; destruct o; [|discriminate Hf];
               cbn in Hf; injection Hf as <-; cbn; repeat split; lia
           end|]).
  inversion Hin.
Qed.

Lemma extracted_auth_code_example :
  "auth_code" ∈ field_names /\ name (made "auth_code" 85 "PIC_S23") = "auth_code"
  /\ 85 <= confidence (made "auth_code" 85 "PIC_S23") <= 95
  /\ position (made "auth_code" 85 "PIC_S23") = (0, 0, 0, 0).
Proof.
  apply (extracted_fields_are_well_formed "Auth Code: PIC_S23"
           (<["auth_code" := made "auth_code" 85 "PIC_S23"]> ∅)).
  - reflexivity.
  - reflexivity.
Defined.

Definition itinerary_names : list string :=
  ["carrier"; "flight_num"; "classe"; "trecho"; "data_voo"; "status"].

(** X15.  The six itinerary fields are extracted together or not at all,
    so a screen is complete exactly when a reservation code and a carrier
    were extracted. *)
Theorem itinerary_is_all_or_none (Image : Type) (image : option Image)
    (valid : bool) (text : string) (fields : gmap string SabreField) :
  extract text = Some fields ->
  (forall k k' : string,
     k ∈ itinerary_names -> k' ∈ itinerary_names ->
     is_Some (fields !! k) -> is_Some (fields !! k'))
  /\ (is_complete (mk image text fields valid) = true
      <-> is_Some (fields !! "pnr") /\ is_Some (fields !! "carrier")).
Proof.
  intros He.
  pose proof (extract_lookups text fields He)
    as (H1 & H2 & H3 & H4 & H5 & H6 & H7 & H8 & H9 & H10 & Hout).
  unfold flight_group in *.
  destruct (ReGroups.search flight_regex text) as [groups|] eqn:S.
  - apply flight_regex_groups in S as (g1 & g2 & g3 & g4 & g5 & g6 & -> & _).
    cbn in H3, H4, H5, H6, H7, H8. split.
    + intros k k' _ Hk' _. unfold itinerary_names in Hk'.
      repeat (apply elem_of_cons in Hk' as [->|Hk']; [eauto|]). inversion Hk'.
    + unfold is_complete, required_fields. cbn [forallb extracted_fields].
      rewrite H3, H4, H5, H6, H7, H8.
      destruct (fields !! "pnr"); cbn; split; try (intros [[? H] _]; discriminate H);
        try discriminate; eauto.
  - cbn in H3, H4, H5, H6, H7, H8. split.
    + intros k k' Hk _ [x Hx]. unfold itinerary_names in Hk.
      repeat (apply elem_of_cons in Hk as [->|Hk]; [congruence|]). inversion Hk.
    + unfold is_complete, required_fields. cbn [forallb extracted_fields].
      rewrite H3. destruct (fields !! "pnr"); cbn; split;
        try discriminate; intros [_ [? H]]; discriminate H.
Qed.

Lemma itinerary_example :
  is_Some (flight_fields "13MAR" !! "status")
  /\ is_complete (mk (None : option unit) "LA 6375 Y GRU-SCL 13MAR HK"
                    (flight_fields "13MAR") true) = false.
Proof.
  destruct (itinerary_is_all_or_none unit None true "LA 6375 Y GRU-SCL 13MAR HK"
              (flight_fields "13MAR"))
    as [Hall Hcomplete].
  - reflexivity.
  - split.
    + apply (Hall "carrier" "status").
      * apply (bool_decide_unpack _). vm_compute. exact I.
      * apply (bool_decide_unpack _). vm_compute. exact I.
      * exists (made "carrier" 95 "LA"). reflexivity.
    + apply not_true_is_false. intros E.
      apply Hcomplete in E as [[x Hx] _]. discriminate Hx.
Defined.

End ExtractionTheorems.

(** ** Letter case in detection and in extraction *)

Section LetterCase.
Import Py.

Lemma upper_char_cases (x : ascii) :
  upper_char x = x
  \/ (Re.swapcase x = upper_char x /\ Re.swapcase (upper_char x) = x).
Proof. destruct x as [[] [] [] [] [] [] [] []]; vm_compute; auto. Qed.

Lemma cset_match_upper (cs : Re.cset) (x : ascii) :
  Re.cset_match true cs (upper_char x) = Re.cset_match true cs x.
Proof.
  unfold Re.cset_match. cbn [andb].
  destruct (upper_char_cases x) as [->|[H1 H2]]; [reflexivity|].
  rewrite H2, H1. apply orb_comm.
Qed.

Lemma at_end_upper (s : string) : Re.at_end (upper s) = Re.at_end s.
Proof.
  destruct s as [|c [|d s]]; try reflexivity.
  cbn. destruct c as [[] [] [] [] [] [] [] []]; reflexivity.
Qed.

Lemma match_here_upper (p : Re.pattern) (st : bool) (s : string) :
  Re.match_here true p st (upper s) = Re.match_here true p st s.
Proof.
  revert st s. induction p as [|a p IH]; intros st s; [reflexivity|].
  destruct a as [cs|cs| |].
  - destruct s as [|c s]; [reflexivity|].
    cbn [Re.match_here upper]. rewrite cset_match_upper, IH. reflexivity.
  - revert st. induction s as [|c s IHs]; intros st.
    + cbn [Re.match_here upper]. apply (IH st "").
    + change (upper (String c s)) with (String (upper_char c) (upper s)).
      cbn [Re.match_here] in IHs |- *.
      rewrite cset_match_upper, IHs.
      change (String (upper_char c) (upper s)) with (upper (String c s)).
      rewrite IH. reflexivity.
  - cbn [Re.match_here]. rewrite IH. reflexivity.
  - cbn [Re.match_here]. rewrite at_end_upper, IH. reflexivity.
Qed.

Lemma search_from_upper (p : Re.pattern) (st : bool) (s : string) :
  Re.search_from true p st (upper s) = Re.search_from true p st s.
Proof.
  revert st. induction s as [|c s IH]; intros st.
  - reflexivity.
  - change (upper (String c s)) with (String (upper_char c) (upper s)).
    cbn [Re.search_from].
    change (String (upper_char c) (upper s)) with (upper (String c s)).
    rewrite match_here_upper, IH. reflexivity.
Qed.

Lemma count_indicators_upper (text : string) :
  SabreScreen.count_indicators (upper text) = SabreScreen.count_indicators text.
Proof.
  unfold SabreScreen.count_indicators, Re.search.
  assert (H : forall (ps : list Re.pattern) (n : nat),
             fold_left (fun found p =>
                          if Re.search_from true p true (upper text)
                          then found + 1 else found) ps n
             = fold_left (fun found p =>
                            if Re.search_from true p true text
                            then found + 1 else found) ps n).
  { induction ps as [|p ps IH]; intros n; [reflexivity|].
    cbn [fold_left]. rewrite search_from_upper. apply IH. }
  apply H.
Qed.

(** X16.  On ASCII text detection does not look at letter case: a screen
    and the same screen with its text in upper case are detected or refused
    alike. *)
Theorem detection_ignores_letter_case (Image : Type) (cvtColor_raises : Image -> bool)
    (image : option Image) (text : string)
    (fields : gmap string SabreScreen.SabreField) (valid : bool) :
  forall_chars is_ascii text = true ->
  fst (SabreScreen.detect_sabre_pattern cvtColor_raises
         (SabreScreen.mk image (upper text) fields valid))
  = fst (SabreScreen.detect_sabre_pattern cvtColor_raises
           (SabreScreen.mk image text fields valid)).
Proof.
  intros _.
  unfold SabreScreen.detect_sabre_pattern, SabreScreen._extract_text_with_ocr.
  cbn [SabreScreen.raw_image SabreScreen.extracted_text].
  destruct image as [image|]; [|reflexivity].
  destruct (cvtColor_raises image); [reflexivity|].
  cbn [fst]. rewrite count_indicators_upper. reflexivity.
Qed.

Lemma detection_in_lower_case :
  fst (SabreScreen.detect_sabre_pattern (fun _ : unit => false)
         (SabreScreen.mk (Some tt) "NOMES DE-PARA DATA STP NBR CLS" ∅ false))
  = fst (SabreScreen.detect_sabre_pattern (fun _ : unit => false)
           (SabreScreen.mk (Some tt) "nomes de-para data stp nbr cls" ∅ false)).
Proof.
  apply (detection_ignores_letter_case unit (fun _ => false) (Some tt)
           "nomes de-para data stp nbr cls" ∅ false).
  reflexivity.
Defined.

Definition no_capital (c : ascii) : bool := negb (is_upper c).

Lemma search_none (q : ascii -> bool) (p : list ReGroups.item) (s : string) :
  (forall s', forall_chars q s' = true -> ReGroups.match_here p ReGroups.start s' = None) ->
  forall_chars q s = true -> ReGroups.search p s = None.
Proof.
  intros Hp. induction s as [|c s IH]; intros Hs; cbn [ReGroups.search].
  - rewrite (Hp "" Hs). reflexivity.
  - rewrite (Hp _ Hs). cbn [forall_chars] in Hs.
    apply andb_true_iff in Hs as [_ Hs]. exact (IH Hs).
Qed.

Lemma one_needs_capital (cl : ReGroups.cclass)
    (k : ReGroups.captures -> string -> option (list string))
    (st : ReGroups.captures) (s : string) :
  (forall c, ReGroups.has cl c = true -> is_upper c = true) ->
  forall_chars no_capital s = true ->
  ReGroups.step (ReGroups.One cl) k st s = None.
Proof.
  intros Hcl Hs. destruct s as [|c s]; [reflexivity|].
  cbn [forall_chars] in Hs. apply andb_true_iff in Hs as [Hc _].
  cbn [ReGroups.step]. destruct (ReGroups.has cl c) eqn:E; [|reflexivity].
  unfold no_capital in Hc. rewrite (Hcl c E) in Hc. discriminate Hc.
Qed.

Lemma lit_needs_capital (x c : ascii) :
  is_upper x = true ->
  ReGroups.has (ReGroups.Inside (Re.Lit x)) c = true -> is_upper c = true.
Proof.
  intros Hx. cbn. unfold Re.cset_match. cbn [Re.cset_has andb]. rewrite orb_false_r.
  intros H. apply Ascii.eqb_eq in H as ->. exact Hx.
Qed.

Lemma range_needs_capital (c : ascii) :
  ReGroups.has (ReGroups.Inside ReGroups.A_Z) c = true -> is_upper c = true.
Proof. cbn. unfold Re.cset_match. rewrite orb_false_r. intros H. exact H. Qed.

Lemma group1_none (p : list ReGroups.item) (text : string) :
  ReGroups.search p text = None -> SabreScreen.group1 p text = None.
Proof. unfold SabreScreen.group1. intros ->. reflexivity. Qed.

(** X17.  The extraction patterns are matched with letter case: from a text
    without any capital letter [parse_fields] extracts no field at all. *)
Theorem no_capital_no_field (text : string) :
  forall_chars no_capital text = true ->
  SabreScreen.extract text = Some ∅.
Proof.
  intros Hs. unfold SabreScreen.extract.
  assert (Hlit : forall (x : ascii) (p : list ReGroups.item),
             is_upper x = true ->
             ReGroups.search (ReGroups.One (ReGroups.Inside (Re.Lit x)) :: p) text = None).
  { intros x p Hx. apply (search_none no_capital); [|exact Hs].
    intros s' Hs'. apply one_needs_capital; [|exact Hs'].
    intros c. apply lit_needs_capital, Hx. }
  rewrite (group1_none SabreScreen.pnr_regex), (group1_none SabreScreen.name_regex),
    (group1_none SabreScreen.tkt_regex), (group1_none SabreScreen.auth_regex);
    try (apply Hlit; reflexivity).
  assert (Hflight : ReGroups.search SabreScreen.flight_regex text = None).
  { apply (search_none no_capital); [|exact Hs].
    intros s' Hs'.
    change (ReGroups.match_here SabreScreen.flight_regex ReGroups.start s')
      with (ReGroups.step (ReGroups.One (ReGroups.Inside ReGroups.A_Z))
              (ReGroups.match_here (tl (tl SabreScreen.flight_regex)))
              (ReGroups.open_group ReGroups.start) s').
    apply one_needs_capital; [|exact Hs']. exact range_needs_capital. }
  rewrite Hflight. reflexivity.
Qed.

Lemma no_capital_example :
  SabreScreen.extract "reserva - abc123" = Some ∅.
Proof. apply (no_capital_no_field "reserva - abc123"). reflexivity. Defined.

End LetterCase.

(** ** The text check of the OCR module *)

Section TextCheck.
Import SabreScreen.

(** X18.  Whenever [detect_sabre_pattern] reports a screen, the format
    check of the OCR module accepts its text; on a screen whose image
    converts the two give the same answer. *)
Theorem detection_agrees_with_text_check (Image : Type)
    (cvtColor_raises : Image -> bool) (self : t Image) :
  (fst (detect_sabre_pattern cvtColor_raises self) = true ->
   SabreOCR.validate_sabre_format (extracted_text self) = true)
  /\ (forall image : Image,
        raw_image self = Some image -> cvtColor_raises image = false ->
        fst (detect_sabre_pattern cvtColor_raises self)
        = SabreOCR.validate_sabre_format (extracted_text self)).
Proof.
  unfold detect_sabre_pattern, _extract_text_with_ocr. split.
  - destruct (raw_image self) as [image|]; [|discriminate].
    destruct (cvtColor_raises image); [discriminate|]. intros H. exact H.
  - intros image -> ->. reflexivity.
Qed.

Lemma text_check_example :
  SabreOCR.validate_sabre_format mock_sabre_text = true.
Proof.
  apply (proj1 (detection_agrees_with_text_check unit (fun _ => false)
                  (mk (Some tt) mock_sabre_text ∅ false))).
  vm_compute. reflexivity.
Defined.

(** X19.  The class is only checked together with an authorization code:
    on a screen without one, the outcome of [validate_integrity] is the same
    whatever class was extracted. *)
Theorem class_is_checked_only_with_authorization (Image : Type)
    (image : option Image) (text : string) (fields : gmap string SabreField)
    (valid : bool) (classe : SabreField) :
  fields !! "auth_code" = None ->
  validate_integrity (mk image text (<["classe" := classe]> fields) valid)
  = validate_integrity (mk image text (delete "classe" fields) valid).
Proof.
  intros Hauth. unfold validate_integrity. cbn [extracted_fields].
  rewrite (lookup_insert_ne _ "classe" "pnr"), (lookup_insert_ne _ "classe" "status"),
    (lookup_insert_ne _ "classe" "carrier"), (lookup_insert_ne _ "classe" "auth_code"),
    (lookup_delete_ne _ "classe" "pnr"), (lookup_delete_ne _ "classe" "status"),
    (lookup_delete_ne _ "classe" "carrier"), (lookup_delete_ne _ "classe" "auth_code")
    by discriminate.
  rewrite Hauth, lookup_insert_eq, lookup_delete_eq. reflexivity.
Qed.

Lemma class_F_without_authorization :
  validate_integrity
    (mk (None : option unit) ""
        (<["classe" := made "classe" 95 "F"]> (<["pnr" := made "pnr" 95 "ABC123"]> ∅))
        true)
  = [RulesEngine.ok].
Proof.
  refine (eq_trans
            (class_is_checked_only_with_authorization unit None ""
               (<["pnr" := made "pnr" 95 "ABC123"]> ∅) true (made "classe" 95 "F") _) _).
  - reflexivity.
  - reflexivity.
Defined.

End TextCheck.

(** ** The renaming of the extracted fields *)

Section Renaming.
Import FormFiller.

Lemma renamed_skip (fields : gmap string SabreScreen.SabreField)
    (sf lf k : string) (mapped : gmap string string) :
  lf <> k ->
  match fields !! sf with
  | Some f => <[lf := SabreScreen.value f]> mapped
  | None => mapped
  end !! k = mapped !! k.
Proof. intros H. destruct (fields !! sf); [apply lookup_insert_ne, H|reflexivity]. Qed.

Lemma renamed_hit (fields : gmap string SabreScreen.SabreField)
    (sf lf : string) (mapped : gmap string string) :
  mapped !! lf = None ->
  match fields !! sf with
  | Some f => <[lf := SabreScreen.value f]> mapped
  | None => mapped
  end !! lf = SabreScreen.value <$> fields !! sf.
Proof. intros H. destruct (fields !! sf); [apply lookup_insert_eq|exact H]. Qed.

Ltac renamed_lookup :=
  unfold _map_sabre_to_latam;
  cbn [fold_left sabre_to_latam static_values];
  rewrite ?lookup_insert_ne by discriminate;
  rewrite ?renamed_skip by discriminate;
  first [ apply lookup_insert_eq
        | apply renamed_hit; rewrite ?renamed_skip by discriminate; apply lookup_empty ].

Lemma mapped_static (fields : gmap string SabreScreen.SabreField) (k v : string) :
  (k, v) ∈ static_values -> _map_sabre_to_latam fields !! k = Some v.
Proof.
  intros H. unfold static_values in H.
  repeat (apply elem_of_cons in H as [H|H];
          [injection H as -> ->; renamed_lookup|]).
  inversion H.
Qed.

Lemma mapped_other (fields : gmap string SabreScreen.SabreField) (k : string) :
  k ∉ sabre_to_latam.*2 ++ static_values.*1 -> _map_sabre_to_latam fields !! k = None.
Proof.
  intros Hk.
  assert (Hne : forall k' : string,
             k' ∈ sabre_to_latam.*2 ++ static_values.*1 -> k' <> k).
  { intros k' Hin ->. exact (Hk Hin). }
  unfold _map_sabre_to_latam. cbn [fold_left sabre_to_latam static_values].
  rewrite ?lookup_insert_ne
    by (apply Hne; apply (bool_decide_unpack _); vm_compute; exact I).
  rewrite ?renamed_skip
    by (apply Hne; apply (bool_decide_unpack _); vm_compute; exact I).
  apply lookup_empty.
Qed.

Lemma mapped_vuelo (fields : gmap string SabreScreen.SabreField) :
  _map_sabre_to_latam fields !! "vuelo" = SabreScreen.value <$> fields !! "flight_num".
Proof. renamed_lookup. Qed.

(** X20.  What [_map_sabre_to_latam] hands to the form: each of the eight
    renamed fields under its form name when it was extracted (the status
    goes to the segment-number field), the five fixed values always, and
    nothing else - the ticket number and the authorization code are
    dropped. *)
Theorem map_sabre_to_latam_lookup (fields : gmap string SabreScreen.SabreField) :
  (forall sabre_field latam_field : string,
     (sabre_field, latam_field) ∈ sabre_to_latam ->
     _map_sabre_to_latam fields !! latam_field
     = SabreScreen.value <$> fields !! sabre_field)
  /\ (forall k v : string,
        (k, v) ∈ static_values -> _map_sabre_to_latam fields !! k = Some v)
  /\ (forall k : string,
        k ∉ sabre_to_latam.*2 ++ static_values.*1 ->
        _map_sabre_to_latam fields !! k = None).
Proof.
  split; [|split].
  - intros sf lf H. unfold sabre_to_latam in H.
    repeat (apply elem_of_cons in H as [H|H];
            [injection H as -> ->; renamed_lookup|]).
    inversion H.
  - apply mapped_static.
  - apply mapped_other.
Qed.

Lemma status_goes_to_num_segmento :
  _map_sabre_to_latam (reservation "Y") !! "num_segmento" = Some "HK"
  /\ _map_sabre_to_latam (reservation "Y") !! "cidade" = Some "SCL"
  /\ _map_sabre_to_latam (reservation "Y") !! "auth_code" = None.
Proof.
  destruct (map_sabre_to_latam_lookup (reservation "Y")) as (H1 & H2 & H3).
  split; [|split].
  - rewrite (H1 "status" "num_segmento"); [reflexivity|].
    apply (bool_decide_unpack _). vm_compute. exact I.
  - apply H2. apply (bool_decide_unpack _). vm_compute. exact I.
  - apply H3. apply (bool_decide_unpack _). vm_compute. exact I.
Defined.

End Renaming.

(** ** Filling the form *)

Section Filling.
Import RulesEngine.

Variable Image : Type.
Variable cvtColor_raises : Image -> bool.
Variable extract_fields : string -> option (gmap string SabreScreen.SabreField).
Variable Page : Type.
Variable perform : LatamForm.action -> Page -> Page * LatamForm.outcome unit.
Variable query : string -> Page -> Page * LatamForm.outcome LatamForm.element.
Variable now_year : nat.
Variable Source : Type.
Variable process_image_input : Source -> LatamForm.outcome (option Image * string).

Abbreviation the_workflow :=
  (FormFiller.process_complete_workflow Image cvtColor_raises extract_fields
     Page perform query now_year Source process_image_input).
Abbreviation to_validation :=
  (run_to_validation Image cvtColor_raises extract_fields Source process_image_input).
Abbreviation fill_all := (LatamForm.fill_all Page perform query now_year).
Abbreviation submit_form := (LatamForm.submit_form Page perform query).
Abbreviation table := (LatamForm.field_mappings now_year).

Lemma attempted_sublist (items : list (string * LatamForm.field_config))
    (extracted_data : gmap string string) :
  (attempted items extracted_data).*1 `sublist_of` items.*1.
Proof.
  induction items as [|[k cfg] items IH]; [constructor|].
  cbn [fmap list_fmap fst].
  destruct (extracted_data !! k) as [v|] eqn:E.
  - rewrite (attempted_cons_Some _ _ _ _ _ E). cbn [fmap list_fmap fst].
    apply sublist_skip, IH.
  - rewrite (attempted_cons_None _ _ _ _ E). apply sublist_cons, IH.
Qed.

(** X21.  [fill_all] follows the form's table, not the data: the fields
    are attempted in the order of the table, each key of the data that the
    table knows once with its value, every other key is ignored, and one
    result is collected per attempt.  On a form that is not loaded nothing
    is attempted. *)
Theorem fill_all_follows_the_form_table (extracted_data : gmap string string)
    (w : LatamForm.world Page) :
  fill_all false extracted_data w = (w, [LatamForm.not_loaded])
  /\ exists calls : list (string * string),
       LatamForm.fill_calls (fst (fill_all true extracted_data w))
       = LatamForm.fill_calls w ++ calls
       /\ calls.*1 `sublist_of` table.*1
       /\ NoDup calls
       /\ (forall k v : string,
             (k, v) ∈ calls <-> k ∈ table.*1 /\ extracted_data !! k = Some v)
       /\ length (snd (fill_all true extracted_data w)) = length calls.
Proof.
  split; [reflexivity|].
  exists (attempted table extracted_data).
  unfold LatamForm.fill_all. cbn [negb].
  destruct (fill_loop_log Page perform query table extracted_data w [])
    as [Hcalls (rs & Hrs & Hlen)].
  split; [exact Hcalls|]. split; [apply attempted_sublist|].
  split; [apply NoDup_attempted, field_mappings_NoDup|].
  split; [intros k v; apply elem_of_attempted|].
  rewrite Hrs. exact Hlen.
Qed.

Lemma fill_loop_failure (items : list (string * LatamForm.field_config))
    (extracted_data : gmap string string) (k v : string)
    (cfg : LatamForm.field_config) :
  (k, cfg) ∈ items ->
  extracted_data !! k = Some v ->
  (forall p : Page,
     is_valid (snd (LatamForm.fill_on_page Page perform query k v cfg p)) = false) ->
  forall (w : LatamForm.world Page) (results : list ValidationResult),
    forallb is_valid
      (snd (LatamForm.fill_loop Page perform query items extracted_data w results))
    = false.
Proof.
  intros Hin Hk Hfail. induction items as [|[k' cfg'] items IH]; intros w results;
    [inversion Hin|].
  cbn [LatamForm.fill_loop].
  apply elem_of_cons in Hin as [Heq|Hin].
  - injection Heq as <- <-. rewrite Hk. unfold LatamForm._fill_field.
    specialize (Hfail (LatamForm.page w)).
    destruct (LatamForm.fill_on_page Page perform query k v cfg (LatamForm.page w))
      as [p' result].
    cbn [snd] in Hfail.
    destruct (fill_loop_log Page perform query items extracted_data
                (LatamForm.mkWorld p' (LatamForm.fill_calls w ++ [(k, v)]))
                (results ++ [result])) as [_ (rs & -> & _)].
    rewrite !forallb_app. cbn [forallb]. rewrite Hfail.
    cbn [andb]. rewrite andb_false_r. reflexivity.
  - destruct (extracted_data !! k') as [v'|]; [|apply IH, Hin].
    destruct (LatamForm._fill_field Page perform query k' v' cfg' w) as [w' result].
    apply IH, Hin.
Qed.

(** The workflow from the test for critical failures on. *)
Lemma workflow_after_validation (self self' : FormFiller.t Image) (image_source : Source)
    (w : LatamForm.world Page) (extracted_fields : gmap string SabreScreen.SabreField)
    (validation_results : list ValidationResult) :
  to_validation self image_source = Some (extracted_fields, self', validation_results) ->
  the_workflow self image_source w
  = match List.filter failed validation_results with
    | _ :: _ =>
        (FormFiller.mkFillResult false validation_results None
           (Some ("Critical validation failures: "
                  +:+ Py.str_of_nat (length (List.filter failed validation_results)))),
         self', w)
    | [] =>
        if negb (FormFiller.form_loaded Image self') then
          (FormFiller.mkFillResult false validation_results None
             (Some "Latam form not available or not loaded"), self', w)
        else
          let '(w1, fill_results) :=
            fill_all true (FormFiller._map_sabre_to_latam extracted_fields) w in
          let '(w2, submission_result) := submit_form true w1 in
          (FormFiller.mkFillResult
             (forallb is_valid fill_results && is_valid submission_result)
             fill_results (Some submission_result) None, self', w2)
    end.
Proof.
  intros Hrun. unfold run_to_validation in Hrun.
  unfold FormFiller.process_complete_workflow.
  destruct (process_image_input image_source) as [[image extracted_text]|msg];
    [|discriminate Hrun].
  destruct (Py.len extracted_text =? 0)%nat; [discriminate Hrun|].
  destruct (SabreScreen.detect_sabre_pattern cvtColor_raises _) as [detected screen1].
  destruct (negb (SabreScreen.is_valid_screen _)); [discriminate Hrun|].
  destruct (SabreScreen.parse_fields extract_fields _) as [fields screen3].
  injection Hrun as <- <- <-.
  fold failed.
  destruct (List.filter failed (SabreScreen.validate_integrity screen3)); [|reflexivity].
  destruct (FormFiller.form_loaded Image _) eqn:E; reflexivity.
Qed.

(** A run that stops before validation reports an error and leaves the
    world alone. *)
Lemma workflow_before_validation (self : FormFiller.t Image) (image_source : Source)
    (w : LatamForm.world Page) :
  to_validation self image_source = None ->
  exists (msg : string) (self' : FormFiller.t Image),
    the_workflow self image_source w
    = (FormFiller.mkFillResult false [] None (Some msg), self', w).
Proof.
  intros Hrun. unfold run_to_validation in Hrun.
  unfold FormFiller.process_complete_workflow.
  destruct (process_image_input image_source) as [[image extracted_text]|msg]; [|eauto].
  destruct (Py.len extracted_text =? 0)%nat; [eauto|].
  destruct (SabreScreen.detect_sabre_pattern cvtColor_raises _) as [detected screen1].
  destruct (negb (SabreScreen.is_valid_screen _)); [eauto|].
  destruct (SabreScreen.parse_fields extract_fields _) as [fields screen3].
  discriminate Hrun.
Qed.

Lemma forallb_Forall_valid (results : list ValidationResult) :
  forallb is_valid results = true -> Forall (fun r => is_valid r = true) results.
Proof.
  induction results as [|r rs IH]; cbn [forallb]; [constructor|].
  intros H. apply andb_true_iff in H as [Hr Hrs]. constructor; [exact Hr|exact (IH Hrs)].
Qed.

(** X22.  What a [FillResult] of the workflow guarantees.  A success has no
    error message, only valid field results and a valid submission result.
    A result with an error message is a failure without submission result,
    and the run that gave it has not touched the form.  Every result has
    either an error message or a submission result, never both. *)
Theorem fill_result_invariants (self : FormFiller.t Image) (image_source : Source)
    (w : LatamForm.world Page) :
  let out := the_workflow self image_source w in
  let result := fst (fst out) in
  (FormFiller.success result = true ->
   FormFiller.error_message result = None
   /\ Forall (fun r => is_valid r = true) (FormFiller.field_results result)
   /\ exists s, FormFiller.submission_result result = Some s /\ is_valid s = true)
  /\ (is_Some (FormFiller.error_message result) ->
      FormFiller.success result = false
      /\ FormFiller.submission_result result = None
      /\ snd out = w)
  /\ (is_Some (FormFiller.error_message result)
      <-> FormFiller.submission_result result = None).
Proof.
  cbv zeta.
  destruct (to_validation self image_source) as [[[fields self'] vr]|] eqn:Hrun.
  - rewrite (workflow_after_validation _ _ _ w _ _ Hrun).
    destruct (List.filter failed vr) as [|r rs].
    + destruct (negb (FormFiller.form_loaded Image self')).
      * cbn. split; [discriminate|]. split; [auto|]. split; eauto.
      * destruct (fill_all true _ w) as [w1 fill_results].
        destruct (submit_form true w1) as [w2 submission_result].
        cbn [fst snd FormFiller.success FormFiller.error_message
             FormFiller.field_results FormFiller.submission_result].
        split; [|split].
        -- intros H. apply andb_true_iff in H as [H1 H2].
           split; [reflexivity|]. split; [apply forallb_Forall_valid, H1|eauto].
        -- intros [x Hx]. discriminate Hx.
        -- split; [intros [x Hx]; discriminate Hx|discriminate].
    + cbn. split; [discriminate|]. split; [auto|]. split; eauto.
  - destruct (workflow_before_validation self image_source w Hrun) as (msg & self' & ->).
    cbn. split; [discriminate|]. split; [auto|]. split; eauto.
Qed.

Lemma vuelo_never_filled (value : string) (p : Page) :
  is_valid (snd (LatamForm.fill_on_page Page perform query "vuelo" value
                   (LatamForm.input (LatamForm.by_id "input" "form:txt_vuelotNum")
                      (fun _ => LatamForm.Raised "name 're' is not defined")) p))
  = false.
Proof. reflexivity. Qed.

(** X23.  The transform of the flight-number field calls [re.sub] in a
    module that does not import [re], so filling that field always fails:
    no run in which a flight number was extracted ends as a success. *)
Theorem flight_number_blocks_success (self self' : FormFiller.t Image)
    (image_source : Source) (w : LatamForm.world Page)
    (extracted_fields : gmap string SabreScreen.SabreField)
    (validation_results : list ValidationResult) :
  to_validation self image_source = Some (extracted_fields, self', validation_results) ->
  is_Some (extracted_fields !! "flight_num") ->
  FormFiller.success (fst (fst (the_workflow self image_source w))) = false.
Proof.
  intros Hrun [f Hf]. rewrite (workflow_after_validation _ _ _ w _ _ Hrun).
  destruct (List.filter failed validation_results); [|reflexivity].
  destruct (negb (FormFiller.form_loaded Image self')); [reflexivity|].
  assert (Hvuelo : FormFiller._map_sabre_to_latam extracted_fields !! "vuelo"
                   = Some (SabreScreen.value f)).
  { rewrite mapped_vuelo, Hf. reflexivity. }
  pose proof (fill_loop_failure table _ "vuelo" _ _
                ltac:(do 8 apply list_elem_of_further; apply list_elem_of_here)
                Hvuelo (vuelo_never_filled _) w []) as Hfill.
  unfold LatamForm.fill_all. cbn [negb].
  destruct (LatamForm.fill_loop Page perform query table _ w []) as [w1 fill_results].
  destruct (submit_form true w1) as [w2 submission_result].
  cbn [fst snd] in Hfill |- *. cbn [FormFiller.success]. rewrite Hfill. reflexivity.
Qed.

(** X24.  Every run that gets to the form sends the five fixed values -
    city, department, reason, authorizer and destination - whatever was
    extracted, and never attempts the read-only country field; when
    nothing at all was extracted these five are the whole of what is
    sent. *)
Theorem fixed_values_are_always_sent (self self' : FormFiller.t Image)
    (image_source : Source) (w : LatamForm.world Page)
    (extracted_fields : gmap string SabreScreen.SabreField)
    (validation_results : list ValidationResult) :
  to_validation self image_source = Some (extracted_fields, self', validation_results) ->
  Forall (fun r => is_valid r = true) validation_results ->
  FormFiller.form_loaded Image self' = true ->
  exists calls : list (string * string),
    LatamForm.fill_calls (snd (the_workflow self image_source w))
    = LatamForm.fill_calls w ++ calls
    /\ (forall k v : string, (k, v) ∈ FormFiller.static_values -> (k, v) ∈ calls)
    /\ (forall v : string, ("pais", v) ∉ calls)
    /\ (extracted_fields = ∅ -> calls = FormFiller.static_values).
Proof.
  intros Hrun Hvalid Hloaded.
  rewrite (workflow_after_validation _ _ _ w _ _ Hrun), (filter_failed_empty _ Hvalid),
    Hloaded.
  cbn [negb]. unfold LatamForm.fill_all. cbn [negb].
  set (mapped := FormFiller._map_sabre_to_latam extracted_fields).
  destruct (fill_loop_log Page perform query table mapped w []) as [Hcalls _].
  destruct (LatamForm.fill_loop Page perform query table mapped w [])
    as [w1 fill_results].
  pose proof (submit_form_log Page perform query true w1) as Hsub.
  destruct (submit_form true w1) as [w2 submission_result].
  cbn [fst snd] in Hcalls, Hsub |- *.
  exists (attempted table mapped). split; [rewrite Hsub; exact Hcalls|].
  split; [|split].
  - intros k v Hin. apply elem_of_attempted. split.
    + apply latam_names_mapped. unfold latam_names. apply elem_of_app. right.
      apply (list_elem_of_fmap_2 fst _ (k, v)), Hin.
    + apply mapped_static, Hin.
  - intros v Hin. apply elem_of_attempted in Hin as [_ Hin].
    subst mapped. rewrite mapped_other in Hin; [discriminate Hin|].
    apply (bool_decide_unpack _). vm_compute. exact I.
  - intros ->. reflexivity.
Qed.

End Filling.

Lemma flight_6375_blocks_success :
  FormFiller.success (fst (fst (run "Y"))) = false.
Proof.
  apply (flight_number_blocks_success unit (fun _ => false)
           (fun _ => Some (reservation "Y")) unit quiet_perform quiet_query 2026
           unit ocr ready_filler
           (FormFiller.mk unit (screen_after "Y") (Some true))
           tt fresh_world (reservation "Y")
           [RulesEngine.ok; RulesEngine.ok; RulesEngine.ok; RulesEngine.ok]).
  - reflexivity.
  - vm_compute. eauto.
Defined.


Lemma nothing_extracted_run :
  exists calls : list (string * string),
    LatamForm.fill_calls
      (snd (FormFiller.process_complete_workflow unit (fun _ => false)
              (fun _ => Some ∅) unit quiet_perform quiet_query 2026
              unit ocr ready_filler tt fresh_world))
    = LatamForm.fill_calls fresh_world ++ calls
    /\ (forall k v : string, (k, v) ∈ FormFiller.static_values -> (k, v) ∈ calls)
    /\ (forall v : string, ("pais", v) ∉ calls)
    /\ ((∅ : gmap string SabreScreen.SabreField) = ∅ -> calls = FormFiller.static_values).
Proof.
  apply (fixed_values_are_always_sent unit (fun _ => false) (fun _ => Some ∅)
           unit quiet_perform quiet_query 2026 unit ocr ready_filler
           (FormFiller.mk unit (SabreScreen.mk (Some tt) mock_sabre_text ∅ true) (Some true))
           tt fresh_world ∅ []).
  - reflexivity.
  - constructor.
  - reflexivity.
Defined.


Lemma unknown_key_is_ignored :
  length (snd (LatamForm.fill_all unit quiet_perform quiet_query 2026 true
                 (<["pnr" := "abc123"]> (<["seat" := "12A"]> ∅)) fresh_world)) = 1.
Proof.
  destruct (fill_all_follows_the_form_table unit quiet_perform quiet_query 2026
              (<["pnr" := "abc123"]> (<["seat" := "12A"]> ∅)) fresh_world)
    as (_ & calls & Hcalls & _ & _ & _ & Hlen).
  rewrite Hlen. vm_compute in Hcalls. rewrite <- Hcalls. reflexivity.
Defined.

Lemma failed_run_leaves_the_form :
  snd (run "F") = fresh_world.
Proof.
  apply (proj1 (proj2 (fill_result_invariants unit (fun _ => false)
                         (fun _ => Some (reservation "F")) unit quiet_perform
                         quiet_query 2026 unit ocr ready_filler tt fresh_world))).
  vm_compute. eauto.
Defined.

(** ** Retrying failed fields *)

Section FieldNames.
Import Py RulesEngine.

Lemma delete_char_append (x : ascii) (s t : string) :
  contains (String x "") s = false ->
  replace_from (String x "") "" 0 (s +:+ t)
  = s +:+ replace_from (String x "") "" 0 t.
Proof.
  induction s as [|c s IH]; intros H; [reflexivity|].
  cbn [contains] in H. apply orb_false_iff in H as [Hp Hs].
  rewrite !append_cons. cbn [replace_from].
  assert (Hp' : String.prefix (String x "") (String c (s +:+ t)) = false).
  { cbn [String.prefix] in Hp |- *. destruct (ascii_dec x c); [|reflexivity].
    destruct s; discriminate Hp. }
  rewrite Hp', (IH Hs). reflexivity.
Qed.

Lemma clean_name (name tail : string) :
  contains ":" name = false -> contains "." name = false ->
  replace "." "" (replace ":" "" (name +:+ ":")) = name.
Proof.
  intros H1 H2. unfold replace at 2.
  rewrite (delete_char_append ":" name ":" H1).
  change (replace_from ":" "" 0 ":") with "".
  rewrite append_empty_r. apply replace_absent; [discriminate|exact H2].
Qed.

Lemma split_name_colon (name msg : string) :
  token name ->
  split_ws (name +:+ ": " +:+ msg) = (name +:+ ":") :: split_ws msg.
Proof.
  intros [Hne Hname]. unfold split_ws.
  rewrite (split_ws_from_append name "" _ Hname).
  change ("" +:+ name) with name.
  rewrite !append_cons. cbn [split_ws_from].
  change (is_space ":") with false. change (is_space " ") with true. cbn match.
  change ("" +:+ ?x) with x.
  unfold snoc. destruct name; [contradiction|reflexivity].
Qed.

Lemma split_name_space (name rest : string) :
  token name ->
  split_ws (name +:+ String " " rest) = name :: split_ws rest.
Proof.
  intros [Hne Hname]. unfold split_ws.
  rewrite (split_ws_from_append name "" _ Hname).
  change ("" +:+ name) with name.
  cbn [split_ws_from]. change (is_space " ") with true. cbn match.
  destruct name; [contradiction|reflexivity].
Qed.

Lemma clean_other (name : string) :
  contains ":" name = false -> contains "." name = false ->
  replace "." "" (replace ":" "" name) = name.
Proof.
  intros H1 H2. rewrite (replace_absent ":" "" name), (replace_absent "." "" name);
    [reflexivity|discriminate|exact H2|discriminate|exact H1].
Qed.

Lemma name_from_message (message action : string) :
  message <> "" ->
  contains "campo" (lower message) = true ->
  FormFiller._extract_field_name_from_result (failure message action)
  = FormFiller.word_after_campo (split_ws message).
Proof.
  intros Hne Hc. unfold FormFiller._extract_field_name_from_result, failure.
  cbn [error_message]. destruct message; [contradiction|]. rewrite Hc. reflexivity.
Qed.

Lemma name_of_fill_error (field_name msg : string) :
  token field_name ->
  contains ":" field_name = false ->
  contains "." field_name = false ->
  FormFiller._extract_field_name_from_result (LatamForm.fill_error field_name msg)
  = Some field_name.
Proof.
  intros Htok H1 H2. unfold LatamForm.fill_error.
  rewrite name_from_message; [|discriminate|reflexivity].
  change (split_ws ("Erro ao preencher campo " +:+ field_name +:+ ": " +:+ msg))
    with ("Erro" :: "ao" :: "preencher" :: "campo"
          :: split_ws (field_name +:+ ": " +:+ msg)).
  rewrite (split_name_colon _ _ Htok).
  change (FormFiller.word_after_campo
            ("Erro" :: "ao" :: "preencher" :: "campo"
             :: (field_name +:+ ":") :: split_ws msg))
    with (Some (replace "." "" (replace ":" "" (field_name +:+ ":")))).
  rewrite (clean_name _ "" H1 H2). reflexivity.
Qed.

(** X25.  The failure results that name a field give the name back: from
    the result of a failed [_fill_field], of an empty read-only field and
    of an unmapped field, [_extract_field_name_from_result] recovers the
    field name, provided the name is one word without [:] and [.]; the
    result for a form that is not loaded names no field. *)
Theorem field_name_round_trip (field_name msg : string) :
  token field_name ->
  contains ":" field_name = false ->
  contains "." field_name = false ->
  FormFiller._extract_field_name_from_result (LatamForm.fill_error field_name msg)
  = Some field_name
  /\ FormFiller._extract_field_name_from_result
       (failure ("Campo " +:+ field_name +:+ " não preenchido")
                "Verificar preenchimento automático")
     = Some field_name
  /\ FormFiller._extract_field_name_from_result
       (failure ("Campo " +:+ field_name +:+ " não mapeado")
                "Verificar mapeamento de campos")
     = Some field_name
  /\ FormFiller._extract_field_name_from_result LatamForm.not_loaded = None.
Proof.
  intros Htok H1 H2.
  assert (Hcampo : forall rest action : string,
             FormFiller._extract_field_name_from_result
               (failure ("Campo " +:+ field_name +:+ String " " rest) action)
             = Some field_name).
  { intros rest action. rewrite name_from_message; [|discriminate|reflexivity].
    change (split_ws ("Campo " +:+ field_name +:+ String " " rest))
      with ("Campo" :: split_ws (field_name +:+ String " " rest)).
    rewrite (split_name_space _ _ Htok).
    change (FormFiller.word_after_campo ("Campo" :: field_name :: split_ws rest))
      with (Some (replace "." "" (replace ":" "" field_name))).
    rewrite (clean_other _ H1 H2). reflexivity. }
  split; [|split; [|split]].
  - apply name_of_fill_error; assumption.
  - apply (Hcampo "não preenchido").
  - apply (Hcampo "não mapeado").
  - reflexivity.
Qed.

Lemma vuelo_round_trip :
  FormFiller._extract_field_name_from_result
    (LatamForm.fill_error "vuelo" "name 're' is not defined") = Some "vuelo".
Proof.
  apply (field_name_round_trip "vuelo" "name 're' is not defined").
  - split; [discriminate|reflexivity].
  - reflexivity.
  - reflexivity.
Defined.

End FieldNames.

Section RetryFacts.
Import RulesEngine.

Variable Page : Type.
Variable perform : LatamForm.action -> Page -> Page * LatamForm.outcome unit.
Variable query : string -> Page -> Page * LatamForm.outcome LatamForm.element.
Variable now_year : nat.

Abbreviation retry := (FormFiller.retry_failed_fields Page perform query now_year).
Abbreviation fill_single := (FormFiller.fill_single_field Page perform query now_year).

Lemma config_of_mapped (items : list (string * LatamForm.field_config))
    (field_name : string) (cfg : LatamForm.field_config) :
  FormFiller.config_of items field_name = Some cfg -> field_name ∈ items.*1.
Proof.
  induction items as [|[k c] items IH]; [discriminate|].
  cbn [FormFiller.config_of fmap list_fmap fst].
  destruct (String.eqb k field_name) eqn:E.
  - apply String.eqb_eq in E as ->. intros _. apply list_elem_of_here.
  - intros H. apply list_elem_of_further, IH, H.
Qed.

(** What one retried result does to the log of [_fill_field] calls. *)
Definition retried_call (latam_form : option bool) (extracted_data : gmap string string)
    (result : ValidationResult) : list (string * string) :=
  if is_valid result then []
  else
    match FormFiller._extract_field_name_from_result result with
    | Some (String c name' as field_name) =>
        match extracted_data !! field_name with
        | Some v =>
            if negb (match latam_form with Some loaded => loaded | None => false end)
            then []
            else
              match FormFiller.config_of (LatamForm.field_mappings now_year) field_name with
              | Some _ => [(field_name, v)]
              | None => []
              end
        | None => []
        end
    | _ => []
    end.

Lemma retry_log (latam_form : option bool) (fill_results : list ValidationResult)
    (extracted_data : gmap string string) (w : LatamForm.world Page) :
  LatamForm.fill_calls (fst (retry latam_form fill_results extracted_data w))
  = LatamForm.fill_calls w
    ++ concat (map (retried_call latam_form extracted_data) fill_results).
Proof.
  revert w. induction fill_results as [|r rs IH]; intros w.
  - cbn. rewrite app_nil_r. reflexivity.
  - cbn [FormFiller.retry_failed_fields map concat].
    unfold retried_call at 1.
    destruct (is_valid r); cbn [negb].
    + specialize (IH w). destruct (retry latam_form rs extracted_data w) as [w2 rr].
      exact IH.
    + destruct (FormFiller._extract_field_name_from_result r) as [[|c name']|].
      * specialize (IH w). destruct (retry latam_form rs extracted_data w) as [w2 rr].
        exact IH.
      * destruct (extracted_data !! String c name') as [v|].
        -- unfold FormFiller.fill_single_field.
           destruct (negb _).
           ++ specialize (IH w).
              destruct (retry latam_form rs extracted_data w) as [w2 rr]. exact IH.
           ++ destruct (FormFiller.config_of _ _) as [cfg|].
              ** unfold LatamForm._fill_field.
                 destruct (LatamForm.fill_on_page _ _ _ _ _ _ _) as [p' result].
                 specialize (IH (LatamForm.mkWorld p'
                                   (LatamForm.fill_calls w ++ [(String c name', v)]))).
                 destruct (retry latam_form rs extracted_data _) as [w2 rr].
                 cbn [fst LatamForm.fill_calls] in IH |- *.
                 rewrite IH, <- app_assoc. reflexivity.
              ** specialize (IH w).
                 destruct (retry latam_form rs extracted_data w) as [w2 rr]. exact IH.
        -- specialize (IH w). destruct (retry latam_form rs extracted_data w) as [w2 rr].
           exact IH.
      * specialize (IH w). destruct (retry latam_form rs extracted_data w) as [w2 rr].
        exact IH.
Qed.

Lemma retried_call_spec (latam_form : option bool) (extracted_data : gmap string string)
    (result : ValidationResult) (k v : string) :
  (k, v) ∈ retried_call latam_form extracted_data result ->
  is_valid result = false /\ latam_form = Some true
  /\ extracted_data !! k = Some v
  /\ k ∈ (LatamForm.field_mappings now_year).*1.
Proof.
  unfold retried_call.
  destruct (is_valid result); [intros H; inversion H|].
  destruct (FormFiller._extract_field_name_from_result result) as [[|c name']|];
    try (intros H; inversion H; fail).
  destruct (extracted_data !! String c name') as [v'|] eqn:E;
    [|intros H; inversion H].
  destruct latam_form as [[|]|]; cbn [negb]; try (intros H; inversion H; fail).
  destruct (FormFiller.config_of _ _) as [cfg|] eqn:C; [|intros H; inversion H].
  intros H. apply list_elem_of_singleton in H. injection H as -> ->.
  split; [reflexivity|]. split; [reflexivity|]. split; [exact E|].
  apply (config_of_mapped _ _ _ C).
Qed.

Lemma retried_call_short (latam_form : option bool) (extracted_data : gmap string string)
    (result : ValidationResult) :
  length (retried_call latam_form extracted_data result)
  <= if is_valid result then 0 else 1.
Proof.
  unfold retried_call. destruct (is_valid result); [reflexivity|].
  destruct (FormFiller._extract_field_name_from_result result) as [[|c name']|];
    try (cbn; lia).
  destruct (extracted_data !! String c name'); [|cbn; lia].
  destruct (negb _); [cbn; lia|].
  destruct (FormFiller.config_of _ _); cbn; lia.
Qed.

Lemma retry_cons (latam_form : option bool) (r : ValidationResult)
    (rs : list ValidationResult) (extracted_data : gmap string string)
    (w : LatamForm.world Page) :
  exists (w1 : LatamForm.world Page) (retried : ValidationResult),
    retry latam_form (r :: rs) extracted_data w
    = (fst (retry latam_form rs extracted_data w1),
       retried :: snd (retry latam_form rs extracted_data w1))
    /\ (is_valid r = true -> w1 = w /\ retried = r).
Proof.
  cbn [FormFiller.retry_failed_fields].
  destruct (is_valid r); cbn [negb].
  - exists w, r. destruct (retry latam_form rs extracted_data w). auto.
  - match goal with
    | |- context [let '(w1, retried) := ?e in _] => destruct e as [w1 retried]
    end.
    exists w1, retried. destruct (retry latam_form rs extracted_data w1).
    split; [reflexivity|discriminate].
Qed.

(** X26.  [retry_failed_fields] gives back a list of the same length in
    which every result that was valid stands where it stood; when no result
    had failed, nothing is done at all.  It calls [_fill_field] at most once
    per failed result, only on a loaded form, and only for a field of the
    form's table with the value the data holds for it. *)
Theorem retry_keeps_the_valid_results (latam_form : option bool)
    (fill_results : list ValidationResult) (extracted_data : gmap string string)
    (w : LatamForm.world Page) :
  let out := retry latam_form fill_results extracted_data w in
  length (snd out) = length fill_results
  /\ (forall (i : nat) (r : ValidationResult),
        fill_results !! i = Some r -> is_valid r = true -> snd out !! i = Some r)
  /\ (Forall (fun r => is_valid r = true) fill_results -> out = (w, fill_results))
  /\ exists calls : list (string * string),
       LatamForm.fill_calls (fst out) = LatamForm.fill_calls w ++ calls
       /\ length calls <= length (List.filter failed fill_results)
       /\ forall k v : string,
            (k, v) ∈ calls ->
            latam_form = Some true /\ extracted_data !! k = Some v
            /\ k ∈ (LatamForm.field_mappings now_year).*1.
Proof.
  cbv zeta. split; [|split; [|split]].
  - revert w. induction fill_results as [|r rs IH]; intros w; [reflexivity|].
    destruct (retry_cons latam_form r rs extracted_data w) as (w1 & retried & -> & _).
    cbn [snd length]. rewrite IH. reflexivity.
  - revert w. induction fill_results as [|r rs IH]; intros w i r' Hi Hr';
      [discriminate Hi|].
    destruct (retry_cons latam_form r rs extracted_data w) as (w1 & retried & -> & Hkeep).
    cbn [snd]. destruct i as [|i].
    + cbn in Hi |- *. injection Hi as ->. destruct (Hkeep Hr') as [_ ->]. reflexivity.
    + cbn in Hi |- *. apply (IH w1 i r' Hi Hr').
  - intros Hall. revert w. induction Hall as [|r rs Hr _ IH]; intros w; [reflexivity|].
    destruct (retry_cons latam_form r rs extracted_data w) as (w1 & retried & -> & Hkeep).
    destruct (Hkeep Hr) as [-> ->]. rewrite IH. reflexivity.
  - exists (concat (map (retried_call latam_form extracted_data) fill_results)).
    split; [apply retry_log|]. split.
    + clear w. induction fill_results as [|r rs IH]; [reflexivity|].
      cbn [map concat List.filter]. rewrite length_app.
      pose proof (retried_call_short latam_form extracted_data r) as Hr.
      unfold failed at 1. destruct (is_valid r); cbn [negb length]; lia.
    + intros k v Hin. apply list_elem_of_In, in_concat in Hin as (calls & Hcalls & Hin).
      apply in_map_iff in Hcalls as (r & <- & _).
      apply list_elem_of_In, retried_call_spec in Hin as (_ & H1 & H2 & H3). auto.
Qed.

Lemma vuelo_single_fill (value : string) (w : LatamForm.world Page) :
  fill_single (Some true) "vuelo" value w
  = (LatamForm.mkWorld (LatamForm.page w) (LatamForm.fill_calls w ++ [("vuelo", value)]),
     LatamForm.fill_error "vuelo" "name 're' is not defined").
Proof. reflexivity. Qed.

(** X27.  A retry cannot repair the flight-number field: wherever its
    failed result stands in the list, the retried list holds the same
    failure again - the transform raises before the page is reached. *)
Theorem retry_cannot_repair_flight_number (fill_results : list ValidationResult)
    (extracted_data : gmap string string) (w : LatamForm.world Page)
    (i : nat) (msg value : string) :
  fill_results !! i = Some (LatamForm.fill_error "vuelo" msg) ->
  extracted_data !! "vuelo" = Some value ->
  snd (retry (Some true) fill_results extracted_data w) !! i
  = Some (LatamForm.fill_error "vuelo" "name 're' is not defined").
Proof.
  intros Hi Hv. revert i w Hi.
  induction fill_results as [|r rs IH]; intros i w Hi; [discriminate Hi|].
  destruct i as [|i].
  - cbn in Hi. injection Hi as ->.
    cbn [FormFiller.retry_failed_fields].
    change (is_valid (LatamForm.fill_error "vuelo" msg)) with false. cbn [negb].
    rewrite (name_of_fill_error "vuelo" msg); [|split; [discriminate|]|..]; try reflexivity.
    rewrite Hv, vuelo_single_fill.
    destruct (retry (Some true) rs extracted_data _) as [w2 rr]. reflexivity.
  - cbn in Hi.
    destruct (retry_cons (Some true) r rs extracted_data w) as (w1 & retried & -> & _).
    cbn [snd]. cbn. apply (IH i w1 Hi).
Qed.

(** X28.  The read-only country field is never written: filling it only
    queries the page, so neither the value passed nor the way the page
    reacts to clicks and keystrokes has any effect on the outcome. *)
Theorem read_only_field_is_never_written
    (perform' : LatamForm.action -> Page -> Page * LatamForm.outcome unit)
    (value value' : string) (w : LatamForm.world Page) :
  let out := fill_single (Some true) "pais" value w in
  let out' :=
    FormFiller.fill_single_field Page perform' query now_year (Some true) "pais" value' w in
  LatamForm.page (fst out) = LatamForm.page (fst out')
  /\ snd out = snd out'
  /\ LatamForm.page (fst out) = fst (query (LatamForm.by_id "input" "form:ciudadPrioridadNombrePais")
                                        (LatamForm.page w)).
Proof.
  cbv zeta. unfold FormFiller.fill_single_field. cbn [negb].
  change (FormFiller.config_of (LatamForm.field_mappings now_year) "pais")
    with (Some (LatamForm.mkConfig (LatamForm.by_id "input" "form:ciudadPrioridadNombrePais")
                  None None true)).
  unfold LatamForm._fill_field, LatamForm.fill_on_page.
  cbn [LatamForm.selector LatamForm.transform LatamForm.type_ LatamForm.read_only].
  change (bool_decide (None = Some "select")
          || Py.contains "label" (LatamForm.by_id "input" "form:ciudadPrioridadNombrePais"))
    with false.
  cbn match.
  destruct (query _ (LatamForm.page w)) as [p' [[|text]|msg]]; cbn [fst snd];
    try (destruct (Py.forall_chars Py.is_space text)); auto.
Qed.

End RetryFacts.

Lemma retry_of_valid_results :
  FormFiller.retry_failed_fields unit quiet_perform quiet_query 2026 (Some true)
    [RulesEngine.ok; RulesEngine.ok] (<["pnr" := "ABC123"]> ∅) fresh_world
  = (fresh_world, [RulesEngine.ok; RulesEngine.ok]).
Proof.
  apply (retry_keeps_the_valid_results unit quiet_perform quiet_query 2026 (Some true)
           [RulesEngine.ok; RulesEngine.ok] (<["pnr" := "ABC123"]> ∅) fresh_world).
  repeat constructor.
Defined.

Lemma retry_after_the_class_Y_run :
  snd (FormFiller.retry_failed_fields unit quiet_perform quiet_query 2026 (Some true)
         [RulesEngine.ok; LatamForm.fill_error "vuelo" "name 're' is not defined"]
         (<["vuelo" := "6375"]> ∅) fresh_world) !! 1
  = Some (LatamForm.fill_error "vuelo" "name 're' is not defined").
Proof.
  apply (retry_cannot_repair_flight_number unit quiet_perform quiet_query 2026
           [RulesEngine.ok; LatamForm.fill_error "vuelo" "name 're' is not defined"]
           (<["vuelo" := "6375"]> ∅) fresh_world 1 "name 're' is not defined" "6375").
  - reflexivity.
  - reflexivity.
Defined.
